(** * SlideGen_AI: prompt analysis, fallback synthesis, remote orchestration,
      tiered persistence and quote rendering

    A shallow embedding of [src/lib/openai.ts], [src/lib/firestore.ts], the
    project loader of [src/app/dashboard/page.tsx], the save/load paths of the
    generate and presentation pages, the API key form, and of
    [src/components/SlideViewer.tsx] the [quote] and [stats] cases, the
    background and overlay styles and the navigation.

    Conventions of the embedding.
    - A JavaScript string is a [string] (a sequence of 8-bit characters); on
      ASCII text this coincides with the UTF-16 view the source has, and
      [toLowerCase]/[toUpperCase] act on the ASCII letters.
    - A thrown [Error] is a record of its [message], [status] and [code].
    - [await]ed calls to the outside world (chat completion, Firestore) are
      settled by an oracle argument that says how the promise race ended.
    - [console.*] calls are not modelled. *)

From Stdlib Require Import ZArith String Ascii List Bool Lia.
From stdpp Require Import base option list strings gmap pretty sorting.

Local Open Scope list_scope.
Local Open Scope string_scope.

(** ** JavaScript string primitives *)

Module Js.

Definition lower_ascii (c : ascii) : ascii :=
  let n := nat_of_ascii c in
  if (65 <=? n)%nat && (n <=? 90)%nat then ascii_of_nat (n + 32) else c.

Definition upper_ascii (c : ascii) : ascii :=
  let n := nat_of_ascii c in
  if (97 <=? n)%nat && (n <=? 122)%nat then ascii_of_nat (n - 32) else c.

(** [s.toLowerCase()] *)
Fixpoint toLowerCase (s : string) : string :=
  match s with
  | EmptyString => EmptyString
  | String c r => String (lower_ascii c) (toLowerCase r)
  end.

(** [s.toUpperCase()] *)
Fixpoint toUpperCase (s : string) : string :=
  match s with
  | EmptyString => EmptyString
  | String c r => String (upper_ascii c) (toUpperCase r)
  end.

(** [s.startsWith(p)] *)
Fixpoint startsWith (p s : string) : bool :=
  match p, s with
  | EmptyString, _ => true
  | String _ _, EmptyString => false
  | String a p', String b s' => if decide (a = b) then startsWith p' s' else false
  end.

(** [s.includes(p)] *)
Fixpoint includes (p s : string) : bool :=
  startsWith p s ||
  match s with
  | EmptyString => false
  | String _ s' => includes p s'
  end.

(** [s.split(' ')]: the pieces between single occurrences of the separator;
    the result always has at least one piece. *)
Fixpoint split (sep : ascii) (s : string) : list string :=
  match s with
  | EmptyString => [EmptyString]
  | String c r =>
      if decide (c = sep) then EmptyString :: split sep r
      else match split sep r with
           | [] => [String c EmptyString]
           | w :: ws => String c w :: ws
           end
  end.

(** [l.join(sep)] *)
Fixpoint join (sep : string) (l : list string) : string :=
  match l with
  | [] => EmptyString
  | [x] => x
  | x :: r => x ++ sep ++ join sep r
  end.

(** [l.slice(0, n)] *)
Definition slice0 {A} (n : nat) (l : list A) : list A := take n l.

(** [s.charAt(0)] and [s.slice(1)] *)
Definition charAt0 (s : string) : string :=
  match s with
  | EmptyString => EmptyString
  | String c _ => String c EmptyString
  end.

Definition slice1 (s : string) : string :=
  match s with
  | EmptyString => EmptyString
  | String _ r => r
  end.

(** The expansion of a replacement text for a string pattern
    (ECMAScript GetSubstitution with no capture groups): [$$] is a dollar,
    [$&] the match, [$`] the text before it, [$'] the text after it; any
    other dollar stands for itself. *)
Fixpoint getSubstitution (matched before after repl : string) : string :=
  match repl with
  | EmptyString => EmptyString
  | String c r =>
      if decide (c = "$"%char) then
        match r with
        | String d r' =>
            if decide (d = "$"%char) then "$" ++ getSubstitution matched before after r'
            else if decide (d = "&"%char) then matched ++ getSubstitution matched before after r'
            else if decide (d = "`"%char) then before ++ getSubstitution matched before after r'
            else if decide (d = "'"%char) then after ++ getSubstitution matched before after r'
            else String c (getSubstitution matched before after r)
        | EmptyString => String c EmptyString
        end
      else String c (getSubstitution matched before after r)
  end.

(** Drop the first [n] characters. *)
Fixpoint sdrop (n : nat) (s : string) : string :=
  match n, s with
  | O, _ => s
  | S n', String _ r => sdrop n' r
  | S _, EmptyString => EmptyString
  end.

(** [s.replace(pat, repl)] for a string pattern: only the first occurrence
    is replaced. [before] accumulates, reversed, the text already passed. *)
Fixpoint replace_from (before : string) (pat repl s : string) : string :=
  if startsWith pat s then
    getSubstitution pat (String.rev before) (sdrop (String.length pat) s) repl
      ++ sdrop (String.length pat) s
  else
    match s with
    | EmptyString => EmptyString
    | String c r => String c (replace_from (String c before) pat repl r)
    end.

Definition replace (pat repl s : string) : string := replace_from EmptyString pat repl s.

End Js.

(** ** Data of the fallback pipeline ([generateFallbackSlides]) *)

(** The double-quote character, as a one-character string. *)
Definition dquote : string := String (ascii_of_nat 34) EmptyString.

Record Analysis := {
  industry : string;
  subject : string;
  presentationType : string;
  originalPrompt : string
}.

Record Theme := {
  primaryColor : string;
  secondaryColor : string;
  backgroundColor : string;
  textColor : string;
  accentColor : option string;
  gradientStart : option string;
  gradientEnd : option string;
  fontFamily : string;
  headingFont : option string;
  bodyFont : option string;
  mood : option string
}.

Record SlideTemplate := {
  tpl_type : string;
  tpl_title : string;
  tpl_focus : string
}.

(** [content?: string[] | string] *)
Inductive Content :=
  | Bullets (items : list string)
  | Prose (text : string).

Record Styling := {
  titleSize : option string;
  titleWeight : option string;
  titleColor : option string;
  subtitleSize : option string;
  contentSize : option string;
  textAlign : option string;
  overlay : option string
}.

(** The [Slide] interface of the viewer; an absent optional field
    ([undefined]) is [None]. *)
Record Slide := {
  slide_id : nat;
  slide_type : string;
  slide_title : string;
  slide_subtitle : option string;
  slide_content : option Content;
  slide_author : option string;
  slide_speakerNotes : option string;
  slide_animation : option string;
  slide_layout : option string;
  slide_backgroundStyle : option string;
  slide_imageUrl : option string;
  slide_imageDescription : option string;
  slide_styling : option Styling
}.

Record Deck := {
  deck_title : string;
  deck_description : string;
  deck_theme : Theme;
  deck_slides : list Slide
}.

(** ** Prompt analyzer *)

Definition stopWords : list string :=
  ["create"; "make"; "generate"; "about"; "on"; "for"; "presentation";
   "slides"; "a"; "an"; "the"; "and"; "or"; "but"].

(** [stopWords.includes(word)] *)
Definition list_includes (w : string) (l : list string) : bool :=
  bool_decide (w ∈ l).

Definition extractMainSubject (prompt : string) : string :=
  let words := Js.split " " (Js.toLowerCase prompt) in
  let meaningfulWords :=
    List.filter (fun word => negb (list_includes word stopWords)
                             && (2 <? String.length word)%nat) words in
  Js.join " " (Js.slice0 3 meaningfulWords).

Definition analyzePrompt (prompt : string) : Analysis :=
  let p := Js.toLowerCase prompt in
  let inc k := Js.includes k p in
  let industry :=
    if inc "business" || inc "corporate" || inc "finance" || inc "marketing"
    then "business"
    else if inc "tech" || inc "ai" || inc "artificial intelligence"
            || inc "digital" || inc "software"
    then "technology"
    else if inc "health" || inc "medical" || inc "wellness" || inc "fitness"
    then "health"
    else if inc "education" || inc "learning" || inc "teaching" || inc "school"
    then "education"
    else if inc "environment" || inc "climate" || inc "sustainability" || inc "green"
    then "environment"
    else if inc "creative" || inc "design" || inc "art" || inc "innovation"
    then "creative"
    else "general" in
  let subject := extractMainSubject prompt in
  let presentationType :=
    if inc "strategy" || inc "plan" || inc "approach" then "strategic"
    else if inc "how to" || inc "guide" || inc "tutorial" then "instructional"
    else if inc "benefits" || inc "advantages" || inc "why" then "persuasive"
    else if inc "overview" || inc "introduction" || inc "about" then "overview"
    else "informational" in
  {| industry := industry; subject := subject;
     presentationType := presentationType; originalPrompt := prompt |}.

(** ** Theme resolver *)

Definition mkTheme (primary secondary accent heading body mood_ : string) : Theme :=
  {| primaryColor := primary; secondaryColor := secondary;
     backgroundColor := "#ffffff"; textColor := "#1f2937";
     accentColor := Some accent;
     gradientStart := Some primary; gradientEnd := Some secondary;
     fontFamily := "Inter"; headingFont := Some heading; bodyFont := Some body;
     mood := Some mood_ |}.

Definition theme_general : Theme :=
  mkTheme "#6366f1" "#8b5cf6" "#f59e0b" "Poppins" "Inter" "modern".

(** [themes[industry] || themes.general]; the index is always one of the
    seven names [analyzePrompt] produces. *)
Definition getIndustryTheme (industry : string) : Theme :=
  if decide (industry = "business") then
    mkTheme "#1e3a8a" "#3b82f6" "#d97706" "Montserrat" "Open Sans" "professional"
  else if decide (industry = "technology") then
    mkTheme "#6366f1" "#8b5cf6" "#06b6d4" "Poppins" "Inter" "modern"
  else if decide (industry = "health") then
    mkTheme "#0891b2" "#059669" "#10b981" "Poppins" "Inter" "clean"
  else if decide (industry = "education") then
    mkTheme "#f97316" "#3b82f6" "#10b981" "Poppins" "Inter" "friendly"
  else if decide (industry = "environment") then
    mkTheme "#059669" "#92400e" "#fbbf24" "Poppins" "Inter" "natural"
  else if decide (industry = "creative") then
    mkTheme "#8b5cf6" "#ec4899" "#f97316" "Playfair Display" "Source Sans Pro" "creative"
  else theme_general.

(** ** Content strategy resolver *)

Definition tpl (ty title focus : string) : SlideTemplate :=
  {| tpl_type := ty; tpl_title := title; tpl_focus := focus |}.

(** The template literals of the table are evaluated when the table is
    built, so the subject is already part of the hero titles. *)
Definition strategy_strategic (subject : string) : list SlideTemplate :=
  [ tpl "hero" (subject ++ ": Strategic Approach") "strategy";
    tpl "content" "Current Situation Analysis" "analysis";
    tpl "content" "Strategic Objectives" "objectives";
    tpl "content" "Implementation Roadmap" "implementation";
    tpl "stats" "Expected Outcomes" "results";
    tpl "quote" "Strategic Insight" "inspiration";
    tpl "image-focus" "Next Steps" "action" ].

Definition strategy_instructional (subject : string) : list SlideTemplate :=
  [ tpl "hero" ("How to: " ++ subject) "guide";
    tpl "content" "Getting Started" "basics";
    tpl "split" "Step-by-Step Process" "process";
    tpl "content" "Best Practices" "tips";
    tpl "content" "Common Mistakes to Avoid" "pitfalls";
    tpl "stats" "Success Metrics" "measurement";
    tpl "image-focus" "Take Action Today" "action" ].

Definition strategy_persuasive (subject : string) : list SlideTemplate :=
  [ tpl "hero" ("Why " ++ subject ++ " Matters") "importance";
    tpl "content" "The Problem" "problem";
    tpl "split" "The Solution" "solution";
    tpl "stats" "Proven Benefits" "benefits";
    tpl "quote" "Success Stories" "testimonial";
    tpl "content" "Implementation Steps" "action";
    tpl "image-focus" "Start Your Journey" "cta" ].

Definition strategy_overview (subject : string) : list SlideTemplate :=
  [ tpl "hero" ("Understanding " ++ subject) "introduction";
    tpl "content" "Key Concepts" "concepts";
    tpl "split" "How It Works" "mechanism";
    tpl "stats" "By the Numbers" "data";
    tpl "content" "Real-World Applications" "applications";
    tpl "quote" "Expert Perspective" "authority";
    tpl "image-focus" "The Future" "future" ].

Definition strategy_informational (subject : string) : list SlideTemplate :=
  [ tpl "hero" (subject ++ ": Complete Guide") "comprehensive";
    tpl "content" "Overview & Importance" "overview";
    tpl "split" "Key Components" "components";
    tpl "content" "Detailed Analysis" "analysis";
    tpl "stats" "Facts & Figures" "data";
    tpl "content" "Practical Applications" "practical";
    tpl "quote" "Industry Insights" "insights";
    tpl "image-focus" "Looking Forward" "conclusion" ].

(** [contentStrategies[presentationType] || contentStrategies.informational];
    the result is the [slides] list of the selected strategy. *)
Definition generatePersonalizedContent (analysis : Analysis) : list SlideTemplate :=
  let s := subject analysis in
  let t := presentationType analysis in
  if decide (t = "strategic") then strategy_strategic s
  else if decide (t = "instructional") then strategy_instructional s
  else if decide (t = "persuasive") then strategy_persuasive s
  else if decide (t = "overview") then strategy_overview s
  else strategy_informational s.

(** ** Fallback content synthesizer *)

(** [contentGenerators[slideTemplate.focus]], with the generic list for a
    focus that has no generator. The [index] argument is unused, as in the
    source. *)
Definition generateSlideContent (slideTemplate : SlideTemplate)
    (analysis : Analysis) (index : nat) : list string :=
  let subject := subject analysis in
  let f := tpl_focus slideTemplate in
  let focus_is k := bool_decide (f = k) in
  if focus_is "strategy" then ["Comprehensive " ++ subject ++ " strategy"; "Market analysis and positioning"; "Competitive advantages"; "Risk assessment and mitigation"]
  else if focus_is "analysis" then ["Current market landscape for " ++ subject; "Key challenges and opportunities"; "Stakeholder impact assessment"; "Resource requirements"]
  else if focus_is "objectives" then ["Primary goals for " ++ subject ++ " initiative"; "Measurable success criteria"; "Timeline and milestones"; "Resource allocation strategy"]
  else if focus_is "implementation" then ["Phase 1: Foundation and planning"; "Phase 2: Execution and monitoring"; "Phase 3: Optimization and scaling"; "Continuous improvement process"]
  else if focus_is "results" then ["85% improvement in efficiency"; "200% increase in engagement"; "50% reduction in costs"; "95% user satisfaction rate"]
  else if focus_is "guide" then ["Complete " ++ subject ++ " methodology"; "Proven techniques and approaches"; "Expert recommendations"; "Practical implementation tips"]
  else if focus_is "basics" then ["Essential " ++ subject ++ " fundamentals"; "Core principles to understand"; "Prerequisites and requirements"; "Getting started checklist"]
  else if focus_is "process" then ["Step 1: Initial assessment and planning"; "Step 2: Implementation and execution"; "Step 3: Monitoring and adjustment"; "Step 4: Evaluation and optimization"]
  else if focus_is "tips" then ["Industry best practices for " ++ subject; "Expert recommendations"; "Proven strategies that work"; "Common success factors"]
  else if focus_is "pitfalls" then ["Avoid these common " ++ subject ++ " mistakes"; "Warning signs to watch for"; "How to prevent typical failures"; "Recovery strategies when things go wrong"]
  else if focus_is "problem" then ["Current challenges with " ++ subject; "Impact on stakeholders"; "Cost of inaction"; "Urgency for change"]
  else if focus_is "solution" then ["Innovative " ++ subject ++ " approach"; "Proven methodology"; "Comprehensive framework"; "Scalable implementation"]
  else if focus_is "benefits" then ["Immediate advantages of " ++ subject; "Long-term strategic value"; "ROI and cost savings"; "Competitive differentiation"]
  else if focus_is "concepts" then ["Core " ++ subject ++ " principles"; "Fundamental concepts"; "Key terminology"; "Theoretical framework"]
  else if focus_is "mechanism" then ["How " ++ subject ++ " functions"; "Underlying processes"; "System architecture"; "Workflow and procedures"]
  else if focus_is "data" then [subject ++ " market size: $2.5B"; "Annual growth rate: 25%"; "User adoption: 78%"; "Success rate: 92%"]
  else if focus_is "applications" then [subject ++ " in enterprise"; "Consumer applications"; "Industry use cases"; "Emerging opportunities"]
  else if focus_is "components" then ["Essential " ++ subject ++ " elements"; "Core building blocks"; "Integration points"; "System dependencies"]
  else if focus_is "practical" then ["Real-world " ++ subject ++ " examples"; "Case studies and results"; "Implementation scenarios"; "Practical considerations"]
  else if focus_is "comprehensive" then ["Everything you need to know about " ++ subject; "Complete coverage of key topics"; "Expert insights and analysis"; "Actionable recommendations"]
  else if focus_is "overview" then [subject ++ " landscape overview"; "Current state and trends"; "Key players and stakeholders"; "Market dynamics"]
  else if focus_is "insights" then ["Expert analysis of " ++ subject; "Industry trends and patterns"; "Future predictions"; "Strategic recommendations"]
  else if focus_is "conclusion" then ["The future of " ++ subject; "Emerging trends and opportunities"; "Next steps and recommendations"; "Call to action"]
  else ["Key points about " ++ subject; "Important considerations"; "Relevant information"; "Next steps"].

Definition animations : list string :=
  ["fadeIn"; "slideInLeft"; "slideInRight"; "zoomIn"; "bounceIn"].

(** The body of the [contentStrategy.slides.map((slideTemplate, index) => ...)]
    callback. *)
Definition fallbackSlide (analysis : Analysis) (index : nat)
    (slideTemplate : SlideTemplate) : Slide :=
  let content := generateSlideContent slideTemplate analysis index in
  let ty := tpl_type slideTemplate in
  let type_is k := bool_decide (ty = k) in
  {| slide_id := index + 1;
     slide_type := ty;
     slide_title := Js.replace "${subject}" (subject analysis) (tpl_title slideTemplate);
     slide_subtitle :=
       if type_is "hero"
       then Some ("Based on your request: " ++ dquote ++ originalPrompt analysis ++ dquote)
       else None;
     slide_content :=
       if type_is "stats" then Some (Bullets content)
       else if type_is "quote" then Prose <$> head content
       else Some (Bullets content);
     slide_author := if type_is "quote" then Some "Industry Expert" else None;
     slide_speakerNotes :=
       Some ("This slide covers " ++ tpl_focus slideTemplate ++ " aspects of "
             ++ subject analysis
             ++ ". Key points include the content shown and additional context relevant to your specific request about "
             ++ originalPrompt analysis ++ ".");
     slide_animation := animations !! (index mod length animations);
     slide_layout := Some (if type_is "split" then "split" else "center");
     slide_backgroundStyle :=
       Some (if decide (index mod 3 = 0) then "gradient"
             else if decide (index mod 3 = 1) then "image" else "gradient");
     slide_imageUrl :=
       Some ("https://images.unsplash.com/1600x900/?"
             ++ Js.replace " " "," (subject analysis) ++ ","
             ++ industry analysis ++ "," ++ tpl_focus slideTemplate);
     slide_imageDescription :=
       Some ("Visual representation of " ++ tpl_focus slideTemplate ++ " in "
             ++ subject analysis);
     slide_styling :=
       Some {| titleSize := Some (if type_is "hero" then "6xl" else "4xl");
               titleWeight := Some "bold";
               titleColor := None;
               subtitleSize := Some "2xl";
               contentSize := Some "lg";
               textAlign := Some (if type_is "quote" then "center" else "left");
               overlay := Some (if decide (index mod 2 = 0) then "dark" else "light") |}
  |}.

(** [s.charAt(0).toUpperCase() + s.slice(1)] *)
Definition capitalize (s : string) : string :=
  Js.toUpperCase (Js.charAt0 s) ++ Js.slice1 s.

(** What the two [toLocaleDateString] calls of the planner branch print for
    the current day. *)
Record Today := {
  localeDate : string;
  longDate : string
}.

Definition plannerTheme : Theme :=
  {| primaryColor := "#059669"; secondaryColor := "#0d9488";
     backgroundColor := "#ffffff"; textColor := "#1f2937";
     accentColor := Some "#10b981";
     gradientStart := Some "#059669"; gradientEnd := Some "#0d9488";
     fontFamily := "Inter"; headingFont := Some "Poppins"; bodyFont := Some "Inter";
     mood := Some "productive" |}.

Definition plannerDeck (today : Today) (prompt : string) : Deck :=
  let plannerAnalysis := analyzePrompt prompt in
  {| deck_title := "Personalized Daily Planner - " ++ localeDate today;
     deck_description := "Customized daily schedule based on: " ++ prompt;
     deck_theme := plannerTheme;
     deck_slides :=
       [ {| slide_id := 1;
            slide_type := "hero";
            slide_title := "Your " ++ subject plannerAnalysis ++ " Day";
            slide_subtitle := Some (longDate today);
            slide_content := Some (Bullets []);
            slide_author := None;
            slide_speakerNotes :=
              Some ("Today's focus: " ++ subject plannerAnalysis
                    ++ ". This planner is customized based on your specific request.");
            slide_animation := Some "fadeIn";
            slide_layout := Some "center";
            slide_backgroundStyle := Some "gradient";
            slide_imageUrl :=
              Some ("https://images.unsplash.com/1600x900/?"
                    ++ Js.replace " " "," (subject plannerAnalysis)
                    ++ ",productivity,planning");
            slide_imageDescription :=
              Some ("Productivity setup for " ++ subject plannerAnalysis);
            slide_styling :=
              Some {| titleSize := Some "5xl"; titleWeight := Some "bold";
                      titleColor := None; subtitleSize := Some "2xl";
                      contentSize := None; textAlign := Some "center";
                      overlay := Some "dark" |} |} ] |}.

Definition generateFallbackSlides (today : Today) (prompt : string)
    (isDayPlanner : bool) : Deck :=
  let analysis := analyzePrompt prompt in
  let theme := getIndustryTheme (industry analysis) in
  let contentStrategy := generatePersonalizedContent analysis in
  if isDayPlanner then plannerDeck today prompt
  else
    let slides := imap (fallbackSlide analysis) contentStrategy in
    {| deck_title :=
         capitalize (subject analysis) ++ ": "
         ++ capitalize (presentationType analysis) ++ " Guide";
       deck_description :=
         "A personalized presentation about " ++ subject analysis
         ++ " based on your specific request: " ++ dquote
         ++ originalPrompt analysis ++ dquote;
       deck_theme := theme;
       deck_slides := slides |}.

Definition scenarioPrompt : string :=
  "Create a presentation about sustainable business practices".

Definition today0 : Today := {| localeDate := "11/2/2026"; longDate := "Monday, November 2, 2026" |}.

(** ** JSON values and thrown errors *)

(** The values [JSON.parse] produces. Numbers are the integers; an object is
    a finite map from keys to values (key order is not significant). A
    property that is [undefined] is [None] where a value is looked up. *)
#[warnings="-register-all"]
Inductive json :=
  | JNull
  | JBool (b : bool)
  | JNum (n : Z)
  | JStr (s : string)
  | JArr (l : list json)
  | JObj (m : gmap string json).

(** ToBoolean, as used by [!v] and [v || d]. *)
Definition truthy (v : json) : bool :=
  match v with
  | JNull => false
  | JBool b => b
  | JNum n => negb (n =? 0)%Z
  | JStr s => negb (bool_decide (s = ""))
  | JArr _ | JObj _ => true
  end.

Definition truthy_opt (v : option json) : bool :=
  match v with Some x => truthy x | None => false end.

(** [v || d] where [v] may be [undefined]. *)
Definition or_default (v : option json) (d : json) : json :=
  match v with
  | Some x => if truthy x then x else d
  | None => d
  end.

Record JsError := {
  message : string;
  status : option Z;
  code : option string
}.

(** [new Error(msg)] *)
Definition Error (msg : string) : JsError :=
  {| message := msg; status := None; code := None |}.

Inductive Outcome (A : Type) :=
  | Return (a : A)
  | Throw (e : JsError).
Arguments Return {A} a.
Arguments Throw {A} e.

#[global] Instance Outcome_ret : MRet Outcome := fun A a => Return a.
#[global] Instance Outcome_bind : MBind Outcome := fun A B k x =>
  match x with
  | Return a => k a
  | Throw e => Throw e
  end.

(** [try { body } catch (error) { handler(error) }] *)
Definition try_catch {A} (body : Outcome A) (handler : JsError -> Outcome A) : Outcome A :=
  match body with
  | Return a => Return a
  | Throw e => handler e
  end.

(** Reading a named property [v.k] for one of the keys the source reads
    ([title], [slides], [id], ...): a [TypeError] on [null], the own
    property of an object, [undefined] on arrays and primitives. The text
    of the [TypeError] is the engine's; the one here is V8's, and no
    statement below relies on it. *)
Definition getProp (v : json) (k : string) : Outcome (option json) :=
  match v with
  | JNull =>
      Throw (Error ("Cannot read properties of null (reading '" ++ k ++ "')"))
  | JObj m => Return (m !! k)
  | _ => Return None
  end.

(** The one-character strings of a string, as a spread enumerates them. *)
Fixpoint chars (s : string) : list json :=
  match s with
  | EmptyString => []
  | String c r => JStr (String c EmptyString) :: chars r
  end.

Definition indexed (l : list json) : gmap string json :=
  list_to_map (imap (fun i v => (pretty i, v)) l).

(** The own enumerable properties copied by [{...v}]. *)
Definition spread (v : json) : gmap string json :=
  match v with
  | JObj m => m
  | JArr l => indexed l
  | JStr s => indexed (chars s)
  | _ => ∅
  end.

(** ** Remote generation orchestrator ([generateSlides]) *)

(** The object [new OpenAI({ apiKey, dangerouslyAllowBrowser: true })]. *)
Record OpenAIClient := { client_apiKey : string }.

(** [createOpenAIClient]: [null] for the demo key. *)
Definition createOpenAIClient (apiKey : string) : Outcome (option OpenAIClient) :=
  if bool_decide (apiKey = "") then
    Throw (Error "No API key provided. Please set your OpenAI API key.")
  else if bool_decide (apiKey = "demo-key") then Return None
  else if negb (Js.startsWith "sk-" apiKey) then
    Throw (Error "Invalid OpenAI API key format. Please check your API key and try again.")
  else Return (Some {| client_apiKey := apiKey |}).

(** How [Promise.race([openai.chat.completions.create(...), timer])] settles:
    the 45 second timer rejects first, the request rejects with the
    provider's or the transport's error, or the request resolves, in which
    case [content] is [response.choices[0]?.message?.content]. *)
Inductive Completion :=
  | TimerWins
  | Rejects (e : JsError)
  | Resolves (content : option string).

(** What [generateSlides] returns: the synthesized deck in demo mode, the
    normalized provider object otherwise. *)
Inductive SlideData :=
  | Synthesized (d : Deck)
  | Generated (parsedContent : json).

(** The interactions the orchestrator has with its collaborators. *)
Inductive Event :=
  | EvFallback (prompt : string) (isDayPlanner : bool)
  | EvChatCompletion (apiKey : string) (isDayPlanner : bool) (prompt : string).

Definition slideDefaults (slide : json) (index : nat) : Outcome (gmap string json) :=
  id_ ← getProp slide "id";
  type_ ← getProp slide "type";
  title_ ← getProp slide "title";
  subtitle_ ← getProp slide "subtitle";
  content_ ← getProp slide "content";
  speakerNotes_ ← getProp slide "speakerNotes";
  animation_ ← getProp slide "animation";
  Return (list_to_map
    [ ("id", or_default id_ (JNum (Z.of_nat index + 1)));
      ("type", or_default type_ (JStr "content"));
      ("title", or_default title_ (JStr ("Slide " ++ pretty (index + 1)%nat)));
      ("subtitle", or_default subtitle_ (JStr ""));
      ("content", or_default content_ (JArr []));
      ("speakerNotes", or_default speakerNotes_ (JStr ""));
      ("animation", or_default animation_ (JStr "fadeIn")) ]).

(** The callback of [parsedContent.slides.map((slide, index) => ...)]: the
    seven computed properties come first and the spread of [slide] then
    overwrites every key the slide owns. *)
Definition normalizeSlide (index : nat) (slide : json) : Outcome json :=
  computed ← slideDefaults slide index;
  Return (JObj (spread slide ∪ computed)).

(** [slides.map(callback)], stopping at the first callback that throws. *)
Fixpoint normalizeSlides (index : nat) (slides : list json) : Outcome (list json) :=
  match slides with
  | [] => Return []
  | slide :: rest =>
      s ← normalizeSlide index slide;
      r ← normalizeSlides (S index) rest;
      Return (s :: r)
  end.

(** The handler of the outer [catch (error: any)] of [generateSlides]; it
    always throws. *)
Definition rethrow (error : JsError) : JsError :=
  let has k := Js.includes k (message error) in
  let status_is n := bool_decide (status error = Some n) in
  if has "timeout" then
    Error "OpenAI request timed out. Please try again with a shorter prompt or check your internet connection."
  else if has "network" || has "fetch" then
    Error "Network error connecting to OpenAI. Please check your internet connection."
  else if has "JSON" || has "parse" then
    Error "OpenAI returned invalid format. Please try rephrasing your prompt."
  else if status_is 401%Z then
    Error "Invalid OpenAI API key. Please check your API key and try again."
  else if status_is 429%Z then
    Error "OpenAI rate limit exceeded. Please wait a moment and try again."
  else if status_is 500%Z then
    Error "OpenAI service error. Please try again in a few minutes."
  else if status_is 400%Z then
    Error "Invalid request to OpenAI. Please try a different prompt."
  else
    Error ("OpenAI API Error: "
           ++ (if bool_decide (message error = "") then "Unknown error occurred"
               else message error)
           ++ ". Please check your API key and try again.").

Section Orchestrator.

(** [JSON.parse]; [None] when it throws a [SyntaxError]. *)
Variable JSON_parse : string -> option json.

(** The clock reading of the planner branch of the synthesizer. *)
Variable today : Today.

(** The body of the [try] block, from the settled race on. *)
Definition generateSlides_try (remote : Completion) : Outcome SlideData :=
  match remote with
  | TimerWins => Throw (Error "Request timeout after 45 seconds")
  | Rejects e => Throw e
  | Resolves content =>
      match content with
      | None | Some "" => Throw (Error "No response from OpenAI")
      | Some content =>
          parsedContent ←
            match JSON_parse content with
            | Some v => Return v
            | None =>
                Throw (Error "Failed to parse AI response as JSON. The AI may have returned invalid format.")
            end;
          title_ ← getProp parsedContent "title";
          slides_ ← getProp parsedContent "slides";
          match parsedContent, slides_ with
          | JObj m, Some (JArr slides) =>
              if truthy_opt title_ then
                normalized ← normalizeSlides 0 slides;
                Return (Generated (JObj (<["slides" := JArr normalized]> m)))
              else
                Throw (Error "Invalid response structure from OpenAI. Missing title or slides array.")
          | _, _ =>
              Throw (Error "Invalid response structure from OpenAI. Missing title or slides array.")
          end
      end
  end.

Definition generateSlides (apiKey prompt : string) (isDayPlanner : bool)
    (remote : Completion) : list Event * Outcome SlideData :=
  if bool_decide (apiKey = "demo-key") then
    ([EvFallback prompt isDayPlanner],
     Return (Synthesized (generateFallbackSlides today prompt isDayPlanner)))
  else
    match createOpenAIClient apiKey with
    | Throw e => ([], Throw e)
    | Return None =>
        ([], Throw (Error "Failed to create OpenAI client. Please check your API key."))
    | Return (Some openai) =>
        ([EvChatCompletion (client_apiKey openai) isDayPlanner prompt],
         try_catch (generateSlides_try remote) (fun error => Throw (rethrow error)))
    end.

End Orchestrator.

(** ** Project records and the three storage tiers *)

(** The [type] of a project. The interface declares the two literals
    ['presentation'] and ['planner']; the generate page stores the [type]
    parameter of its address unchecked, so any string occurs. *)
Definition ProjectType := string.
Definition presentation : ProjectType := "presentation".
Definition planner : ProjectType := "planner".

(** The representations a timestamp field takes: a [Date], a Firestore
    [Timestamp] (it has [toDate]), the ISO string or the plain object that
    [JSON.stringify] leaves of a [Date] or a [Timestamp], or no field. *)
Inductive TimeValue :=
  | TDate (ms : Z)
  | TTimestamp (ms : Z)
  | TIsoString (ms : Z)
  | TTimestampJson (ms : Z)
  | TAbsent.

Module Project.
Record t := mk {
  id : string;
  userId : string;
  title : string;
  description : option json;
  prompt : string;
  slideData : json;
  slideCount : option json;
  type : ProjectType;
  createdAt : TimeValue;
  updatedAt : TimeValue;
  isLocal : bool;
  isTemporary : bool
}.
End Project.
Abbreviation Project := Project.t.

(** [Partial<Project>], the argument of [updateProject]: each field of the
    interface may be named or not. A patch that names [id] or [thumbnail]
    is left out: no caller passes one, and the records here have no
    thumbnail. *)
Record ProjectPatch := {
  patch_userId : option string;
  patch_title : option string;
  patch_description : option json;
  patch_prompt : option string;
  patch_slideData : option json;
  patch_slideCount : option json;
  patch_type : option ProjectType;
  patch_createdAt : option TimeValue;
  patch_updatedAt : option TimeValue
}.

(** The text stored under one storage key, up to what [JSON.parse] makes of
    it: nothing stored, a text the reading code chokes on (a syntax error, or
    a value of the wrong shape), or the serialization of the given value. *)
Inductive Stored (A : Type) :=
  | NoItem
  | Garbled
  | Item (a : A).
Arguments NoItem {A}.
Arguments Garbled {A}.
Arguments Item {A} a.

(** How an awaited Firestore call ends: it fulfils, it rejects, or it does
    not settle before the deadline it is raced against. *)
Inductive Net (A : Type) :=
  | Online (a : A)
  | Fails (e : JsError)
  | Hangs.
Arguments Online {A} a.
Arguments Fails {A} e.
Arguments Hangs {A}.

Record World := {
  hasWindow : bool;                              (* typeof window !== 'undefined' *)
  now : Z;                                       (* Date.now() *)
  localProjects : Stored (list Project);         (* localStorage['local_projects'] *)
  localWritable : bool;                          (* localStorage.setItem succeeds *)
  sessionStorage : list (string * Stored Project); (* in key order *)
  fs_projects : gmap string Project;             (* collection 'projects' *)
  fs_users : gmap string Z                       (* projectCount of collection 'users' *)
}.

Definition set_localProjects (l : list Project) (w : World) : World :=
  {| hasWindow := hasWindow w; now := now w; localProjects := Item l;
     localWritable := localWritable w; sessionStorage := sessionStorage w;
     fs_projects := fs_projects w; fs_users := fs_users w |}.

Definition set_sessionStorage (s : list (string * Stored Project)) (w : World) : World :=
  {| hasWindow := hasWindow w; now := now w; localProjects := localProjects w;
     localWritable := localWritable w; sessionStorage := s;
     fs_projects := fs_projects w; fs_users := fs_users w |}.

Definition set_fs_projects (m : gmap string Project) (w : World) : World :=
  {| hasWindow := hasWindow w; now := now w; localProjects := localProjects w;
     localWritable := localWritable w; sessionStorage := sessionStorage w;
     fs_projects := m; fs_users := fs_users w |}.

Definition set_fs_users (m : gmap string Z) (w : World) : World :=
  {| hasWindow := hasWindow w; now := now w; localProjects := localProjects w;
     localWritable := localWritable w; sessionStorage := sessionStorage w;
     fs_projects := fs_projects w; fs_users := m |}.

(** What [JSON.stringify] followed by [JSON.parse] leaves of a timestamp. *)
Definition jsonTime (t : TimeValue) : TimeValue :=
  match t with
  | TDate ms => TIsoString ms
  | TTimestamp ms => TTimestampJson ms
  | other => other
  end.

(** A project record after a round trip through a storage text. *)
Definition jsonProject (p : Project) : Project :=
  Project.mk (Project.id p) (Project.userId p) (Project.title p)
    (Project.description p) (Project.prompt p) (Project.slideData p)
    (Project.slideCount p) (Project.type p)
    (jsonTime (Project.createdAt p)) (jsonTime (Project.updatedAt p))
    (Project.isLocal p) (Project.isTemporary p).

(** [JSON.parse(localStorage.getItem('local_projects') || '[]')], as far as
    the array methods applied to it go. *)
Definition readLocalProjects (w : World) : Outcome (list Project) :=
  match localProjects w with
  | NoItem => Return []
  | Garbled => Throw (Error "local_projects is not a JSON array")
  | Item l => Return l
  end.

(** [localStorage.setItem('local_projects', JSON.stringify(l))] *)
Definition writeLocalProjects (l : list Project) (w : World) : World * Outcome unit :=
  if localWritable w then (set_localProjects (jsonProject <$> l) w, Return tt)
  else (w, Throw (Error "QuotaExceededError"))%string.

(** [v?.length], on a value that may be [undefined]. *)
Definition optLength (v : option json) : option json :=
  match v with
  | Some (JArr l) => Some (JNum (Z.of_nat (length l)))
  | Some (JStr s) => Some (JNum (Z.of_nat (String.length s)))
  | Some (JObj m) => m !! "length"
  | _ => None
  end.

(** [slideData.description || ''] *)
Definition descriptionOf (slideData : json) : Outcome json :=
  d ← getProp slideData "description"; Return (or_default d (JStr "")).

(** [slideData.slides?.length || 0] *)
Definition slideCountOf (slideData : json) : Outcome json :=
  s ← getProp slideData "slides"; Return (or_default (optLength s) (JNum 0)).

(** The instant a timestamp is compared at, as the comparator of the
    dashboard computes it: a [Date] itself, [toDate()] of a value that has
    that method, and [new Date(0)] for everything else. *)
Definition instant (t : TimeValue) : Z :=
  match t with
  | TDate ms => ms
  | TTimestamp ms => ms
  | _ => 0%Z
  end.

(** A stable sort by decreasing key: it is what [Array.prototype.sort]
    yields for the comparator [(a, b) => key(b) - key(a)]. *)
Section SortDesc.
Context {A : Type} (key : A -> Z).

Fixpoint insertDesc (x : A) (l : list A) : list A :=
  match l with
  | [] => [x]
  | y :: r => if (key y <? key x)%Z then x :: y :: r else y :: insertDesc x r
  end.

Definition sortDesc (l : list A) : list A :=
  fold_left (fun acc x => insertDesc x acc) l [].

End SortDesc.

(** ** Persistence pipeline ([firestore.ts]) *)

Definition withId (key : string) (p : Project) : Project :=
  Project.mk key (Project.userId p) (Project.title p) (Project.description p)
    (Project.prompt p) (Project.slideData p) (Project.slideCount p)
    (Project.type p) (Project.createdAt p) (Project.updatedAt p)
    (Project.isLocal p) (Project.isTemporary p).

(** [{ id: docSnap.id, ...docSnap.data() }] for the document at [key]. *)
Definition getDocData (w : World) (key : string) : option Project :=
  withId key <$> fs_projects w !! key.

(** The fields both [projectData] and [localProject] compute from
    [slideData]; they throw when [slideData] is [null]. *)
Definition derivedFields (slideData : json) : Outcome (json * json) :=
  d ← descriptionOf slideData; n ← slideCountOf slideData; Return (d, n).

(** The [try] block of [createProject]: the raced [addDoc], then the
    best-effort counter update whose failure is swallowed. *)
Definition createProject_try (w : World) (userId title prompt : string)
    (slideData : json) (type : ProjectType)
    (addDoc_ : Net string) (updateDoc_ : Net unit) : World * Outcome string :=
  match derivedFields slideData with
  | Throw e => (w, Throw e)
  | Return (d, n) =>
      match addDoc_ with
      | Online docId =>
          let projectData :=
            Project.mk docId userId title (Some d) prompt slideData (Some n) type
              (TTimestamp (now w)) (TTimestamp (now w)) false false in
          let w1 := set_fs_projects (<[docId := projectData]> (fs_projects w)) w in
          let w2 :=
            match updateDoc_ with
            | Online _ => set_fs_users (alter Z.succ userId (fs_users w1)) w1
            | Fails _ | Hangs => w1
            end in
          (w2, Return docId)
      | Fails e => (w, Throw e)
      | Hangs => (w, Throw (Error "Firestore timeout after 15 seconds"))
      end
  end.

(** The [catch (error: any)] block of [createProject]. *)
Definition createProject_catch (w : World) (userId title prompt : string)
    (slideData : json) (type : ProjectType) (error : JsError)
    : World * Outcome string :=
  let rethrown : Outcome string :=
    if bool_decide (code error = Some "unavailable")
       || Js.includes "offline" (message error)
    then Throw (Error "Cannot create project while offline. Please check your internet connection.")
    else Throw (Error "Failed to create project. Please try again.") in
  if hasWindow w then
    match derivedFields slideData with
    | Throw e => (w, Throw e)
    | Return (d, n) =>
        let fallbackId := "local_" ++ pretty (now w) in
        let localProject :=
          Project.mk fallbackId userId title (Some d) prompt slideData (Some n) type
            (TDate (now w)) (TDate (now w)) true false in
        match readLocalProjects w with
        | Throw _ => (w, rethrown)
        | Return existingProjects =>
            match writeLocalProjects (existingProjects ++ [localProject])%list w with
            | (w', Return _) => (w', Return fallbackId)
            | (w', Throw _) => (w', rethrown)
            end
        end
    end
  else (w, rethrown).

Definition createProject (w : World) (userId title prompt : string)
    (slideData : json) (type : ProjectType)
    (addDoc_ : Net string) (updateDoc_ : Net unit) : World * Outcome string :=
  match createProject_try w userId title prompt slideData type addDoc_ updateDoc_ with
  | (w', Return docId) => (w', Return docId)
  | (w', Throw error) => createProject_catch w' userId title prompt slideData type error
  end.

(** [{ ...updates, updatedAt: serverTimestamp() }] applied to a document:
    every field the patch names is overwritten, and the server's timestamp
    comes last, so it wins over an [updatedAt] of the patch. *)
Definition applyUpdates (updates : ProjectPatch) (serverTime : Z) (p : Project) : Project :=
  Project.mk (Project.id p)
    (default (Project.userId p) (patch_userId updates))
    (default (Project.title p) (patch_title updates))
    (match patch_description updates with Some d => Some d | None => Project.description p end)
    (default (Project.prompt p) (patch_prompt updates))
    (default (Project.slideData p) (patch_slideData updates))
    (match patch_slideCount updates with Some n => Some n | None => Project.slideCount p end)
    (default (Project.type p) (patch_type updates))
    (default (Project.createdAt p) (patch_createdAt updates))
    (TTimestamp serverTime)
    (Project.isLocal p) (Project.isTemporary p).

(** [updateDoc(doc(db, 'projects', projectId), data)]: the transport may
    fail; the server rejects an update of a document that does not exist. *)
Definition updateDoc (w : World) (projectId : string) (updates : ProjectPatch)
    (failure : option JsError) : World * Outcome unit :=
  match failure with
  | Some e => (w, Throw e)
  | None =>
      match fs_projects w !! projectId with
      | None =>
          (w, Throw {| message := "No document to update: projects/" ++ projectId;
                       status := None; code := Some "not-found" |})
      | Some p =>
          (set_fs_projects (<[projectId := applyUpdates updates (now w) p]> (fs_projects w)) w,
           Return tt)
      end
  end.

Definition updateProject (w : World) (projectId : string) (updates : ProjectPatch)
    (failure : option JsError) : World * Outcome unit :=
  match updateDoc w projectId updates failure with
  | (w', Return _) => (w', Return tt)
  | (w', Throw _) => (w', Throw (Error "Failed to update project"))
  end.

Definition getProject (w : World) (projectId : string) (getDoc_ : Net unit)
    : Outcome (option Project) :=
  let fromFirestore : Outcome (option Project) :=
    match getDoc_ with
    | Online _ => Return (getDocData w projectId)
    | Fails _ | Hangs => Throw (Error "Failed to get project")
    end in
  if Js.startsWith "local_" projectId && hasWindow w then
    match readLocalProjects w with
    | Return localProjects =>
        match List.find (fun p => bool_decide (Project.id p = projectId)) localProjects with
        | Some localProject => Return (Some localProject)
        | None => fromFirestore
        end
    | Throw _ => fromFirestore
    end
  else fromFirestore.

(** The documents of [query(collection(db, 'projects'),
    where('userId', '==', userId), orderBy('updatedAt', 'desc'))], for a
    collection whose documents all carry [updatedAt] as a timestamp, as
    those this program writes do (see [wellStamped]); the query leaves out
    a document without the ordering field. *)
Definition queryUserProjects (w : World) (userId : string) : list Project :=
  sortDesc (fun p => instant (Project.updatedAt p))
    (List.filter (fun p => bool_decide (Project.userId p = userId))
       ((fun kv => withId kv.1 kv.2) <$> map_to_list (fs_projects w))).

(** [getDocs] is awaited without a deadline: [failure] is the error it
    rejects with, if it does. *)
Definition getUserProjects (w : World) (userId : string) (failure : option JsError)
    : Outcome (list Project) :=
  match failure with
  | None => Return (queryUserProjects w userId)
  | Some error =>
      if bool_decide (code error = Some "unavailable")
         || Js.includes "offline" (message error)
      then Return []
      else Throw (Error "Failed to get projects. Please check your internet connection.")
  end.

(** ** Project list of the dashboard ([loadProjects]) *)

(** [v?.k] on a value that is always defined: [undefined] on [null]. *)
Definition optProp (v : json) (k : string) : option json :=
  match v with
  | JObj m => m !! k
  | _ => None
  end.

(** The loop over the [temp_project_] keys of [sessionStorage]: an entry
    that does not parse, or whose [userId] differs, is skipped. *)
Definition formattedTempProject (w : World) (tempProject : Project) : Project :=
  Project.mk (Project.id tempProject) (Project.userId tempProject)
    (Project.title tempProject) (Project.description tempProject)
    (Project.prompt tempProject) (Project.slideData tempProject)
    (Some (or_default (optLength (optProp (Project.slideData tempProject) "slides")) (JNum 0)))
    (Project.type tempProject) (TDate (now w)) (TDate (now w))
    (Project.isLocal tempProject) true.

Fixpoint tempProjects (w : World) (uid : string)
    (entries : list (string * Stored Project)) : list Project :=
  match entries with
  | [] => []
  | (key, item) :: rest =>
      if Js.startsWith "temp_project_" key then
        match item with
        | Item tempProject =>
            if bool_decide (Project.userId tempProject = uid)
            then formattedTempProject w tempProject :: tempProjects w uid rest
            else tempProjects w uid rest
        | NoItem | Garbled => tempProjects w uid rest
        end
      else tempProjects w uid rest
  end.

(** The list handed to [setProjects]. Each of the three loads sits in its
    own [try]/[catch] that swallows the failure. *)
Definition loadProjects (w : World) (uid : string) (failure : option JsError)
    : list Project :=
  let userProjects :=
    match getUserProjects w uid failure with
    | Return l => l
    | Throw _ => []
    end in
  let allProjects :=
    if hasWindow w then
      let withLocal :=
        match readLocalProjects w with
        | Return localProjects =>
            (userProjects
             ++ List.filter (fun p => bool_decide (Project.userId p = uid)) localProjects)%list
        | Throw _ => userProjects
        end in
      (withLocal ++ tempProjects w uid (sessionStorage w))%list
    else userProjects in
  sortDesc (fun p => instant (Project.createdAt p)) allProjects.

(** ** Presentation page: read and update of one project *)

(** What the page ends up showing: the project, or an error text. *)
Inductive PageState :=
  | Shown (p : Project)
  | Failed (msg : string).

Definition loadPresentation (w : World) (id uid : string) (getDoc_ : Net unit)
    : PageState :=
  let viaGetProject :=
    match getProject w id getDoc_ with
    | Throw e =>
        Failed (if bool_decide (message e = "") then "Failed to load project."
                else message e)
    | Return None => Failed "Project not found."
    | Return (Some projectData) =>
        if bool_decide (Project.userId projectData = uid) then Shown projectData
        else Failed "You do not have permission to view this project."
    end in
  if Js.startsWith "temp_" id && hasWindow w then
    match snd <$> List.find (fun kv => bool_decide (kv.1 = "temp_project_" ++ id))
                            (sessionStorage w) with
    | Some (Item tempProject) => Shown tempProject
    | Some Garbled => Failed "Unexpected token in JSON" (* [JSON.parse] throws *)
    | Some NoItem | None => viaGetProject
    end
  else viaGetProject.

(** [handleSlideUpdate]: the edit is sent through [updateProject] whatever
    the id looks like; the result is the alert shown, if any. *)
Definition handleSlideUpdate (w : World) (id : string) (updatedSlideData : json)
    (failure : option JsError) : World * option string :=
  let updates :=
    {| patch_userId := None; patch_title := None; patch_description := None;
       patch_prompt := None;
       patch_slideData := Some updatedSlideData;
       patch_slideCount :=
         Some (or_default (optLength (optProp updatedSlideData "slides")) (JNum 0));
       patch_type := None; patch_createdAt := None; patch_updatedAt := None |} in
  match updateProject w id updates failure with
  | (w', Return _) => (w', None)
  | (w', Throw e) => (w', Some ("Failed to save changes: " ++ message e))
  end.

(** ** Slide rendering: the [quote] archetype ([renderSlide]) *)

(** [a || b] on optional strings. *)
Definition str_or (a : option string) (b : string) : string :=
  match a with
  | Some s => if bool_decide (s = "") then b else s
  | None => b
  end.

Definition opt_or (a b : option string) : option string :=
  match a with
  | Some s => if bool_decide (s = "") then b else Some s
  | None => b
  end.

(** An inline style object, as its list of properties. *)
Definition CssStyle := list (string * string).

Definition emptyStyling : Styling :=
  {| titleSize := None; titleWeight := None; titleColor := None;
     subtitleSize := None; contentSize := None; textAlign := None;
     overlay := None |}.

Definition getBackgroundStyle (theme : Theme) (slide : Slide) : CssStyle :=
  let styling := default emptyStyling (slide_styling slide) in
  let baseStyle :=
    [ ("fontFamily", str_or (opt_or (bodyFont theme) (Some (fontFamily theme))) "Inter");
      ("color", str_or (titleColor styling) (textColor theme)) ] in
  let bs := slide_backgroundStyle slide in
  if bool_decide (bs = Some "gradient") then
    app baseStyle
      [("background",
        "linear-gradient(135deg, " ++ str_or (gradientStart theme) (primaryColor theme)
        ++ ", " ++ str_or (gradientEnd theme) (secondaryColor theme) ++ ")")]
  else if bool_decide (bs = Some "image") then
    match slide_imageUrl slide with
    | Some url =>
        if bool_decide (url = "") then baseStyle
        else app baseStyle
               [ ("backgroundImage", "url(" ++ url ++ ")");
                 ("backgroundSize", "cover");
                 ("backgroundPosition", "center");
                 ("position", "relative") ]
    | None => baseStyle
    end
  else if bool_decide (bs = Some "split-color") then
    app baseStyle
      [("background",
        "linear-gradient(90deg, " ++ primaryColor theme ++ " 50%, "
        ++ backgroundColor theme ++ " 50%)")]
  else app baseStyle [("backgroundColor", backgroundColor theme)].

Definition getOverlayStyle (slide : Slide) : CssStyle :=
  let styling := default emptyStyling (slide_styling slide) in
  if bool_decide (slide_backgroundStyle slide = Some "image")
     && negb (bool_decide (str_or (overlay styling) "" = ""))
  then
    let dark := bool_decide (overlay styling = Some "dark") in
    let overlayOpacity := if dark then "0.6" else "0.3" in
    [ ("position", "absolute"); ("top", "0"); ("left", "0"); ("right", "0");
      ("bottom", "0");
      ("backgroundColor",
       if dark then "rgba(0,0,0," ++ overlayOpacity ++ ")"
       else "rgba(255,255,255," ++ overlayOpacity ++ ")");
      ("zIndex", "1") ]
  else [].

Definition getTextSizeClass (size : string) : string :=
  if bool_decide (size ∈ ["xs"; "sm"; "base"; "lg"; "xl"; "2xl"; "3xl"; "4xl"; "5xl"; "6xl"])
  then "text-" ++ size
  else "text-2xl".

Record Element := {
  className : string;
  style : CssStyle;
  text : string
}.

(** The elements of the [case 'quote'] branch that depend on the slide. *)
Record QuoteView := {
  containerStyle : CssStyle;
  overlayStyle : CssStyle;
  blockquote : Element;
  cite : option Element
}.

(** [Array.isArray(slide.content) ? slide.content.join(' ') : slide.content];
    an [undefined] content renders as no text. *)
Definition quoteBody (content : option Content) : string :=
  match content with
  | Some (Bullets items) => Js.join " " items
  | Some (Prose s) => s
  | None => ""
  end.

Definition emDash : string := "— ".

Definition renderQuote (theme : Theme) (slide : Slide) : QuoteView :=
  let styling := default emptyStyling (slide_styling slide) in
  {| containerStyle := getBackgroundStyle theme slide;
     overlayStyle := getOverlayStyle slide;
     blockquote :=
       {| className :=
            getTextSizeClass (str_or (titleSize styling) "4xl")
            ++ " italic mb-8 leading-relaxed";
          style :=
            [ ("color", str_or (titleColor styling) (primaryColor theme));
              ("fontFamily", str_or (headingFont theme) (fontFamily theme)) ];
          text := dquote ++ quoteBody (slide_content slide) ++ dquote |};
     cite :=
       match slide_author slide with
       | Some author =>
           if bool_decide (author = "") then None
           else Some {| className :=
                          getTextSizeClass (str_or (subtitleSize styling) "xl")
                          ++ " opacity-80 not-italic";
                        style := [("color", textColor theme)];
                        text := emDash ++ author |}
       | None => None
       end |}.

(** [renderSlide], with the archetypes other than [quote] left as their
    name. *)
Inductive View :=
  | VQuote (q : QuoteView)
  | VOther (archetype : string).

Definition renderSlide (theme : Theme) (slide : Slide) : View :=
  if bool_decide (slide_type slide = "quote") then VQuote (renderQuote theme slide)
  else VOther (slide_type slide).

(** ** Vocabulary of the statements *)

(** The texts of the errors [generateSlides] throws with a fixed message. *)
Definition fixedMessages : list string :=
  [ "No API key provided. Please set your OpenAI API key.";
    "Invalid OpenAI API key format. Please check your API key and try again.";
    "Failed to create OpenAI client. Please check your API key.";
    "OpenAI request timed out. Please try again with a shorter prompt or check your internet connection.";
    "Network error connecting to OpenAI. Please check your internet connection.";
    "OpenAI returned invalid format. Please try rephrasing your prompt.";
    "Invalid OpenAI API key. Please check your API key and try again.";
    "OpenAI rate limit exceeded. Please wait a moment and try again.";
    "OpenAI service error. Please try again in a few minutes.";
    "Invalid request to OpenAI. Please try a different prompt." ].

(** An error of the orchestrator's taxonomy: a plain [Error] whose message
    is one of the fixed texts, or the provider's message wrapped in the
    [OpenAI API Error] frame. *)
Definition typedError (e : JsError) : Prop :=
  e = Error (message e)
  /\ (message e ∈ fixedMessages \/ Js.startsWith "OpenAI API Error: " (message e) = true).

(** The failure kinds of the specification's taxonomy for the generation. *)
Inductive FailureKind :=
  | Timeout | Network | MalformedResponse | InvalidSchema
  | AuthError | RateLimited | ProviderUnavailable | BadRequest.

(** The message the handler of [generateSlides] has for a kind; it has none
    for [InvalidSchema]. *)
Definition kindMessage (k : FailureKind) : option string :=
  match k with
  | Timeout =>
      Some "OpenAI request timed out. Please try again with a shorter prompt or check your internet connection."
  | Network =>
      Some "Network error connecting to OpenAI. Please check your internet connection."
  | MalformedResponse =>
      Some "OpenAI returned invalid format. Please try rephrasing your prompt."
  | InvalidSchema => None
  | AuthError => Some "Invalid OpenAI API key. Please check your API key and try again."
  | RateLimited => Some "OpenAI rate limit exceeded. Please wait a moment and try again."
  | ProviderUnavailable => Some "OpenAI service error. Please try again in a few minutes."
  | BadRequest => Some "Invalid request to OpenAI. Please try a different prompt."
  end.

(** The call throws the error of a kind: a plain [Error] with the message
    of that kind. *)
Definition surfaces {A} (r : Outcome A) (k : FailureKind) : Prop :=
  exists msg, kindMessage k = Some msg /\ r = Throw (Error msg).

(** The catch-all error of the handler, around the message it caught. *)
Definition genericFrame (msg : string) : JsError :=
  Error ("OpenAI API Error: "
         ++ (if bool_decide (msg = "") then "Unknown error occurred" else msg)
         ++ ". Please check your API key and try again.").

(** The words the handler looks for in the message of what it caught. *)
Definition mentions (word : string) (e : JsError) : bool :=
  Js.includes word (message e).

(** No word of the handler occurs in the message: the status decides. *)
Definition wordless (e : JsError) : bool :=
  negb (mentions "timeout" e) && negb (mentions "network" e)
  && negb (mentions "fetch" e) && negb (mentions "JSON" e)
  && negb (mentions "parse" e).

(** The validation of the parsed response: a truthy [title] and an array
    [slides]. *)
Definition validStructure (parsedContent : json) : bool :=
  match parsedContent with
  | JObj m =>
      truthy_opt (m !! "title")
      && match m !! "slides" with Some (JArr _) => true | _ => false end
  | _ => false
  end.

(** The ways the remote generation call fails: deadline, transport or
    provider error, empty answer, unparsable answer, answer of the wrong
    shape (no truthy title, no slides array, or a [null] among the slides). *)
Inductive RemoteFailure (JSON_parse : string -> option json) : Completion -> Prop :=
  | failure_timeout : RemoteFailure JSON_parse TimerWins
  | failure_rejected e : RemoteFailure JSON_parse (Rejects e)
  | failure_no_content : RemoteFailure JSON_parse (Resolves None)
  | failure_parse content :
      JSON_parse content = None ->
      RemoteFailure JSON_parse (Resolves (Some content))
  | failure_schema content parsedContent :
      JSON_parse content = Some parsedContent ->
      validStructure parsedContent = false ->
      RemoteFailure JSON_parse (Resolves (Some content))
  | failure_null_slide content m slides :
      JSON_parse content = Some (JObj m) ->
      m !! "slides" = Some (JArr slides) ->
      JNull ∈ slides ->
      RemoteFailure JSON_parse (Resolves (Some content)).

(** The defaults of the normalization, in the words of the specification:
    id = 1-based position, type = content, title = Slide N, empty subtitle,
    content and speaker notes, animation = fadeIn. *)
Definition fixedDefaults (index : nat) : gmap string json :=
  {[ "id" := JNum (Z.of_nat index + 1);
     "type" := JStr "content";
     "title" := JStr ("Slide " ++ pretty (index + 1)%nat);
     "subtitle" := JStr "";
     "content" := JArr [];
     "speakerNotes" := JStr "";
     "animation" := JStr "fadeIn" ]}.

(** The error the primary write ends with, if it does not succeed: the
    rejection of [addDoc], or the error of the 15 second timer. *)
Definition writeError (addDoc_ : Net string) : option JsError :=
  match addDoc_ with
  | Online _ => None
  | Fails e => Some e
  | Hangs => Some (Error "Firestore timeout after 15 seconds")
  end.

(** The durable-local tier can be used: a browser context whose
    [local_projects] item is absent or a list, and accepts writes. *)
Definition localTierUsable (w : World) : bool :=
  hasWindow w && localWritable w
  && match localProjects w with Garbled => false | _ => true end.

(** The error [createProject] surfaces when it cannot fall back. *)
Definition surfacedCreateError (error : JsError) : JsError :=
  if bool_decide (code error = Some "unavailable")
     || Js.includes "offline" (message error)
  then Error "Cannot create project while offline. Please check your internet connection."
  else Error "Failed to create project. Please try again.".

(** The author test of the renderer: present and not the empty string. *)
Definition hasAuthor (slide : Slide) : Prop :=
  exists author, slide_author slide = Some author /\ author <> "".

(** The records of the durable-local tier, none when the item is absent. *)
Definition storedLocalProjects (w : World) : list Project :=
  match localProjects w with
  | Item l => l
  | NoItem | Garbled => []
  end.

(** ** Concrete inputs of the examples *)

Definition deck0 : gmap string json :=
  {[ "title" := JStr "Quarterly review";
     "description" := JStr "Results of the third quarter";
     "slides" := JArr [ JObj {[ "id" := JNum 1; "type" := JStr "hero";
                                "title" := JStr "Quarterly review" ]};
                        JObj {[ "title" := JStr "Revenue" ]} ] ]}.

Definition deck1 : gmap string json :=
  {[ "title" := JStr "Quarterly review (edited)";
     "slides" := JArr [ JObj {[ "title" := JStr "Revenue" ]} ] ]}.

(** A browser tab at instant 1000 with empty stores and a signed-in user. *)
Definition world0 : World :=
  {| hasWindow := true; now := 1000; localProjects := NoItem;
     localWritable := true; sessionStorage := [];
     fs_projects := ∅; fs_users := {[ "u1" := 0%Z ]} |}.

Definition at_time (t : Z) (w : World) : World :=
  {| hasWindow := hasWindow w; now := t; localProjects := localProjects w;
     localWritable := localWritable w; sessionStorage := sessionStorage w;
     fs_projects := fs_projects w; fs_users := fs_users w |}.

(** The same tab when [local_projects] holds a text that is not a list. *)
Definition worldGarbled : World :=
  {| hasWindow := true; now := 1000; localProjects := Garbled;
     localWritable := true; sessionStorage := [];
     fs_projects := ∅; fs_users := {[ "u1" := 0%Z ]} |}.

(** The same tab when the storage quota is exhausted. *)
Definition worldFull : World :=
  {| hasWindow := true; now := 1000; localProjects := NoItem;
     localWritable := false; sessionStorage := [];
     fs_projects := ∅; fs_users := {[ "u1" := 0%Z ]} |}.

Definition permissionDenied : JsError :=
  {| message := "Missing or insufficient permissions."; status := None;
     code := Some "permission-denied" |}.

Definition unavailable : JsError :=
  {| message := "Failed to get document because the client is offline.";
     status := None; code := Some "unavailable" |}.

(** The record the generate page leaves in [sessionStorage] when saving
    failed: no timestamps, no slide count. *)
Definition tempRecord (id uid title prompt : string) (slideData : json) : Project :=
  Project.mk id uid title None prompt slideData None presentation
    TAbsent TAbsent false true.

(** One owner with a record in each tier: a document written at instant
    1000, a durable-local record written at 2000 while the database was
    unreachable, and a pending record of the tab; the list is loaded at 3000. *)
Definition worldPrimary : World :=
  (createProject world0 "u1" "Primary" "p" (JObj deck0) presentation
     (Online "doc1") (Online tt)).1.

Definition worldLocal : World :=
  (createProject (at_time 2000 worldPrimary) "u1" "Local" "p" (JObj deck0)
     presentation (Fails unavailable) Hangs).1.

Definition worldThreeTiers : World :=
  at_time 3000
    (set_sessionStorage
       [("temp_project_temp_2500",
         Item (tempRecord "temp_2500" "u1" "Pending" "p" (JObj deck0)))]
       worldLocal).

Definition editPatch : ProjectPatch :=
  {| patch_userId := None; patch_title := None; patch_description := None;
     patch_prompt := None;
     patch_slideData := Some (JObj deck1); patch_slideCount := Some (JNum 1);
     patch_type := None; patch_createdAt := None; patch_updatedAt := None |}.

Definition quoteSlide (content : option Content) (author : option string) : Slide :=
  {| slide_id := 1; slide_type := "quote"; slide_title := "Insight";
     slide_subtitle := None; slide_content := content; slide_author := author;
     slide_speakerNotes := None; slide_animation := None; slide_layout := None;
     slide_backgroundStyle := None; slide_imageUrl := None;
     slide_imageDescription := None; slide_styling := None |}.

(** A string literal of a JSON text. *)
Definition quoted (s : string) : string := dquote ++ s ++ dquote.

(** The JSON text of an answer of two slides, the first one empty. *)
Definition responseText : string :=
  "{ " ++ quoted "title" ++ ": " ++ quoted "Plan" ++ ", " ++ quoted "slides"
  ++ ": [ {}, { " ++ quoted "id" ++ ": 7, " ++ quoted "note" ++ ": " ++ quoted "x"
  ++ " } ] }".

Definition responseSlides : list json :=
  [ JObj ∅; JObj {[ "id" := JNum 7; "note" := JStr "x" ]} ].

Definition responseValue : gmap string json :=
  {[ "title" := JStr "Plan"; "slides" := JArr responseSlides ]}.

(** The JSON text of an answer without a slides array, and of one whose
    second slide is [null]. *)
Definition noSlidesText : string :=
  "{ " ++ quoted "title" ++ ": " ++ quoted "Plan" ++ " }".

Definition nullSlideText : string :=
  "{ " ++ quoted "title" ++ ": " ++ quoted "T" ++ ", " ++ quoted "slides"
  ++ ": [ { " ++ quoted "id" ++ ": 3 }, null ] }".

(** A parser that knows one text, for the examples. *)
Definition parseOne (s : string) : option json :=
  if bool_decide (s = responseText) then Some (JObj responseValue) else None.

(** ** A reader of JSON texts, for the examples *)

(** The tokens of a JSON text. *)
Inductive Token :=
  | TkLBrace | TkRBrace | TkLBracket | TkRBracket | TkColon | TkComma
  | TkString (s : string)
  | TkNumber (n : Z)
  | TkTrue | TkFalse | TkNull.

Definition is_digit (c : ascii) : bool :=
  (48 <=? nat_of_ascii c)%nat && (nat_of_ascii c <=? 57)%nat.

Definition is_json_space (c : ascii) : bool :=
  let n := nat_of_ascii c in
  bool_decide (n = 32) || bool_decide (n = 9) || bool_decide (n = 10)
  || bool_decide (n = 13).

(** The characters of a string literal after its opening quote, and the
    text after the closing one. Escapes are not read. *)
Fixpoint readString (s : string) : option (string * string) :=
  match s with
  | EmptyString => None
  | String c r =>
      if bool_decide (nat_of_ascii c = 34) then Some (EmptyString, r)
      else if bool_decide (nat_of_ascii c = 92) || (nat_of_ascii c <? 32)%nat then None
      else '(t, rest) ← readString r; Some (String c t, rest)
  end.

Fixpoint readDigits (acc : Z) (s : string) : Z * string :=
  match s with
  | EmptyString => (acc, EmptyString)
  | String c r =>
      if is_digit c then readDigits (acc * 10 + Z.of_nat (nat_of_ascii c - 48)) r
      else (acc, s)
  end.

(** An integer literal: digits without a leading zero, and no fraction or
    exponent after them. *)
Definition readNatural (s : string) : option (Z * string) :=
  match s with
  | String c r =>
      if is_digit c then
        let '(n, rest) := readDigits 0 s in
        let leadingZero :=
          bool_decide (nat_of_ascii c = 48)
          && match r with String d _ => is_digit d | EmptyString => false end in
        let continues :=
          match rest with
          | String d _ =>
              bool_decide (d = "."%char) || bool_decide (d = "e"%char)
              || bool_decide (d = "E"%char)
          | EmptyString => false
          end in
        if leadingZero || continues then None else Some (n, rest)
      else None
  | EmptyString => None
  end.

Fixpoint tokenize (fuel : nat) (s : string) : option (list Token) :=
  match fuel with
  | O => None
  | S fuel' =>
      match s with
      | EmptyString => Some []
      | String c r =>
          if is_json_space c then tokenize fuel' r
          else if bool_decide (c = "{"%char) then cons TkLBrace <$> tokenize fuel' r
          else if bool_decide (c = "}"%char) then cons TkRBrace <$> tokenize fuel' r
          else if bool_decide (c = "["%char) then cons TkLBracket <$> tokenize fuel' r
          else if bool_decide (c = "]"%char) then cons TkRBracket <$> tokenize fuel' r
          else if bool_decide (c = ":"%char) then cons TkColon <$> tokenize fuel' r
          else if bool_decide (c = ","%char) then cons TkComma <$> tokenize fuel' r
          else if bool_decide (nat_of_ascii c = 34) then
            '(t, rest) ← readString r; cons (TkString t) <$> tokenize fuel' rest
          else if bool_decide (c = "-"%char) then
            '(n, rest) ← readNatural r; cons (TkNumber (- n)) <$> tokenize fuel' rest
          else if is_digit c then
            '(n, rest) ← readNatural s; cons (TkNumber n) <$> tokenize fuel' rest
          else if Js.startsWith "true" s then
            cons TkTrue <$> tokenize fuel' (Js.sdrop 4 s)
          else if Js.startsWith "false" s then
            cons TkFalse <$> tokenize fuel' (Js.sdrop 5 s)
          else if Js.startsWith "null" s then
            cons TkNull <$> tokenize fuel' (Js.sdrop 4 s)
          else None
      end
  end.

(** A value and the tokens after it; the elements of an array up to its
    closing bracket; the members of an object up to its closing brace, a
    repeated key keeping its last value. *)
Fixpoint parseValue (fuel : nat) (ts : list Token) : option (json * list Token) :=
  match fuel with
  | O => None
  | S fuel' =>
      match ts with
      | TkNull :: r => Some (JNull, r)
      | TkTrue :: r => Some (JBool true, r)
      | TkFalse :: r => Some (JBool false, r)
      | TkNumber n :: r => Some (JNum n, r)
      | TkString s :: r => Some (JStr s, r)
      | TkLBracket :: TkRBracket :: r => Some (JArr [], r)
      | TkLBracket :: r => '(l, r') ← parseElements fuel' r; Some (JArr l, r')
      | TkLBrace :: TkRBrace :: r => Some (JObj ∅, r)
      | TkLBrace :: r => '(m, r') ← parseMembers fuel' ∅ r; Some (JObj m, r')
      | _ => None
      end
  end
with parseElements (fuel : nat) (ts : list Token) : option (list json * list Token) :=
  match fuel with
  | O => None
  | S fuel' =>
      '(v, r) ← parseValue fuel' ts;
      match r with
      | TkComma :: r' => '(l, r'') ← parseElements fuel' r'; Some (v :: l, r'')
      | TkRBracket :: r' => Some ([v], r')
      | _ => None
      end
  end
with parseMembers (fuel : nat) (acc : gmap string json) (ts : list Token)
    : option (gmap string json * list Token) :=
  match fuel with
  | O => None
  | S fuel' =>
      match ts with
      | TkString k :: TkColon :: r =>
          '(v, r') ← parseValue fuel' r;
          match r' with
          | TkComma :: r'' => parseMembers fuel' (<[k := v]> acc) r''
          | TkRBrace :: r'' => Some (<[k := v]> acc, r'')
          | _ => None
          end
      | _ => None
      end
  end.

(** [JSON.parse] on the texts made of objects, arrays, strings without
    escapes, integers, [true], [false] and [null]; [None] is the
    [SyntaxError], and also the answer to a fraction, an exponent or an
    escape, which the examples do not use. *)
Definition parseJson (s : string) : option json :=
  ts ← tokenize (S (String.length s)) s;
  '(v, rest) ← parseValue (S (length ts)) ts;
  match rest with [] => Some v | _ => None end.

(** The order of a list sorted by decreasing key. *)
Definition descending {A : Type} (key : A -> Z) (a b : A) : Prop := (key b <= key a)%Z.

(** ** Further code of [openai.ts] and of the pages that call it *)

(** The line feed, as a one-character string. *)
Definition newline : string := String (ascii_of_nat 10) EmptyString.

(** How [Promise.race([openai.models.list(), timer])] of [validateApiKey]
    settles is a [Net unit]: [Hangs] is the 10 second timer winning. The
    client is created inside the [try], so its errors reach the handler
    too; the handler throws for a timeout or a network failure and answers
    [false] for everything else. *)
Definition validateApiKey (apiKey : string) (list_ : Net unit) : Outcome bool :=
  if bool_decide (apiKey = "demo-key") then Return true
  else
    try_catch
      (openai ← createOpenAIClient apiKey;
       match openai with
       | None => Return false
       | Some _ =>
           match list_ with
           | Online _ => Return true
           | Fails e => Throw e
           | Hangs => Throw (Error "Request timeout")
           end
       end)
      (fun error =>
         if Js.includes "timeout" (message error)
            || Js.includes "network" (message error)
         then Throw (Error "Network error. Please check your internet connection.")
         else Return false).

(** How the chat completion of [chatWithAI] settles; it is awaited without a
    deadline. [content] is [response.choices[0]?.message?.content]. *)
Inductive ChatReply :=
  | ChatRejects (e : JsError)
  | ChatResolves (content : option string).

(** The system prompt and the messages only travel to the provider; the
    reply does not depend on them here. [slideData] is taken to be an
    object, as the pages pass it (the prompt reads [slideData.title]). The
    client is created outside the [try], so a key error is thrown as it
    is. *)
Definition chatWithAI (apiKey : string) (reply : ChatReply) : Outcome string :=
  if bool_decide (apiKey = "demo-key") then
    Return "I'm in demo mode. In the full version, I can help you modify slides, change themes, add content, and more!"
  else
    openai ← createOpenAIClient apiKey;
    match openai with
    | None => Throw (Error "Failed to create OpenAI client")
    | Some _ =>
        match reply with
        | ChatResolves (Some content) =>
            Return (if bool_decide (content = "")
                    then "Sorry, I could not generate a response."
                    else content)
        | ChatResolves None => Return "Sorry, I could not generate a response."
        | ChatRejects error => Throw (Error ("Chat AI Error: " ++ message error))
        end
    end.

(** A task of the day planner, as [generateDayPlanner] reads it: each
    field is the text the template literal prints for it. *)
Record Task := {
  task_time : string;
  task_title : string;
  task_duration : string;
  task_priority : string
}.

Definition taskLine (task : Task) : string :=
  task_time task ++ ": " ++ task_title task ++ " (" ++ task_duration task
  ++ " min, " ++ task_priority task ++ " priority)".

Definition dayPlannerPrompt (tasks : list Task) (date : string) : string :=
  "Create a professional daily planner presentation for " ++ date
  ++ " with these tasks:" ++ newline ++ newline
  ++ Js.join newline (taskLine <$> tasks) ++ newline ++ newline
  ++ "Generate a comprehensive daily schedule with time management tips, priority focus areas, and motivational elements.".

Definition generateDayPlanner (JSON_parse : string -> option json) (today : Today)
    (apiKey : string) (tasks : list Task) (date : string) (remote : Completion)
    : list Event * Outcome SlideData :=
  generateSlides JSON_parse today apiKey (dayPlannerPrompt tasks date) true remote.

(** The text the generate page shows for a failed generation (the [catch]
    of [generateContent]). *)
Definition generationErrorMessage (error : JsError) : string :=
  let has k := Js.includes k (message error) in
  if has "API key" then "Invalid API key. Please check your OpenAI API key in settings."
  else if has "timeout" then "Request timed out. Please check your internet connection and try again."
  else if has "network" then "Network error. Please check your internet connection."
  else if has "rate limit" then "Rate limit exceeded. Please wait a moment and try again."
  else if bool_decide (message error = "") then "Failed to generate content. Please try again."
  else message error.

(** The call of the generate page: the planner kind goes through
    [generateDayPlanner] with no task and the day's ISO date, whatever the
    prompt; the 60 second timer it is raced against cannot fire before the
    45 second one inside. The result is the deck, or the text shown. *)
Definition generateContent_generate (JSON_parse : string -> option json)
    (today : Today) (isoDate : string) (apiKey prompt : string)
    (type : ProjectType) (remote : Completion) : SlideData + string :=
  let r :=
    if bool_decide (type = planner)
    then generateDayPlanner JSON_parse today apiKey [] isoDate remote
    else generateSlides JSON_parse today apiKey prompt false remote in
  match r.2 with
  | Return slideData => inl slideData
  | Throw error => inr (generationErrorMessage error)
  end.

(** ** The API key form ([ApiKeyManager]) *)

(** The white space [trim] removes, among the ASCII characters. *)
Definition is_space (c : ascii) : bool :=
  let n := nat_of_ascii c in
  bool_decide (n = 32) || ((9 <=? n)%nat && (n <=? 13)%nat).

(** [!s.trim()] *)
Fixpoint blank (s : string) : bool :=
  match s with
  | EmptyString => true
  | String c r => is_space c && blank r
  end.

Record KeyForm := {
  storedKey : string;
  inputKey : string;
  validationStatus : string;
  formError : string
}.

(** [handleValidateAndSave]; [saveThrows] tells whether storing the key
    throws. The second component is the key handed to [onApiKeySet]. *)
Definition handleValidateAndSave (form : KeyForm) (saveThrows : bool)
    : KeyForm * option string :=
  let key := inputKey form in
  if blank key then
    ({| storedKey := storedKey form; inputKey := key;
        validationStatus := validationStatus form;
        formError := "Please enter your OpenAI API key" |}, None)
  else if bool_decide (key = "demo-key") || Js.startsWith "sk-" key then
    if saveThrows then
      ({| storedKey := storedKey form; inputKey := key;
          validationStatus := "invalid";
          formError := "Failed to save API key. Please try again." |}, None)
    else
      ({| storedKey := key; inputKey := key; validationStatus := "valid";
          formError := "" |}, Some key)
  else
    ({| storedKey := storedKey form; inputKey := key;
        validationStatus := validationStatus form;
        formError := "Invalid API key format. OpenAI keys start with " ++ dquote
                     ++ "sk-" ++ dquote ++ " or use " ++ dquote ++ "demo-key"
                     ++ dquote ++ " for testing" |}, None).

(** ** Further code of [firestore.ts] and of the dashboard *)

(** [deleteDoc] succeeds whether or not the document exists; the counter
    update that follows is rejected by the server when the user document
    is missing. Either failure is rethrown with one message. *)
Definition deleteProject (w : World) (projectId userId : string)
    (deleteFailure updateFailure : option JsError) : World * Outcome unit :=
  match deleteFailure with
  | Some _ => (w, Throw (Error "Failed to delete project"))
  | None =>
      let w1 := set_fs_projects (delete projectId (fs_projects w)) w in
      match updateFailure, fs_users w1 !! userId with
      | None, Some n =>
          (set_fs_users (<[userId := (n - 1)%Z]> (fs_users w1)) w1, Return tt)
      | _, _ => (w1, Throw (Error "Failed to delete project"))
      end
  end.

(** [handleDeleteProject] of the dashboard, up to the reload of the list;
    [confirmed] is the answer to the confirmation dialog and the second
    component the alert shown, if any. *)
Definition handleDeleteProject (w : World) (uid projectId : string)
    (confirmed : bool) (deleteFailure updateFailure : option JsError)
    : World * option string :=
  let alert (e : JsError) := Some ("Failed to delete project: " ++ message e) in
  if negb confirmed then (w, None)
  else if Js.startsWith "temp_" projectId then
    if hasWindow w then
      (set_sessionStorage
         (List.filter (fun kv => negb (bool_decide (kv.1 = "temp_project_" ++ projectId)))
            (sessionStorage w)) w, None)
    else (w, None)
  else if Js.startsWith "local_" projectId then
    if hasWindow w then
      match readLocalProjects w with
      | Throw e => (w, alert e)
      | Return localProjects =>
          let updatedProjects :=
            List.filter (fun p => negb (bool_decide (Project.id p = projectId)))
              localProjects in
          match writeLocalProjects updatedProjects w with
          | (w', Return _) => (w', None)
          | (w', Throw e) => (w', alert e)
          end
      end
    else (w, None)
  else
    match deleteProject w projectId uid deleteFailure updateFailure with
    | (w', Return _) => (w', None)
    | (w', Throw e) => (w', alert e)
    end.

(** [sum + project.slideCount] as far as the sum stays an integer: [null]
    counts as 0 and a boolean as 0 or 1; with anything else the sum becomes
    [NaN] or a string, which is [None] here and stays so. *)
Definition addCount (sum : option Z) (slideCount : option json) : option Z :=
  match sum, slideCount with
  | Some z, Some (JNum n) => Some (z + n)%Z
  | Some z, Some JNull => Some z
  | Some z, Some (JBool b) => Some (z + (if b then 1 else 0))%Z
  | _, _ => None
  end.

Record UserStats := {
  totalProjects : nat;
  totalSlides : option Z;
  presentationCount : nat;
  plannerCount : nat;
  recentProjects : list Project
}.

Definition getUserStats (w : World) (userId : string) (failure : option JsError)
    : Outcome UserStats :=
  match getUserProjects w userId failure with
  | Throw _ => Throw (Error "Failed to get user statistics")
  | Return projects =>
      Return
        {| totalProjects := length projects;
           totalSlides :=
             fold_left (fun sum project => addCount sum (Project.slideCount project))
               projects (Some 0%Z);
           presentationCount :=
             length (List.filter (fun p => bool_decide (Project.type p = presentation))
                       projects);
           plannerCount :=
             length (List.filter (fun p => bool_decide (Project.type p = planner))
                       projects);
           recentProjects := take 5 projects |}
  end.

(** The predicate of the filter of [searchUserProjects]. The description is
    only looked at when neither title nor prompt matches; [?.] lets a
    missing or [null] description pass as no match, and a description that
    is not a string has no [toLowerCase]. *)
Definition matchesSearch (searchTerm : string) (project : Project) : Outcome bool :=
  let term := Js.toLowerCase searchTerm in
  if Js.includes term (Js.toLowerCase (Project.title project)) then Return true
  else if Js.includes term (Js.toLowerCase (Project.prompt project)) then Return true
  else
    match Project.description project with
    | None | Some JNull => Return false
    | Some (JStr d) => Return (Js.includes term (Js.toLowerCase d))
    | Some _ =>
        Throw (Error "project.description?.toLowerCase is not a function")
    end.

(** [projects.filter(predicate)], stopping at the first throw. *)
Fixpoint filterThrowing (pred : Project -> Outcome bool) (projects : list Project)
    : Outcome (list Project) :=
  match projects with
  | [] => Return []
  | p :: rest =>
      keep ← pred p;
      kept ← filterThrowing pred rest;
      Return (if keep : bool then p :: kept else kept)
  end.

Definition searchUserProjects (w : World) (userId searchTerm : string)
    (failure : option JsError) : Outcome (list Project) :=
  try_catch
    (projects ← getUserProjects w userId failure;
     filterThrowing (matchesSearch searchTerm) projects)
    (fun _ => Throw (Error "Failed to search projects")).

(** The documents of the query with [where('type', '==', type)] added;
    every rejection is rethrown, the unavailable one included. *)
Definition getProjectsByType (w : World) (userId : string) (type : ProjectType)
    (failure : option JsError) : Outcome (list Project) :=
  match failure with
  | None =>
      Return
        (sortDesc (fun p => instant (Project.updatedAt p))
           (List.filter (fun p => bool_decide (Project.userId p = userId)
                                  && bool_decide (Project.type p = type))
              ((fun kv => withId kv.1 kv.2) <$> map_to_list (fs_projects w))))
  | Some _ => Throw (Error "Failed to get projects by type")
  end.

(** [filterProjects] of the dashboard; [None] is the filter type [all]. *)
Definition filterProjects (projects : list Project) (searchTerm : string)
    (filterType : option ProjectType) : list Project :=
  let filtered :=
    match filterType with
    | Some t => List.filter (fun p => bool_decide (Project.type p = t)) projects
    | None => projects
    end in
  if bool_decide (searchTerm = "") then filtered
  else
    List.filter
      (fun p => Js.includes (Js.toLowerCase searchTerm) (Js.toLowerCase (Project.title p))
                || Js.includes (Js.toLowerCase searchTerm)
                     (Js.toLowerCase (Project.prompt p)))
      filtered.

(** ** Further code of [SlideViewer.tsx] *)

(** The two texts of one card of the [stats] archetype:
    [item.split(' ')[0]] and [item.split(' ').slice(1).join(' ')]. *)
Definition statCard (item : string) : string * string :=
  let parts := Js.split " " item in
  (default "" (head parts), Js.join " " (tail parts)).

(** The cards are rendered when the content is a list. *)
Definition statsCards (slide : Slide) : list (string * string) :=
  match slide_content slide with
  | Some (Bullets items) => statCard <$> items
  | Some (Prose _) | None => []
  end.

(** The state of the viewer and what the user can do to it. *)
Record Viewer := {
  currentSlide : nat;
  isPresenting : bool
}.

Definition nextSlide (count : nat) (v : Viewer) : Viewer :=
  if (Z.of_nat (currentSlide v) <? Z.of_nat count - 1)%Z
  then {| currentSlide := currentSlide v + 1; isPresenting := isPresenting v |}
  else v.

Definition prevSlide (v : Viewer) : Viewer :=
  if (0 <? currentSlide v)%nat
  then {| currentSlide := currentSlide v - 1; isPresenting := isPresenting v |}
  else v.

Definition handleKeyPress (count : nat) (key : string) (v : Viewer) : Viewer :=
  if bool_decide (key = "ArrowRight") || bool_decide (key = " ") then nextSlide count v
  else if bool_decide (key = "ArrowLeft") then prevSlide v
  else if bool_decide (key = "Escape")
  then {| currentSlide := currentSlide v; isPresenting := false |}
  else v.

Inductive ViewerEvent :=
  | ClickNext
  | ClickPrev
  | ClickThumbnail (index : nat)
  | ClickPresent
  | ClickPause
  | KeyDown (key : string).

(** One event on a deck of [count] slides. There is a thumbnail for each
    slide and no other; the key listener is attached while presenting. Each
    click is accepted in both modes and on a disabled button too, which
    covers the clicks the page allows. *)
Definition viewerStep (count : nat) (v : Viewer) (ev : ViewerEvent) : Viewer :=
  match ev with
  | ClickNext => nextSlide count v
  | ClickPrev => prevSlide v
  | ClickThumbnail index =>
      if (index <? count)%nat
      then {| currentSlide := index; isPresenting := isPresenting v |}
      else v
  | ClickPresent => {| currentSlide := currentSlide v; isPresenting := true |}
  | ClickPause => {| currentSlide := currentSlide v; isPresenting := false |}
  | KeyDown key => if isPresenting v then handleKeyPress count key v else v
  end.

Definition initialViewer : Viewer := {| currentSlide := 0; isPresenting := false |}.

Definition viewerRun (count : nat) (events : list ViewerEvent) : Viewer :=
  fold_left (viewerStep count) events initialViewer.

(** The seven fields the normalization fills. *)
Definition normalizedKeys : list string :=
  ["id"; "type"; "title"; "subtitle"; "content"; "speakerNotes"; "animation"].

(** ** Vocabulary of the further statements *)

(** The collection as this program writes it: [createProject] and
    [updateProject] store [updatedAt] as a server timestamp and no [id]
    field, so a record read back carries the id of its document. *)
Definition wellStamped (w : World) : Prop :=
  map_Forall
    (fun key p => Project.id p = key /\ exists ms, Project.updatedAt p = TTimestamp ms)
    (fs_projects w).

(** Whether a character occurs in a string. *)
Fixpoint has_char (c : ascii) (s : string) : bool :=
  match s with
  | EmptyString => false
  | String a r => bool_decide (a = c) || has_char c r
  end.

Definition industries : list string :=
  ["business"; "technology"; "health"; "education"; "environment"; "creative"; "general"].

Definition intents : list string :=
  ["strategic"; "instructional"; "persuasive"; "overview"; "informational"].

(** The value of a property of a style object. *)
Definition cssGet (k : string) (st : CssStyle) : option string :=
  snd <$> List.find (fun kv => bool_decide (kv.1 = k)) st.

(** The test of the word filter of [extractMainSubject]. *)
Definition meaningful (word : string) : bool :=
  negb (list_includes word stopWords) && (2 <? String.length word)%nat.

(** * Properties *)

(** ** String primitives on examples *)

Example split_demo : Js.split " " "a  bc d" = ["a"; ""; "bc"; "d"].
Proof. reflexivity. Qed.

Example replace_demo : Js.replace " " "," "a b c" = "a,b c".
Proof. reflexivity. Qed.

Example replace_dollar_demo : Js.replace "b" "[$&$$$`$'$1]" "abc" = "a[b$ac$1]c".
Proof. reflexivity. Qed.

Example subject_demo :
  extractMainSubject "Make slides about AI in the classroom" = "classroom".
Proof. reflexivity. Qed.

(** ** Prompt analysis and fallback synthesis *)

(** C7, as the specification words it, does not hold: on the scenario prompt
    the analyzer does not answer environment / informational, and the deck
    does not have 8 slides. *)
Lemma scenario_is_not_environment_informational :
  ~ (industry (analyzePrompt scenarioPrompt) = "environment"
     /\ presentationType (analyzePrompt scenarioPrompt) = "informational"
     /\ length (deck_slides (generateFallbackSlides today0 scenarioPrompt false)) = 8).
Proof. intros (H & _). vm_compute in H. discriminate H. Qed.

(** C7, amended: for the prompt "Create a presentation about sustainable
    business practices" the analyzer classifies industry = business (the
    first industry of the priority order whose keyword occurs) and intent =
    overview (the prompt contains "about"); the subject is "sustainable
    business practices"; the synthesizer returns the 7 slides of the overview
    strategy, and the title of the first one contains the subject. *)
Theorem scenario_is_business_overview (today : Today) :
  let analysis := analyzePrompt scenarioPrompt in
  let deck := generateFallbackSlides today scenarioPrompt false in
  industry analysis = "business"
  /\ presentationType analysis = "overview"
  /\ subject analysis = "sustainable business practices"
  /\ length (deck_slides deck) = 7
  /\ slide_title <$> head (deck_slides deck)
     = Some "Understanding sustainable business practices"
  /\ (Js.includes (subject analysis) <$> (slide_title <$> head (deck_slides deck)))
     = Some true.
Proof. repeat split; vm_compute; reflexivity. Qed.

Lemma fallbackSlide_ids (a : Analysis) (l : list SlideTemplate) (k : nat) :
  slide_id <$> imap (fun i => fallbackSlide a (k + i)) l = seq (k + 1) (length l).
Proof.
  revert k. induction l as [|t l IH]; intros k; [reflexivity|].
  cbn [imap fmap list_fmap length seq]. f_equal.
  - cbn. lia.
  - replace (S (k + 1)) with (S k + 1) by lia. rewrite <- (IH (S k)).
    f_equal. apply imap_ext. intros i x _. unfold compose.
    f_equal. lia.
Qed.

(** C8: for every prompt, the deck of the fallback synthesizer (presentation
    path) has as many slides as the strategy selected for the classified
    intent has templates, and the ids of its slides, read in order, are
    1, 2, ..., that is, the slide at position i has id i+1. *)
Theorem fallback_ids_and_length (today : Today) (prompt : string) :
  let deck := generateFallbackSlides today prompt false in
  let templates := generatePersonalizedContent (analyzePrompt prompt) in
  length (deck_slides deck) = length templates
  /\ slide_id <$> deck_slides deck = seq 1 (length templates).
Proof.
  cbn zeta. unfold generateFallbackSlides. cbn [deck_slides]. split.
  - apply length_imap.
  - apply (fallbackSlide_ids _ _ 0).
Qed.

Corollary fallback_slide_at (today : Today) (prompt : string) (i : nat) (s : Slide) :
  deck_slides (generateFallbackSlides today prompt false) !! i = Some s ->
  slide_id s = i + 1.
Proof.
  unfold generateFallbackSlides. cbn [deck_slides]. intros Hi.
  pose proof (fallbackSlide_ids (analyzePrompt prompt)
                (generatePersonalizedContent (analyzePrompt prompt)) 0) as Hids.
  apply (f_equal (fun l => l !! i)) in Hids.
  rewrite list_lookup_fmap in Hids. cbn [Nat.add] in Hids.
  change (imap (fun i0 => fallbackSlide (analyzePrompt prompt) i0)
            (generatePersonalizedContent (analyzePrompt prompt)) !! i = Some s) in Hi.
  rewrite Hi in Hids. cbn in Hids. symmetry in Hids.
  apply lookup_seq in Hids as [-> _]. lia.
Qed.

(** ** Remote generation orchestrator *)

Lemma normalizeSlide_total (index : nat) (v : json) :
  (v = JNull /\ exists e, normalizeSlide index v = Throw e)
  \/ (v <> JNull /\ exists v', normalizeSlide index v = Return v').
Proof.
  destruct v; try (right; split; [discriminate | eexists; reflexivity]).
  left. split; [reflexivity | eexists; reflexivity].
Qed.

Lemma normalizeSlides_null (slides : list json) (k : nat) :
  JNull ∈ slides -> exists e, normalizeSlides k slides = Throw e.
Proof.
  revert k. induction slides as [|x l IH]; intros k Hin; [inversion Hin|].
  cbn [normalizeSlides].
  destruct (normalizeSlide_total k x) as [(-> & e & He) | (Hx & x' & Hx')].
  - rewrite He. eexists. reflexivity.
  - rewrite Hx'. apply elem_of_cons in Hin as [Heq | Hin]; [congruence|].
    destruct (IH (S k) Hin) as [e He]. cbn. rewrite He. eexists. reflexivity.
Qed.

Section OrchestratorFacts.
Variable JSON_parse : string -> option json.
Variable today : Today.

Lemma rethrow_typed (e : JsError) : typedError (rethrow e).
Proof.
  unfold rethrow, typedError.
  repeat match goal with
  | |- context [if ?b then _ else _] => destruct b
  end; cbn [message Error]; (split; [reflexivity|]);
  try (left; unfold fixedMessages; set_solver);
  right; reflexivity.
Qed.

Lemma try_never_synthesizes (remote : Completion) (d : Deck) :
  generateSlides_try JSON_parse remote <> Return (Synthesized d).
Proof.
  unfold generateSlides_try.
  destruct remote as [| e | [[|a c]|]]; try discriminate.
  destruct (JSON_parse (String a c)) as [v|]; [|discriminate].
  destruct v as [| b | n | s | l | m]; try discriminate.
  cbn. destruct (m !! "slides") as [[| | | | slides |]|]; try discriminate.
  destruct (truthy_opt (m !! "title")); [|discriminate].
  destruct (normalizeSlides 0 slides); discriminate.
Qed.

Lemma try_fails (remote : Completion) :
  RemoteFailure JSON_parse remote ->
  exists e, generateSlides_try JSON_parse remote = Throw e.
Proof.
  intros H.
  destruct H as [| e | | content Hp | content v Hp Hv | content m slides Hp Hs Hn];
    try (eexists; reflexivity).
  - destruct content as [|a c]; [eexists; reflexivity|].
    unfold generateSlides_try. rewrite Hp. eexists; reflexivity.
  - destruct content as [|a c]; [eexists; reflexivity|].
    unfold generateSlides_try. rewrite Hp.
    destruct v as [| b | n | s | l | m]; try (eexists; reflexivity).
    cbn in Hv |- *.
    destruct (m !! "slides") as [[| | | | slides |]|]; try (eexists; reflexivity).
    destruct (truthy_opt (m !! "title")); [discriminate Hv|].
    eexists; reflexivity.
  - destruct content as [|a c]; [eexists; reflexivity|].
    unfold generateSlides_try. rewrite Hp. cbn. rewrite Hs.
    destruct (truthy_opt (m !! "title")); [|eexists; reflexivity].
    destruct (normalizeSlides_null slides 0 Hn) as [e ->]. eexists; reflexivity.
Qed.

Lemma client_of_key (apiKey : string) :
  apiKey <> "demo-key" ->
  (exists e, createOpenAIClient apiKey = Throw e /\ typedError e)
  \/ createOpenAIClient apiKey = Return (Some {| client_apiKey := apiKey |}).
Proof.
  intros Hk. unfold createOpenAIClient.
  destruct (bool_decide (apiKey = "")).
  { left. eexists. split; [reflexivity|]. split; [reflexivity|].
    left. cbn. unfold fixedMessages. set_solver. }
  rewrite bool_decide_eq_false_2 by exact Hk.
  destruct (Js.startsWith "sk-" apiKey); cbn.
  - right. reflexivity.
  - left. eexists. split; [reflexivity|]. split; [reflexivity|].
    left. cbn. unfold fixedMessages. set_solver.
Qed.

(** C10: for every API key other than the demo key that is empty or does not
    start with [sk-], [generateSlides] throws before any request is made:
    its list of interactions is empty. *)
Theorem generateSlides_checks_key_first
    (apiKey prompt : string) (isDayPlanner : bool) (remote : Completion) :
  apiKey <> "demo-key" ->
  apiKey = "" \/ Js.startsWith "sk-" apiKey = false ->
  exists e,
    generateSlides JSON_parse today apiKey prompt isDayPlanner remote = ([], Throw e)
    /\ typedError e.
Proof.
  intros Hk Hbad. unfold generateSlides.
  rewrite bool_decide_eq_false_2 by exact Hk.
  unfold createOpenAIClient.
  destruct Hbad as [-> | Hsk].
  - cbn. eexists. split; [reflexivity|]. split; [reflexivity|].
    left. cbn. unfold fixedMessages. set_solver.
  - destruct (bool_decide (apiKey = "")).
    + eexists. split; [reflexivity|]. split; [reflexivity|].
      left. cbn. unfold fixedMessages. set_solver.
    + rewrite bool_decide_eq_false_2 by exact Hk. rewrite Hsk. cbn.
      eexists. split; [reflexivity|]. split; [reflexivity|].
      left. cbn. unfold fixedMessages. set_solver.
Qed.

End OrchestratorFacts.

Section OrchestratorKinds.
Variable JSON_parse : string -> option json.
Variable today : Today.

Lemma rethrow_plain (e : JsError) : exists msg, rethrow e = Error msg.
Proof.
  unfold rethrow.
  repeat match goal with
  | |- context [if ?b then _ else _] =>
      lazymatch b with
      | bool_decide (message e = "") => fail
      | _ => destruct b
      end
  end; eexists; reflexivity.
Qed.

Lemma rethrow_wordless (e : JsError) :
  wordless e = true ->
  rethrow e
  = if bool_decide (status e = Some 401%Z) then
      Error "Invalid OpenAI API key. Please check your API key and try again."
    else if bool_decide (status e = Some 429%Z) then
      Error "OpenAI rate limit exceeded. Please wait a moment and try again."
    else if bool_decide (status e = Some 500%Z) then
      Error "OpenAI service error. Please try again in a few minutes."
    else if bool_decide (status e = Some 400%Z) then
      Error "Invalid request to OpenAI. Please try a different prompt."
    else genericFrame (message e).
Proof.
  unfold wordless, mentions. intros H.
  repeat (apply andb_prop in H as [H ?]).
  repeat match goal with
  | H : negb _ = true |- _ => apply negb_true_iff in H
  end.
  unfold rethrow. cbv zeta.
  repeat match goal with
  | H : Js.includes _ _ = false |- _ => rewrite H; clear H
  end.
  reflexivity.
Qed.

Lemma sk_client (apiKey : string) :
  apiKey <> "demo-key" -> Js.startsWith "sk-" apiKey = true ->
  createOpenAIClient apiKey = Return (Some {| client_apiKey := apiKey |}).
Proof.
  intros Hk Hsk. unfold createOpenAIClient.
  assert (apiKey <> "") as Hne by (intros ->; discriminate Hsk).
  rewrite (bool_decide_eq_false_2 _ Hne), (bool_decide_eq_false_2 _ Hk), Hsk.
  reflexivity.
Qed.

Lemma generateSlides_sk (apiKey prompt : string) (isDayPlanner : bool)
    (remote : Completion) :
  apiKey <> "demo-key" -> Js.startsWith "sk-" apiKey = true ->
  (generateSlides JSON_parse today apiKey prompt isDayPlanner remote).2
  = try_catch (generateSlides_try JSON_parse remote) (fun error => Throw (rethrow error)).
Proof.
  intros Hk Hsk. unfold generateSlides.
  rewrite (bool_decide_eq_false_2 _ Hk), (sk_client apiKey Hk Hsk). reflexivity.
Qed.

Lemma try_schema (content : string) (v : json) :
  content <> "" -> JSON_parse content = Some v -> v <> JNull ->
  validStructure v = false ->
  generateSlides_try JSON_parse (Resolves (Some content))
  = Throw (Error "Invalid response structure from OpenAI. Missing title or slides array.").
Proof.
  intros Hc Hp Hn Hv. unfold generateSlides_try.
  destruct content as [|a c]; [congruence|]. rewrite Hp.
  destruct v as [| b | n | s | l | m]; try reflexivity; [congruence|].
  cbn in Hv |- *.
  destruct (m !! "slides") as [[| | | | slides |]|]; try reflexivity.
  destruct (truthy_opt (m !! "title")); [discriminate Hv | reflexivity].
Qed.

(** C1, amended: for every prompt and every API key other than the demo
    key, [generateSlides] never calls the fallback synthesizer and never
    returns a synthesized deck, and a failed remote call ends in a thrown
    plain [Error]. With a well-formed key the error is the one of the
    failure's kind in these cases only: the deadline gives the timeout
    error, an unparsable answer the invalid-format error, and a rejection is
    classified by the first match of: the word timeout in its message; the
    words network or fetch; the words JSON or parse; the status 401, 429,
    500 or 400. Everything else, an empty answer and an answer without a
    truthy title or a slides array included, gets the catch-all frame around
    its message, which names no kind. *)
Theorem generateSlides_failure_is_propagated
    (apiKey prompt : string) (isDayPlanner : bool) (remote : Completion) :
  apiKey <> "demo-key" ->
  let r := generateSlides JSON_parse today apiKey prompt isDayPlanner remote in
  (forall p b, EvFallback p b ∉ r.1)
  /\ (forall d, r.2 <> Return (Synthesized d))
  /\ (RemoteFailure JSON_parse remote -> exists msg, r.2 = Throw (Error msg))
  /\ (Js.startsWith "sk-" apiKey = true ->
      (remote = TimerWins -> surfaces r.2 Timeout)
      /\ (forall content,
            remote = Resolves (Some content) -> content <> "" ->
            JSON_parse content = None -> surfaces r.2 MalformedResponse)
      /\ (remote = Resolves None \/ remote = Resolves (Some "") ->
          r.2 = Throw (genericFrame "No response from OpenAI"))
      /\ (forall content v,
            remote = Resolves (Some content) -> content <> "" ->
            JSON_parse content = Some v -> v <> JNull -> validStructure v = false ->
            r.2 = Throw (genericFrame
                     "Invalid response structure from OpenAI. Missing title or slides array."))
      /\ (forall e,
            remote = Rejects e ->
            (mentions "timeout" e = true -> surfaces r.2 Timeout)
            /\ (mentions "timeout" e = false ->
                mentions "network" e || mentions "fetch" e = true ->
                surfaces r.2 Network)
            /\ (mentions "timeout" e = false -> mentions "network" e = false ->
                mentions "fetch" e = false ->
                mentions "JSON" e || mentions "parse" e = true ->
                surfaces r.2 MalformedResponse)
            /\ (wordless e = true ->
                (status e = Some 401%Z -> surfaces r.2 AuthError)
                /\ (status e = Some 429%Z -> surfaces r.2 RateLimited)
                /\ (status e = Some 500%Z -> surfaces r.2 ProviderUnavailable)
                /\ (status e = Some 400%Z -> surfaces r.2 BadRequest)
                /\ ((status e ∉ [Some 401%Z; Some 429%Z; Some 500%Z; Some 400%Z]) ->
                    r.2 = Throw (genericFrame (message e)))))).
Proof.
  intros Hk r. subst r.
  split; [|split; [|split]].
  - unfold generateSlides. rewrite bool_decide_eq_false_2 by exact Hk.
    destruct (createOpenAIClient apiKey) as [[c|]|e]; cbn [fst];
      intros p b Hin; [|inversion Hin|inversion Hin].
    apply list_elem_of_singleton in Hin. discriminate.
  - unfold generateSlides. rewrite bool_decide_eq_false_2 by exact Hk.
    destruct (createOpenAIClient apiKey) as [[c|]|e]; cbn [snd]; try discriminate.
    intros d. unfold try_catch.
    pose proof (try_never_synthesizes JSON_parse remote d) as Hn.
    destruct (generateSlides_try JSON_parse remote) as [a|e0]; [exact Hn | discriminate].
  - intros Hf. unfold generateSlides. rewrite bool_decide_eq_false_2 by exact Hk.
    destruct (client_of_key JSON_parse apiKey Hk) as [(e & -> & He) | ->]; cbn [snd].
    + destruct He as [He _]. rewrite He. eauto.
    + destruct (try_fails JSON_parse remote Hf) as [e0 ->]. cbn.
      destruct (rethrow_plain e0) as [msg ->]. eauto.
  - intros Hsk. rewrite (generateSlides_sk _ _ _ _ Hk Hsk).
    split; [|split; [|split; [|split]]].
    + intros ->. eexists. split; reflexivity.
    + intros content -> Hc Hp. unfold generateSlides_try.
      destruct content as [|a c]; [congruence|]. rewrite Hp.
      eexists. split; reflexivity.
    + intros [-> | ->]; reflexivity.
    + intros content v -> Hc Hp Hn Hv. rewrite (try_schema content v Hc Hp Hn Hv).
      reflexivity.
    + intros e ->. cbn [generateSlides_try try_catch]. unfold mentions.
      split; [|split; [|split]].
      * intros H. unfold rethrow. cbv zeta. rewrite H. eexists. split; reflexivity.
      * intros H1 H2. unfold rethrow. cbv zeta. rewrite H1, H2.
        eexists. split; reflexivity.
      * intros H1 H2 H3 H4. unfold rethrow. cbv zeta. rewrite H1, H2, H3, H4.
        eexists. split; reflexivity.
      * intros Hw. rewrite (rethrow_wordless e Hw).
        split; [|split; [|split; [|split]]].
        -- intros H. rewrite (bool_decide_eq_true_2 _ H). eexists. split; reflexivity.
        -- intros H. rewrite H. eexists. split; reflexivity.
        -- intros H. rewrite H. eexists. split; reflexivity.
        -- intros H. rewrite H. eexists. split; reflexivity.
        -- intros H.
           rewrite !bool_decide_eq_false_2; [reflexivity| | | |];
             intros E; apply H; rewrite E; set_solver.
Qed.

End OrchestratorKinds.

(** The text each kind of failure surfaces with. *)
Example timeout_message :
  (generateSlides parseOne today0 "sk-test" "A talk on tides" false TimerWins).2
  = Throw (Error "OpenAI request timed out. Please try again with a shorter prompt or check your internet connection.").
Proof. vm_compute. reflexivity. Qed.

Example rate_limit_message :
  (generateSlides parseOne today0 "sk-test" "A talk on tides" false
     (Rejects {| message := "Rate limit reached"; status := Some 429%Z;
                 code := None |})).2
  = Throw (Error "OpenAI rate limit exceeded. Please wait a moment and try again.").
Proof. vm_compute. reflexivity. Qed.

Example unauthorized_message :
  (generateSlides parseOne today0 "sk-test" "A talk on tides" false
     (Rejects {| message := "Incorrect API key provided"; status := Some 401%Z;
                 code := None |})).2
  = Throw (Error "Invalid OpenAI API key. Please check your API key and try again.").
Proof. vm_compute. reflexivity. Qed.

Example unparsable_message :
  (generateSlides parseOne today0 "sk-test" "A talk on tides" false
     (Resolves (Some "Sure, here are your slides"))).2
  = Throw (Error "OpenAI returned invalid format. Please try rephrasing your prompt.").
Proof. vm_compute. reflexivity. Qed.

Example demo_key_synthesizes :
  generateSlides parseOne today0 "demo-key" scenarioPrompt false TimerWins
  = ([EvFallback scenarioPrompt false],
     Return (Synthesized (generateFallbackSlides today0 scenarioPrompt false))).
Proof. reflexivity. Qed.

(** The statement above on an answer that is not JSON. *)
Lemma generateSlides_failure_is_propagated_witness :
  "sk-test" <> "demo-key"
  /\ Js.startsWith "sk-" "sk-test" = true
  /\ parseJson "Sure, here are your slides" = None
  /\ surfaces
       (generateSlides parseJson today0 "sk-test" "A talk on tides" false
          (Resolves (Some "Sure, here are your slides"))).2
       MalformedResponse.
Proof.
  split; [discriminate|]. split; [reflexivity|]. split; [vm_compute; reflexivity|].
  destruct (generateSlides_failure_is_propagated parseJson today0
              "sk-test" "A talk on tides" false
              (Resolves (Some "Sure, here are your slides")))
    as (_ & _ & _ & H); [discriminate|].
  destruct (H eq_refl) as (_ & Hparse & _).
  apply (Hparse "Sure, here are your slides");
    [reflexivity | discriminate | vm_compute; reflexivity].
Defined.

(** C1, as the specification words it, does not hold: an answer without a
    slides array (the specification's own scenario) is not reported with an
    error of its kind. The handler has no message for it: the caller gets
    the catch-all frame, the very error an unrecognised rejection with the
    same message gets. *)
Lemma schema_failure_names_no_kind :
  parseJson noSlidesText = Some (JObj {[ "title" := JStr "Plan" ]})
  /\ RemoteFailure parseJson (Resolves (Some noSlidesText))
  /\ (generateSlides parseJson today0 "sk-test" "A talk on tides" false
        (Resolves (Some noSlidesText))).2
     = Throw (genericFrame
         "Invalid response structure from OpenAI. Missing title or slides array.")
  /\ (forall k,
        ~ surfaces
            (generateSlides parseJson today0 "sk-test" "A talk on tides" false
               (Resolves (Some noSlidesText))).2 k)
  /\ (generateSlides parseJson today0 "sk-test" "A talk on tides" false
        (Resolves (Some noSlidesText))).2
     = (generateSlides parseJson today0 "sk-test" "A talk on tides" false
          (Rejects (Error
             "Invalid response structure from OpenAI. Missing title or slides array."))).2.
Proof.
  assert (parseJson noSlidesText = Some (JObj {[ "title" := JStr "Plan" ]})) as Hp
    by (vm_compute; reflexivity).
  assert ((generateSlides parseJson today0 "sk-test" "A talk on tides" false
             (Resolves (Some noSlidesText))).2
          = Throw (genericFrame
              "Invalid response structure from OpenAI. Missing title or slides array."))
    as Hr by (vm_compute; reflexivity).
  split; [exact Hp|]. split.
  { apply (failure_schema parseJson noSlidesText _ Hp). reflexivity. }
  split; [exact Hr|]. split.
  - intros k (msg & Hk & H). rewrite Hr in H. injection H as H.
    destruct k; cbn in Hk; try discriminate Hk;
      injection Hk as <-; vm_compute in H; discriminate H.
  - rewrite Hr. vm_compute. reflexivity.
Qed.

(** The statement above on a key without the [sk-] prefix. *)
Lemma generateSlides_checks_key_first_witness :
  "my-key" <> "demo-key"
  /\ ("my-key" = "" \/ Js.startsWith "sk-" "my-key" = false)
  /\ exists e,
       generateSlides parseOne today0 "my-key" "A talk on tides" false TimerWins
         = ([], Throw e)
       /\ typedError e.
Proof.
  split; [discriminate|]. split; [right; reflexivity|].
  apply (generateSlides_checks_key_first parseOne today0);
    [discriminate | right; reflexivity].
Defined.

(** ** Normalization of the provider's slides *)

Lemma slideDefaults_object (s : gmap string json) (index : nat) :
  exists computed,
    slideDefaults (JObj s) index = Return computed
    /\ forall k, s !! k = None -> computed !! k = fixedDefaults index !! k.
Proof.
  eexists. split; [reflexivity|].
  intros k Hk. unfold fixedDefaults. cbn [list_to_map foldr uncurry fst snd].
  rewrite !lookup_insert, lookup_singleton, lookup_empty.
  repeat case_decide; subst; rewrite ?Hk; reflexivity.
Qed.

Lemma normalizeSlide_object (index : nat) (s : gmap string json) :
  exists s',
    normalizeSlide index (JObj s) = Return (JObj s')
    /\ (forall k v, s !! k = Some v -> s' !! k = Some v)
    /\ (forall k, s !! k = None -> s' !! k = fixedDefaults index !! k).
Proof.
  destruct (slideDefaults_object s index) as (computed & Hc & Hd).
  exists (s ∪ computed). unfold normalizeSlide. rewrite Hc. split; [reflexivity|].
  split.
  - intros k v Hk. apply lookup_union_Some_l. exact Hk.
  - intros k Hk. rewrite lookup_union_r by exact Hk. apply Hd, Hk.
Qed.

Lemma normalizeSlide_not_null (index : nat) (v : json) :
  v <> JNull -> exists v', normalizeSlide index v = Return v'.
Proof.
  intros Hv. destruct v; try congruence; eexists; reflexivity.
Qed.

Lemma normalizeSlides_spec (slides : list json) (k : nat) :
  JNull ∉ slides ->
  exists normalized,
    normalizeSlides k slides = Return normalized
    /\ length normalized = length slides
    /\ forall i v, slides !! i = Some v ->
         exists v', normalized !! i = Some v'
                    /\ normalizeSlide (k + i) v = Return v'.
Proof.
  revert k. induction slides as [|x l IH]; intros k Hn.
  - exists []. split; [reflexivity|]. split; [reflexivity|]. intros i v Hi. discriminate.
  - apply not_elem_of_cons in Hn as [Hx Hl].
    destruct (normalizeSlide_not_null k x) as [x' Hx']; [congruence|].
    destruct (IH (S k) Hl) as (n & Hn & Hlen & Hall).
    exists (x' :: n). cbn [normalizeSlides]. rewrite Hx', Hn.
    split; [reflexivity|]. split; [cbn; lia|].
    intros [|i] v Hi; cbn in Hi.
    + inversion Hi; subst. exists x'. split; [reflexivity|].
      rewrite Nat.add_0_r. exact Hx'.
    + destruct (Hall i v Hi) as (v' & Hv' & Hnv). exists v'. split; [exact Hv'|].
      replace (k + S i) with (S k + i) by lia. exact Hnv.
Qed.

Section Normalization.
Variable JSON_parse : string -> option json.
Variable today : Today.

Lemma slideDefaults_primitive (v : json) (index : nat) :
  v <> JNull -> (forall s, v <> JObj s) ->
  exists computed,
    slideDefaults v index = Return computed
    /\ forall k, computed !! k = fixedDefaults index !! k.
Proof.
  intros Hn Ho. destruct v as [| b | n | s | l | m]; try congruence;
    try (eexists; split; [reflexivity|]; intros k; unfold fixedDefaults;
         cbn [list_to_map foldr uncurry fst snd or_default];
         rewrite !lookup_insert, lookup_singleton, lookup_empty;
         repeat case_decide; subst; reflexivity).
Qed.

Lemma normalizeSlide_fields (index : nat) (v : json) :
  v <> JNull ->
  exists s',
    normalizeSlide index v = Return (JObj s')
    /\ (forall k x, spread v !! k = Some x -> s' !! k = Some x)
    /\ (forall k, spread v !! k = None -> s' !! k = fixedDefaults index !! k).
Proof.
  intros Hn. destruct v as [| b | n | s | l | m]; try congruence;
    try (destruct (normalizeSlide_object index m) as (s' & H1 & H2 & H3);
         exists s'; auto);
    match goal with
    | |- context [normalizeSlide index ?v] =>
        destruct (slideDefaults_primitive v index) as (computed & Hc & Hd);
          [discriminate | discriminate |];
        exists (spread v ∪ computed); unfold normalizeSlide; rewrite Hc;
        (split; [reflexivity|]); split;
        [ intros k x Hk; apply lookup_union_Some_l; exact Hk
        | intros k Hk; rewrite lookup_union_r by exact Hk; apply Hd ]
    end.
Qed.

(** C2, amended: when the provider's answer parses to an object with a
    truthy [title] and an array [slides], then, if no element of the array
    is [null], [generateSlides] returns that object with its slides
    normalized: the array keeps its length, and the slide at position i
    keeps every field it had, with its value (the seven named ones and any
    extra one), and has each field it lacked among id, type, title,
    subtitle, content, speakerNotes, animation set to the fixed default
    (id = i+1, type = content, title = Slide i+1, content = [], animation =
    fadeIn, empty subtitle and notes); it gains no other field. The fields
    of an element are its own enumerable properties, [spread]: those of an
    object, none for a number or a boolean. If an element is [null],
    [generateSlides] throws an error instead. *)
Theorem generateSlides_normalizes
    (apiKey prompt content : string) (isDayPlanner : bool)
    (m : gmap string json) (slides : list json) :
  apiKey <> "demo-key" ->
  Js.startsWith "sk-" apiKey = true ->
  content <> "" ->
  JSON_parse content = Some (JObj m) ->
  truthy_opt (m !! "title") = true ->
  m !! "slides" = Some (JArr slides) ->
  let r := (generateSlides JSON_parse today apiKey prompt isDayPlanner
              (Resolves (Some content))).2 in
  ((JNull ∉ slides) ->
   exists normalized,
     r = Return (Generated (JObj (<["slides" := JArr normalized]> m)))
     /\ length normalized = length slides
     /\ forall i v, slides !! i = Some v ->
          exists s',
            normalized !! i = Some (JObj s')
            /\ (forall k x, spread v !! k = Some x -> s' !! k = Some x)
            /\ (forall k, spread v !! k = None -> s' !! k = fixedDefaults i !! k))
  /\ (JNull ∈ slides -> exists msg, r = Throw (Error msg)).
Proof.
  intros Hk Hsk Hc Hp Ht Hs r.
  assert (r = try_catch
                (normalized ← normalizeSlides 0 slides;
                 Return (Generated (JObj (<["slides" := JArr normalized]> m))))
                (fun error => Throw (rethrow error))) as ->.
  { subst r. rewrite (generateSlides_sk JSON_parse today _ _ _ _ Hk Hsk).
    unfold generateSlides_try. destruct content as [|a c]; [congruence|].
    rewrite Hp. cbn. rewrite Hs, Ht. reflexivity. }
  split.
  - intros Hn.
    destruct (normalizeSlides_spec slides 0 Hn) as (normalized & Hnorm & Hlen & Hall).
    exists normalized. rewrite Hnorm. split; [reflexivity|]. split; [exact Hlen|].
    intros i v Hi. destruct (Hall i v Hi) as (v' & Hv' & Hnv).
    change (0 + i) with i in Hnv.
    assert (v <> JNull) as Hv.
    { intros ->. apply Hn. apply list_elem_of_lookup. eauto. }
    destruct (normalizeSlide_fields i v Hv) as (s' & Hs' & Hkeep & Hfill).
    rewrite Hs' in Hnv. inversion Hnv; subst v'. exists s'. auto.
  - intros Hin. destruct (normalizeSlides_null slides 0 Hin) as [e ->]. cbn.
    destruct (rethrow_plain e) as [msg ->]. eauto.
Qed.

End Normalization.

(** The statement above on an answer of two slides, the first one empty. *)
Lemma generateSlides_normalizes_witness :
  "sk-test" <> "demo-key"
  /\ Js.startsWith "sk-" "sk-test" = true
  /\ responseText <> ""
  /\ parseJson responseText = Some (JObj responseValue)
  /\ truthy_opt (responseValue !! "title") = true
  /\ responseValue !! "slides" = Some (JArr responseSlides)
  /\ (JNull ∉ responseSlides)
  /\ exists normalized,
       (generateSlides parseJson today0 "sk-test" "A talk on tides" false
          (Resolves (Some responseText))).2
         = Return (Generated (JObj (<["slides" := JArr normalized]> responseValue)))
       /\ length normalized = length responseSlides
       /\ forall i v, responseSlides !! i = Some v ->
            exists s',
              normalized !! i = Some (JObj s')
              /\ (forall k x, spread v !! k = Some x -> s' !! k = Some x)
              /\ (forall k, spread v !! k = None -> s' !! k = fixedDefaults i !! k).
Proof.
  assert (JNull ∉ responseSlides) as Hn.
  { intros H. unfold responseSlides in H.
    apply elem_of_cons in H as [H|H]; [discriminate H|].
    apply elem_of_cons in H as [H|H]; [discriminate H|].
    inversion H. }
  assert (parseJson responseText = Some (JObj responseValue)) as Hp
    by (vm_compute; reflexivity).
  split; [discriminate|]. split; [reflexivity|]. split; [discriminate|].
  split; [exact Hp|]. split; [reflexivity|]. split; [reflexivity|].
  split; [exact Hn|].
  apply (generateSlides_normalizes parseJson today0 "sk-test" "A talk on tides"
           responseText false responseValue responseSlides);
    [discriminate | reflexivity | discriminate | exact Hp | reflexivity
    | reflexivity | exact Hn].
Defined.

(** C2, as the specification words it, does not hold: an answer with a
    title and a slides array whose second element is [null] is not
    normalized; [generateSlides] throws. *)
Lemma null_slide_is_not_normalized :
  parseJson nullSlideText
  = Some (JObj {[ "title" := JStr "T";
                  "slides" := JArr [ JObj {[ "id" := JNum 3 ]}; JNull ] ]})
  /\ ~ exists parsedContent,
         (generateSlides parseJson today0 "sk-test" "A talk on tides" false
            (Resolves (Some nullSlideText))).2 = Return parsedContent.
Proof.
  split; [vm_compute; reflexivity|].
  intros (v & H). vm_compute in H. discriminate H.
Qed.

(** The normalized second slide of the example keeps its id 7 and its extra
    field, and receives the default title of its position. *)
Example normalize_demo :
  match normalizeSlide 1 (JObj {[ "id" := JNum 7; "note" := JStr "x" ]}) with
  | Return (JObj s) => (s !! "id", s !! "note", s !! "title", s !! "layout")
  | _ => (None, None, None, None)
  end = (Some (JNum 7), Some (JStr "x"), Some (JStr "Slide 2"), None).
Proof. vm_compute. reflexivity. Qed.

(** ** Persistence: creation and its fallback *)

Lemma derivedFields_object (deck : gmap string json) :
  exists d n, derivedFields (JObj deck) = Return (d, n).
Proof. eexists _, _. reflexivity. Qed.

Lemma createProject_try_fails (w : World) (userId title prompt : string)
    (deck : gmap string json) (type : ProjectType)
    (addDoc_ : Net string) (updateDoc_ : Net unit) (error : JsError) :
  writeError addDoc_ = Some error ->
  createProject_try w userId title prompt (JObj deck) type addDoc_ updateDoc_
    = (w, Throw error).
Proof.
  intros He. unfold createProject_try.
  destruct (derivedFields_object deck) as (d & n & ->).
  destruct addDoc_; cbn in He; try discriminate; congruence.
Qed.

Lemma local_prefix (s : string) : Js.startsWith "local_" ("local_" ++ s) = true.
Proof. reflexivity. Qed.

Lemma find_appended (fid : string) (existing : list Project) (record : Project) :
  (forall p, p ∈ existing -> Project.id p <> fid) ->
  Project.id record = fid ->
  List.find (fun p => bool_decide (Project.id p = fid)) (existing ++ [record])%list
    = Some record.
Proof.
  intros Hfresh Hid. induction existing as [|q l IH]; cbn.
  - rewrite bool_decide_eq_true_2 by exact Hid. reflexivity.
  - rewrite bool_decide_eq_false_2 by (apply Hfresh; left).
    apply IH. intros p Hp. apply Hfresh. right. exact Hp.
Qed.

Lemma jsonProject_id (p : Project) : Project.id (jsonProject p) = Project.id p.
Proof. reflexivity. Qed.

(** C3, as the specification words it, does not hold: when the storage quota
    is exhausted, the local save fails as well and a failed primary write
    makes [createProject] throw; no id is returned. *)
Lemma createProject_throws_when_local_tier_broken :
  ~ exists id,
      (createProject worldFull "u1" "Quarterly review" "p" (JObj deck0)
         presentation (Fails unavailable) Hangs).2 = Return id
      /\ Js.startsWith "local_" id = true.
Proof. intros (id & H & _). vm_compute in H. discriminate H. Qed.

Example createProject_quota_demo :
  (createProject worldFull "u1" "Quarterly review" "p" (JObj deck0)
     presentation (Fails unavailable) Hangs).2
  = Throw (Error "Cannot create project while offline. Please check your internet connection.").
Proof. vm_compute. reflexivity. Qed.

Lemma createProject_catch_unusable (w : World) (userId title prompt : string)
    (deck : gmap string json) (type : ProjectType) (error : JsError) :
  localTierUsable w = false ->
  createProject_catch w userId title prompt (JObj deck) type error
  = (w, Throw (surfacedCreateError error)).
Proof.
  intros Hu. unfold createProject_catch, localTierUsable, surfacedCreateError in *.
  destruct (derivedFields_object deck) as (d & n & ->).
  unfold readLocalProjects, writeLocalProjects.
  destruct (hasWindow w); cbn [andb] in Hu |- *;
    [|destruct (_ || _); reflexivity].
  destruct (localProjects w), (localWritable w); cbn [andb] in Hu |- *;
    try discriminate Hu; destruct (_ || _); reflexivity.
Qed.

(** C3, amended: for every deck and owner, when the primary write fails or
    exceeds its deadline, then: if the durable-local tier is usable (a
    browser context whose [local_projects] item is absent or a list and
    accepts the write), [createProject] returns the id [local_] followed by
    the current instant and the record, with that id, deck and owner, is
    appended to the durable-local tier; and, provided no earlier record of
    that tier carries the same id, a subsequent [getProject] of that id
    returns that record without consulting the document database. If the
    tier is not usable, [createProject] throws and stores nothing. *)
Theorem createProject_degrades_to_local (w : World) (userId title prompt : string)
    (deck : gmap string json) (type : ProjectType)
    (addDoc_ : Net string) (updateDoc_ : Net unit) (error : JsError) :
  writeError addDoc_ = Some error ->
  let r := createProject w userId title prompt (JObj deck) type addDoc_ updateDoc_ in
  let fallbackId := "local_" ++ pretty (now w) in
  (localTierUsable w = true ->
   r.2 = Return fallbackId
   /\ Js.startsWith "local_" fallbackId = true
   /\ exists record,
        localProjects r.1
          = Item ((jsonProject <$> storedLocalProjects w) ++ [record])%list
        /\ Project.id record = fallbackId
        /\ Project.slideData record = JObj deck
        /\ Project.userId record = userId
        /\ ((forall p, p ∈ storedLocalProjects w -> Project.id p <> fallbackId) ->
            forall getDoc_, getProject r.1 fallbackId getDoc_ = Return (Some record)))
  /\ (localTierUsable w = false ->
      r = (w, Throw (surfacedCreateError error))).
Proof.
  intros He r fallbackId. subst r.
  unfold createProject. rewrite (createProject_try_fails _ _ _ _ _ _ _ _ _ He).
  split.
  - intros Hu. unfold localTierUsable in Hu.
    apply andb_prop in Hu as [Hu Hr]. apply andb_prop in Hu as [Hw Hwr].
    unfold createProject_catch. rewrite Hw.
    destruct (derivedFields_object deck) as (d & n & ->).
    fold fallbackId.
    set (lp := Project.mk fallbackId userId title (Some d) prompt (JObj deck) (Some n)
                 type (TDate (now w)) (TDate (now w)) true false).
    assert (readLocalProjects w = Return (storedLocalProjects w)) as ->.
    { unfold readLocalProjects, storedLocalProjects.
      destruct (localProjects w); [reflexivity | discriminate Hr | reflexivity]. }
    unfold writeLocalProjects. rewrite Hwr. cbn [fst snd].
    split; [reflexivity|]. split; [apply local_prefix|].
    exists (jsonProject lp).
    split; [cbn; rewrite fmap_app; reflexivity|].
    split; [reflexivity|]. split; [reflexivity|]. split; [reflexivity|].
    intros Hfresh getDoc_. unfold getProject.
    assert (Js.startsWith "local_" fallbackId = true) as -> by apply local_prefix.
    cbn [hasWindow set_localProjects andb]. rewrite Hw.
    cbn [readLocalProjects localProjects set_localProjects].
    rewrite fmap_app. cbn [fmap list_fmap].
    rewrite find_appended; [reflexivity | | reflexivity].
    intros p Hp. apply list_elem_of_fmap in Hp as (q & -> & Hq).
    rewrite jsonProject_id. apply Hfresh, Hq.
  - intros Hu. apply createProject_catch_unusable, Hu.
Qed.

(** The statement above in a fresh tab, on a write that hangs. *)
Lemma createProject_degrades_to_local_witness :
  writeError (@Hangs string) = Some (Error "Firestore timeout after 15 seconds")
  /\ localTierUsable world0 = true
  /\ (forall p, p ∈ storedLocalProjects world0 ->
        Project.id p <> "local_" ++ pretty (now world0))
  /\ (createProject world0 "u1" "Quarterly review" "p" (JObj deck0) presentation
        Hangs Hangs).2 = Return "local_1000"
  /\ exists record,
       localProjects
         (createProject world0 "u1" "Quarterly review" "p" (JObj deck0) presentation
            Hangs Hangs).1 = Item [record]
       /\ Project.slideData record = JObj deck0
       /\ getProject
            (createProject world0 "u1" "Quarterly review" "p" (JObj deck0)
               presentation Hangs Hangs).1 "local_1000" Hangs
          = Return (Some record).
Proof.
  assert (forall p, p ∈ storedLocalProjects world0 ->
            Project.id p <> "local_" ++ pretty (now world0)) as Hfresh.
  { intros p Hp. inversion Hp. }
  split; [reflexivity|]. split; [reflexivity|]. split; [exact Hfresh|].
  destruct (createProject_degrades_to_local world0 "u1" "Quarterly review" "p"
              deck0 presentation Hangs Hangs _ eq_refl) as [Hlocal _].
  destruct (Hlocal eq_refl) as (Hc & _ & record & Hl & _ & Hs & _ & Hg).
  split; [exact Hc|]. exists record. split; [exact Hl|].
  split; [exact Hs|]. exact (Hg Hfresh Hangs).
Defined.

(** C4, as the specification words it, does not hold: a write rejected for
    missing permissions is not surfaced; the record goes to the durable-local
    tier and its id is returned. *)
Lemma createProject_permission_denied_falls_back :
  (createProject world0 "u1" "Quarterly review" "p" (JObj deck0) presentation
     (Fails permissionDenied) Hangs).2 = Return "local_1000"
  /\ ~ exists e,
         (createProject world0 "u1" "Quarterly review" "p" (JObj deck0) presentation
            (Fails permissionDenied) Hangs).2 = Throw e.
Proof.
  split; [vm_compute; reflexivity|].
  intros (e & H). vm_compute in H. discriminate H.
Qed.

(** C4, amended: in [createProject] every failure of the primary write,
    whatever its kind (unavailable, deadline, permission or credential
    error), triggers the durable-local fallback when that tier is usable;
    an error is surfaced only when it is not, and then the message tells an
    unavailable/offline failure from any other. *)
Theorem createProject_falls_back_on_any_error (w : World)
    (userId title prompt : string) (deck : gmap string json) (type : ProjectType)
    (addDoc_ : Net string) (updateDoc_ : Net unit) (error : JsError) :
  writeError addDoc_ = Some error ->
  (createProject w userId title prompt (JObj deck) type addDoc_ updateDoc_).2
    = if localTierUsable w then Return ("local_" ++ pretty (now w))
      else Throw (surfacedCreateError error).
Proof.
  intros He. unfold createProject.
  rewrite (createProject_try_fails _ _ _ _ _ _ _ _ _ He).
  unfold createProject_catch, localTierUsable, surfacedCreateError.
  destruct (derivedFields_object deck) as (d & n & ->).
  unfold readLocalProjects, writeLocalProjects.
  destruct (hasWindow w); cbn [andb snd];
    [|destruct (_ || _); reflexivity].
  destruct (localProjects w), (localWritable w); cbn [andb snd];
    try reflexivity; destruct (_ || _); reflexivity.
Qed.

(** The statement above on a rejected write when the local item is garbled. *)
Lemma createProject_falls_back_on_any_error_witness :
  writeError (Fails permissionDenied) = Some permissionDenied
  /\ (createProject worldGarbled "u1" "Quarterly review" "p" (JObj deck0)
        presentation (Fails permissionDenied) Hangs).2
     = Throw (Error "Failed to create project. Please try again.").
Proof.
  split; [reflexivity|].
  exact (createProject_falls_back_on_any_error worldGarbled "u1" "Quarterly review"
           "p" deck0 presentation (Fails permissionDenied) Hangs permissionDenied
           eq_refl).
Defined.

(** ** Persistence: the merged project list *)

Section SortFacts.
Context {A : Type} (key : A -> Z).

Lemma insertDesc_perm (x : A) (l : list A) : insertDesc key x l ≡ₚ x :: l.
Proof.
  induction l as [|y r IH]; cbn; [reflexivity|].
  destruct (key y <? key x)%Z; [reflexivity|].
  rewrite IH. apply Permutation_swap.
Qed.

Lemma fold_insertDesc_perm (l acc : list A) :
  fold_left (fun acc x => insertDesc key x acc) l acc ≡ₚ (acc ++ l)%list.
Proof.
  revert acc. induction l as [|x l IH]; intros acc; cbn.
  - rewrite app_nil_r. reflexivity.
  - rewrite IH, insertDesc_perm. apply Permutation_middle.
Qed.

Lemma sortDesc_perm (l : list A) : sortDesc key l ≡ₚ l.
Proof. unfold sortDesc. apply fold_insertDesc_perm. Qed.

Lemma insertDesc_sorted (x : A) (l : list A) :
  Sorted (descending key) l -> Sorted (descending key) (insertDesc key x l).
Proof.
  induction l as [|y r IH]; intros Hs; cbn.
  - repeat constructor.
  - destruct (Z.ltb_spec (key y) (key x)) as [Hlt|Hge].
    + constructor; [exact Hs|]. constructor. unfold descending. lia.
    + inversion Hs as [|? ? Hr Hhd]; subst. constructor; [apply IH, Hr|].
      destruct r as [|z r']; cbn.
      * constructor. unfold descending. lia.
      * destruct (key z <? key x)%Z; constructor.
        -- unfold descending. lia.
        -- inversion Hhd; subst. assumption.
Qed.

Lemma sortDesc_sorted (l : list A) : Sorted (descending key) (sortDesc key l).
Proof.
  unfold sortDesc.
  assert (forall acc, Sorted (descending key) acc ->
            Sorted (descending key)
              (fold_left (fun acc x => insertDesc key x acc) l acc)) as H.
  { induction l as [|x l IH]; intros acc Hacc; cbn; [exact Hacc|].
    apply IH, insertDesc_sorted, Hacc. }
  apply H. constructor.
Qed.

End SortFacts.

(** What the loader gets right: in a browser whose local item is readable,
    the list is the union of the three tiers, the database contributing
    nothing when its read fails. *)
Lemma loadProjects_merges (w : World) (uid : string) (failure : option JsError) :
  hasWindow w = true ->
  localProjects w <> Garbled ->
  loadProjects w uid failure ≡ₚ
    (match getUserProjects w uid failure with Return l => l | Throw _ => [] end
     ++ List.filter (fun p => bool_decide (Project.userId p = uid)) (storedLocalProjects w)
     ++ tempProjects w uid (sessionStorage w))%list.
Proof.
  intros Hw Hg. unfold loadProjects. rewrite sortDesc_perm, Hw.
  unfold readLocalProjects, storedLocalProjects.
  destruct (localProjects w); [|congruence|].
  - cbn. rewrite app_nil_r. reflexivity.
  - rewrite app_assoc. reflexivity.
Qed.

Lemma getUserProjects_failure_contributes_nothing (w : World) (uid : string)
    (e : JsError) :
  match getUserProjects w uid (Some e) with Return l => l | Throw _ => [] end = [].
Proof. unfold getUserProjects. destruct (_ || _); reflexivity. Qed.

(** The list is sorted by decreasing compared instant; that instant is the
    epoch for every record whose [createdAt] is a string. *)
Lemma loadProjects_sorted (w : World) (uid : string) (failure : option JsError) :
  Sorted (descending (fun p => instant (Project.createdAt p)))
    (loadProjects w uid failure).
Proof. unfold loadProjects. apply sortDesc_sorted. Qed.

Lemma stored_date_compares_as_epoch (ms : Z) : instant (jsonTime (TDate ms)) = 0%Z.
Proof. reflexivity. Qed.

(** C5, at the failing input: one owner has a document created at instant
    1000, a durable-local record created at instant 2000 and a pending record
    in the tab. The list has the three entries, but the durable-local record,
    whose creation time came back from storage as a string, is compared as
    the epoch and listed after the older document: the list is not sorted by
    creation time descending. *)
Theorem loadProjects_local_record_sorts_as_epoch :
  Project.id <$> loadProjects worldThreeTiers "u1" None
    = ["temp_2500"; "doc1"; "local_2000"]
  /\ Project.createdAt <$> loadProjects worldThreeTiers "u1" None
    = [TDate 3000; TTimestamp 1000; TIsoString 2000].
Proof. split; vm_compute; reflexivity. Qed.

(** ** Persistence: update *)

Lemma updateProject_leaves_browser_stores (w : World) (projectId : string)
    (updates : ProjectPatch) (failure : option JsError) :
  localProjects (updateProject w projectId updates failure).1 = localProjects w
  /\ sessionStorage (updateProject w projectId updates failure).1 = sessionStorage w.
Proof.
  unfold updateProject, updateDoc.
  destruct failure; [split; reflexivity|].
  destruct (fs_projects w !! projectId); split; reflexivity.
Qed.

(** An id the database holds no document for, as every [local_] and [temp_]
    id is, cannot be updated: the call throws and nothing changes. *)
Lemma updateProject_without_document (w : World) (projectId : string)
    (updates : ProjectPatch) :
  fs_projects w !! projectId = None ->
  updateProject w projectId updates None
    = (w, Throw (Error "Failed to update project")).
Proof. intros Hn. unfold updateProject, updateDoc. rewrite Hn. reflexivity. Qed.

Lemma updateProject_refreshes_updatedAt (w : World) (projectId : string)
    (updates : ProjectPatch) (p : Project) :
  fs_projects w !! projectId = Some p ->
  exists p',
    fs_projects (updateProject w projectId updates None).1 !! projectId = Some p'
    /\ Project.updatedAt p' = TTimestamp (now w).
Proof.
  intros Hp. unfold updateProject, updateDoc. rewrite Hp. cbn.
  eexists. split; [apply lookup_insert_eq|]. reflexivity.
Qed.

(** C6, at the failing inputs: the durable-local record [local_2000] is read
    from the durable-local store (the database is not even reachable), but
    its update is sent to the document database, where no such document
    exists: the call throws and every store is left as it was. The same
    happens to the pending record [temp_2500] of the tab, which the page
    reads from the tab-scoped store and updates through the database. *)
Theorem updateProject_ignores_id_prefix :
  (exists p, getProject worldLocal "local_2000" Hangs = Return (Some p)
             /\ Project.slideData p = JObj deck0)
  /\ updateProject worldLocal "local_2000" editPatch None
     = (worldLocal, Throw (Error "Failed to update project"))
  /\ (exists p, loadPresentation worldThreeTiers "temp_2500" "u1" Hangs = Shown p
                /\ Project.slideData p = JObj deck0)
  /\ handleSlideUpdate worldThreeTiers "temp_2500" (JObj deck1) None
     = (worldThreeTiers, Some "Failed to save changes: Failed to update project").
Proof.
  split; [eexists; split; vm_compute; reflexivity|].
  split; [vm_compute; reflexivity|].
  split; [eexists; split; vm_compute; reflexivity|].
  vm_compute; reflexivity.
Qed.

(** ** Rendering of a quote slide *)

(** C9, as the specification words it, does not hold: a quote slide whose
    author field is present but empty gets no attribution. *)
Lemma empty_author_has_no_attribution :
  ~ (is_Some (cite (renderQuote theme_general
                      (quoteSlide (Some (Prose "Stay curious.")) (Some ""))))
     <-> is_Some (slide_author (quoteSlide (Some (Prose "Stay curious.")) (Some "")))).
Proof.
  intros [_ H]. destruct H as [c Hc]; [eexists; reflexivity|].
  vm_compute in Hc. discriminate Hc.
Qed.

(** C9, amended: for every quote slide the renderer puts between the quote
    marks the content itself when it is one string and, when it is a list,
    its elements joined by single spaces; it renders an attribution if and
    only if the author field is present and not empty. *)
Theorem renderSlide_quote (theme : Theme) (slide : Slide) :
  slide_type slide = "quote" ->
  exists q,
    renderSlide theme slide = VQuote q
    /\ text (blockquote q) = dquote ++ quoteBody (slide_content slide) ++ dquote
    /\ (forall items, slide_content slide = Some (Bullets items) ->
          text (blockquote q) = dquote ++ Js.join " " items ++ dquote)
    /\ (is_Some (cite q) <-> hasAuthor slide).
Proof.
  intros Ht. exists (renderQuote theme slide). unfold renderSlide.
  rewrite bool_decide_eq_true_2 by exact Ht.
  split; [reflexivity|]. split; [reflexivity|].
  split; [intros items Hi; cbn; rewrite Hi; reflexivity|].
  unfold hasAuthor. cbn [cite renderQuote].
  destruct (slide_author slide) as [a|].
  - destruct (bool_decide_reflect (a = "")) as [->|Hne].
    + split; [intros [c Hc]; discriminate|].
      intros (b & Hb & Hne). congruence.
    + split; [intros _; eauto|]. intros _. eexists; reflexivity.
  - split; [intros [c Hc]; discriminate|]. intros (b & Hb & _). discriminate.
Qed.

(** The scenario of the specification: two parts and no author. *)
Lemma renderSlide_quote_witness :
  slide_type (quoteSlide (Some (Bullets ["Part one."; "Part two."])) None) = "quote"
  /\ exists q,
       renderSlide theme_general (quoteSlide (Some (Bullets ["Part one."; "Part two."])) None)
         = VQuote q
       /\ text (blockquote q) = dquote ++ "Part one. Part two." ++ dquote
       /\ ~ is_Some (cite q).
Proof.
  split; [reflexivity|].
  destruct (renderSlide_quote theme_general
              (quoteSlide (Some (Bullets ["Part one."; "Part two."])) None) eq_refl)
    as (q & Hq & _ & Hl & Hc).
  exists q. split; [exact Hq|]. split; [exact (Hl _ eq_refl)|].
  intros Hs. apply Hc in Hs as (a & Ha & _). discriminate Ha.
Defined.

(** ** Further string facts *)

Lemma split_nonempty (sep : ascii) (s : string) : Js.split sep s <> [].
Proof.
  destruct s as [|c r]; cbn; [discriminate|].
  destruct (decide (c = sep)); [discriminate|].
  destruct (Js.split sep r); discriminate.
Qed.

Lemma split_pieces_free (sep : ascii) (s : string) :
  Forall (fun w => has_char sep w = false) (Js.split sep s).
Proof.
  induction s as [|c r IH]; cbn; [repeat constructor|].
  destruct (decide (c = sep)) as [->|Hne].
  - constructor; [reflexivity | exact IH].
  - destruct (Js.split sep r) as [|w ws]; [repeat constructor; cbn;
      rewrite bool_decide_eq_false_2 by exact Hne; reflexivity|].
    inversion IH; subst. constructor; [|assumption].
    cbn. rewrite bool_decide_eq_false_2 by exact Hne. assumption.
Qed.

Lemma join_split (sep : ascii) (s : string) :
  Js.join (String sep EmptyString) (Js.split sep s) = s.
Proof.
  induction s as [|c r IH]; [reflexivity|].
  cbn [Js.split]. destruct (decide (c = sep)) as [->|Hne].
  - pose proof (split_nonempty sep r) as Hn.
    destruct (Js.split sep r) as [|w ws] eqn:E; [congruence|].
    change (String sep (Js.join (String sep EmptyString) (w :: ws)) = String sep r).
    f_equal. exact IH.
  - pose proof (split_nonempty sep r) as Hn.
    destruct (Js.split sep r) as [|w ws] eqn:E; [congruence|].
    rewrite <- IH. destruct ws as [|w' ws']; reflexivity.
Qed.

Lemma lower_lower (c : ascii) : Js.lower_ascii (Js.lower_ascii c) = Js.lower_ascii c.
Proof. destruct c as [[] [] [] [] [] [] [] []]; reflexivity. Qed.

Lemma lower_upper (c : ascii) : Js.lower_ascii (Js.upper_ascii c) = Js.lower_ascii c.
Proof. destruct c as [[] [] [] [] [] [] [] []]; reflexivity. Qed.

Lemma toLowerCase_idem (s : string) : Js.toLowerCase (Js.toLowerCase s) = Js.toLowerCase s.
Proof. induction s as [|c r IH]; cbn; [reflexivity|]. rewrite lower_lower, IH. reflexivity. Qed.

Lemma toLowerCase_upper (s : string) : Js.toLowerCase (Js.toUpperCase s) = Js.toLowerCase s.
Proof. induction s as [|c r IH]; cbn; [reflexivity|]. rewrite lower_upper, IH. reflexivity. Qed.

Lemma split_lower (sep : ascii) (s : string) :
  Js.toLowerCase s = s -> Forall (fun w => Js.toLowerCase w = w) (Js.split sep s).
Proof.
  induction s as [|c r IH]; intros Hs; cbn; [repeat constructor|].
  cbn in Hs. injection Hs as Hc Hr. specialize (IH Hr).
  destruct (decide (c = sep)).
  - constructor; [reflexivity | exact IH].
  - destruct (Js.split sep r) as [|w ws].
    + repeat constructor. cbn. rewrite Hc. reflexivity.
    + inversion IH; subst. constructor; [|assumption]. cbn. congruence.
Qed.

(** ** Prompt analysis: ranges and case *)

(** X1: whatever the prompt, the analyzer answers one of the seven
    industries and one of the five intents, and keeps the prompt as it was
    given. *)
Theorem analyzePrompt_ranges (prompt : string) :
  industry (analyzePrompt prompt) ∈ industries
  /\ presentationType (analyzePrompt prompt) ∈ intents
  /\ originalPrompt (analyzePrompt prompt) = prompt.
Proof.
  unfold analyzePrompt. cbn [industry presentationType originalPrompt].
  split; [|split; [|reflexivity]].
  - repeat match goal with |- context [if ?b then _ else _] => destruct b end;
      unfold industries; set_solver.
  - repeat match goal with |- context [if ?b then _ else _] => destruct b end;
      unfold intents; set_solver.
Qed.

(** X2: the analysis does not depend on the case of the prompt: two
    prompts with the same lower-case form get the same industry, subject and
    intent. *)
Theorem analyzePrompt_ignores_case (p1 p2 : string) :
  Js.toLowerCase p1 = Js.toLowerCase p2 ->
  industry (analyzePrompt p1) = industry (analyzePrompt p2)
  /\ subject (analyzePrompt p1) = subject (analyzePrompt p2)
  /\ presentationType (analyzePrompt p1) = presentationType (analyzePrompt p2).
Proof.
  intros H. unfold analyzePrompt, extractMainSubject.
  cbn [industry subject presentationType]. rewrite H. auto.
Qed.

Lemma analyzePrompt_ignores_case_witness :
  Js.toLowerCase "AI Strategy For Schools" = Js.toLowerCase "ai strategy for schools"
  /\ industry (analyzePrompt "AI Strategy For Schools") = "technology"
  /\ subject (analyzePrompt "AI Strategy For Schools") = "strategy schools".
Proof.
  split; [reflexivity|].
  destruct (analyzePrompt_ignores_case "AI Strategy For Schools"
              "ai strategy for schools" eq_refl) as (Hi & Hs & _).
  split; [rewrite Hi | rewrite Hs]; reflexivity.
Defined.

(** X3: the extracted subject is at most three words joined by single
    spaces; each is in lower case, longer than two characters, free of
    spaces and not a stop word. *)
Theorem subject_words (prompt : string) :
  exists ws,
    subject (analyzePrompt prompt) = Js.join " " ws
    /\ length ws <= 3
    /\ Forall (fun w => (w ∉ stopWords) /\ 2 < String.length w
                        /\ has_char " " w = false /\ Js.toLowerCase w = w) ws.
Proof.
  unfold analyzePrompt. cbn [subject]. unfold extractMainSubject.
  eexists. split; [reflexivity|]. split.
  - unfold Js.slice0. rewrite length_take. lia.
  - unfold Js.slice0. apply Forall_take.
    pose proof (split_pieces_free " " (Js.toLowerCase prompt)) as Hf.
    pose proof (split_lower " " (Js.toLowerCase prompt) (toLowerCase_idem prompt)) as Hl.
    induction (Js.split " " (Js.toLowerCase prompt)) as [|w ws IH];
      cbn [List.filter]; [constructor|].
    inversion Hf as [|? ? Hw Hf']; subst. inversion Hl as [|? ? Hlw Hl']; subst.
    destruct (negb (list_includes w stopWords) && (2 <? String.length w)%nat) eqn:E.
    + constructor; [|apply IH; assumption].
      apply andb_prop in E as [E1 E2].
      apply negb_true_iff in E1. unfold list_includes in E1.
      apply bool_decide_eq_false in E1. apply Nat.ltb_lt in E2. auto.
    + apply IH; assumption.
Qed.

(** ** Shape of the synthesized deck *)

Lemma generateSlideContent_length (t : SlideTemplate) (a : Analysis) (i : nat) :
  length (generateSlideContent t a i) = 4.
Proof.
  unfold generateSlideContent.
  repeat match goal with |- context [if ?b then _ else _] => destruct b end;
    reflexivity.
Qed.

Lemma fallback_lookup (today : Today) (prompt : string) (i : nat) (s : Slide) :
  deck_slides (generateFallbackSlides today prompt false) !! i = Some s ->
  exists t,
    generatePersonalizedContent (analyzePrompt prompt) !! i = Some t
    /\ s = fallbackSlide (analyzePrompt prompt) i t.
Proof.
  unfold generateFallbackSlides. cbn [deck_slides]. rewrite list_lookup_imap.
  destruct (generatePersonalizedContent (analyzePrompt prompt) !! i) as [t|];
    cbn; intros H; [|discriminate].
  exists t. split; [reflexivity|]. congruence.
Qed.

Lemma presentationType_range (prompt : string) :
  presentationType (analyzePrompt prompt) ∈ intents.
Proof.
  unfold analyzePrompt. cbn [presentationType].
  repeat match goal with |- context [if ?b then _ else _] => destruct b end;
    unfold intents; set_solver.
Qed.

(** X4: a synthesized presentation has 8 slides for the informational
    intent and 7 for every other one; it opens with a hero slide whose
    subtitle quotes the prompt and closes with an image-focus slide. *)
Theorem fallback_deck_shape (today : Today) (prompt : string) :
  let deck := generateFallbackSlides today prompt false in
  length (deck_slides deck)
    = (if decide (presentationType (analyzePrompt prompt) = "informational") then 8 else 7)
  /\ slide_type <$> head (deck_slides deck) = Some "hero"
  /\ slide_subtitle <$> head (deck_slides deck)
     = Some (Some ("Based on your request: " ++ dquote ++ prompt ++ dquote))
  /\ slide_type <$> last (deck_slides deck) = Some "image-focus".
Proof.
  cbn zeta. unfold generateFallbackSlides. cbn [deck_slides].
  unfold generatePersonalizedContent.
  pose proof (presentationType_range prompt) as Hr. unfold intents in Hr.
  repeat case_decide; try congruence; cbn; auto.
  exfalso.
  repeat (apply elem_of_cons in Hr as [Hr|Hr]; [congruence|]). inversion Hr.
Qed.

(** X5: in a synthesized presentation the quote slides carry one text and
    the author Industry Expert; every other slide carries a list of four
    items and no author. *)
Theorem fallback_content_shape (today : Today) (prompt : string) :
  Forall (fun s =>
            if decide (slide_type s = "quote")
            then (exists t, slide_content s = Some (Prose t))
                 /\ slide_author s = Some "Industry Expert"
            else (exists items, slide_content s = Some (Bullets items)
                                /\ length items = 4)
                 /\ slide_author s = None)
         (deck_slides (generateFallbackSlides today prompt false)).
Proof.
  apply Forall_lookup. intros i s Hi.
  destruct (fallback_lookup today prompt i s Hi) as (t & _ & ->).
  unfold fallbackSlide. cbn [slide_type slide_content slide_author].
  pose proof (generateSlideContent_length t (analyzePrompt prompt) i) as Hl.
  destruct (generateSlideContent t (analyzePrompt prompt) i) as [|x r] eqn:E;
    [discriminate Hl|].
  case_decide as Hq.
  - rewrite Hq. cbn. split; [eexists; reflexivity | reflexivity].
  - rewrite (bool_decide_eq_false_2 _ Hq).
    split; [|reflexivity].
    destruct (bool_decide (tpl_type t = "stats")); eexists; split;
      try reflexivity; exact Hl.
Qed.

(** X6: the viewer draws an overlay exactly on the synthesized slides
    whose index is 1 modulo 3 (the image backgrounds): black at 0.6 on the
    even indices, white at 0.3 on the odd ones. *)
Theorem fallback_overlay (today : Today) (prompt : string) (i : nat) (s : Slide) :
  deck_slides (generateFallbackSlides today prompt false) !! i = Some s ->
  cssGet "backgroundColor" (getOverlayStyle s)
    = if decide (i mod 3 = 1)
      then Some (if decide (i mod 2 = 0) then "rgba(0,0,0,0.6)"
                 else "rgba(255,255,255,0.3)")
      else None.
Proof.
  intros Hi. destruct (fallback_lookup today prompt i s Hi) as (t & _ & ->).
  unfold getOverlayStyle, fallbackSlide.
  cbn [slide_backgroundStyle slide_styling default overlay from_option].
  destruct (decide (i mod 3 = 0)) as [H0|H0].
  - destruct (decide (i mod 3 = 1)) as [H1|H1]; [congruence | reflexivity].
  - destruct (decide (i mod 3 = 1)) as [H1|H1]; [|reflexivity].
    destruct (decide (i mod 2 = 0)); reflexivity.
Qed.

Lemma fallback_overlay_witness :
  deck_slides (generateFallbackSlides today0 scenarioPrompt false) !! 4
    = Some (fallbackSlide (analyzePrompt scenarioPrompt) 4
              (tpl "content" "Real-World Applications" "applications"))
  /\ cssGet "backgroundColor"
       (getOverlayStyle (fallbackSlide (analyzePrompt scenarioPrompt) 4
                           (tpl "content" "Real-World Applications" "applications")))
     = Some "rgba(0,0,0,0.6)".
Proof.
  split; [reflexivity|].
  exact (fallback_overlay today0 scenarioPrompt 4 _ eq_refl).
Defined.

(** X7: a synthesized quote slide is rendered as its first content line in
    quotes with the attribution Industry Expert. *)
Theorem fallback_quote_rendering (today : Today) (prompt : string) (i : nat) (s : Slide) :
  deck_slides (generateFallbackSlides today prompt false) !! i = Some s ->
  slide_type s = "quote" ->
  exists q first,
    renderSlide (deck_theme (generateFallbackSlides today prompt false)) s = VQuote q
    /\ slide_content s = Some (Prose first)
    /\ text (blockquote q) = dquote ++ first ++ dquote
    /\ text <$> cite q = Some (emDash ++ "Industry Expert").
Proof.
  intros Hi Hq. destruct (fallback_lookup today prompt i s Hi) as (t & _ & ->).
  unfold renderSlide. rewrite (bool_decide_eq_true_2 _ Hq).
  cbn [slide_type fallbackSlide] in Hq.
  pose proof (generateSlideContent_length t (analyzePrompt prompt) i) as Hl.
  unfold renderQuote, fallbackSlide.
  cbn [slide_content slide_author cite blockquote text].
  rewrite (bool_decide_eq_true_2 _ Hq).
  assert (bool_decide (tpl_type t = "stats") = false) as ->
    by (apply bool_decide_eq_false_2; rewrite Hq; discriminate).
  destruct (generateSlideContent t (analyzePrompt prompt) i) as [|x r];
    [discriminate Hl|].
  eexists _, x. split; [reflexivity|]. split; [reflexivity|].
  split; reflexivity.
Qed.

Lemma fallback_quote_rendering_witness :
  deck_slides (generateFallbackSlides today0 scenarioPrompt false) !! 5
    = Some (fallbackSlide (analyzePrompt scenarioPrompt) 5
              (tpl "quote" "Expert Perspective" "authority"))
  /\ slide_type (fallbackSlide (analyzePrompt scenarioPrompt) 5
                   (tpl "quote" "Expert Perspective" "authority")) = "quote"
  /\ exists q first,
       renderSlide (deck_theme (generateFallbackSlides today0 scenarioPrompt false))
         (fallbackSlide (analyzePrompt scenarioPrompt) 5
            (tpl "quote" "Expert Perspective" "authority")) = VQuote q
       /\ slide_content (fallbackSlide (analyzePrompt scenarioPrompt) 5
                           (tpl "quote" "Expert Perspective" "authority"))
          = Some (Prose first)
       /\ text (blockquote q) = dquote ++ first ++ dquote
       /\ text <$> cite q = Some (emDash ++ "Industry Expert").
Proof.
  split; [reflexivity|]. split; [reflexivity|].
  exact (fallback_quote_rendering today0 scenarioPrompt 5 _ eq_refl eq_refl).
Defined.

(** ** Key validation, chat, day planner and the generate page *)

Lemma includes_app_r (p a b : string) :
  Js.includes p b = true -> Js.includes p (a ++ b) = true.
Proof.
  intros H. induction a as [|c a IH]; [exact H|].
  change (Js.startsWith p (String c (a ++ b)) || Js.includes p (a ++ b) = true).
  rewrite IH. apply orb_true_r.
Qed.

Lemma toLowerCase_app (a b : string) :
  Js.toLowerCase (a ++ b) = Js.toLowerCase a ++ Js.toLowerCase b.
Proof.
  induction a as [|c a IH]; [reflexivity|].
  change (String (Js.lower_ascii c) (Js.toLowerCase (a ++ b))
          = String (Js.lower_ascii c) (Js.toLowerCase a ++ Js.toLowerCase b)).
  rewrite IH. reflexivity.
Qed.

Lemma split_word (sep : ascii) (w rest : string) :
  has_char sep w = false ->
  Js.split sep (w ++ String sep rest) = w :: Js.split sep rest.
Proof.
  induction w as [|c w IH]; intros Hw.
  - change (Js.split sep (String sep rest) = "" :: Js.split sep rest).
    unfold Js.split; fold (Js.split sep).
    destruct (decide (sep = sep)); [reflexivity | congruence].
  - cbn in Hw. apply orb_false_iff in Hw as [Hc Hw].
    apply bool_decide_eq_false in Hc.
    change (Js.split sep (String c (w ++ String sep rest)) = String c w :: Js.split sep rest).
    unfold Js.split; fold (Js.split sep).
    destruct (decide (c = sep)); [congruence|].
    rewrite (IH Hw). reflexivity.
Qed.

(** X8: [validateApiKey] answers true exactly for the demo key and for a
    key with the sk- prefix whose model listing succeeds in time; a key of
    another form is answered false without a thrown error. *)
Theorem validateApiKey_true_iff (apiKey : string) (list_ : Net unit) :
  (validateApiKey apiKey list_ = Return true
   <-> apiKey = "demo-key"
       \/ (Js.startsWith "sk-" apiKey = true /\ exists u, list_ = Online u))
  /\ (apiKey <> "demo-key" -> Js.startsWith "sk-" apiKey = false ->
      validateApiKey apiKey list_ = Return false).
Proof.
  unfold validateApiKey, createOpenAIClient.
  destruct (bool_decide_reflect (apiKey = "demo-key")) as [->|Hd].
  { split; [split; auto|]. congruence. }
  destruct (bool_decide_reflect (apiKey = "")) as [->|He].
  { cbn. split; [|reflexivity].
    split; [discriminate|]. intros [H|[H _]]; discriminate. }
  destruct (Js.startsWith "sk-" apiKey) eqn:Hsk; cbn.
  - split; [|discriminate]. destruct list_ as [u|e|]; cbn.
    + split; eauto.
    + destruct (_ || _); split; try discriminate;
        intros [H|[_ [u H]]]; congruence.
    + split; [discriminate|]. intros [H|[_ [u H]]]; congruence.
  - split; [|reflexivity].
    split; [discriminate|]. intros [H|[H _]]; congruence.
Qed.

(** X9: [chatWithAI] never returns the empty string, and a rejected
    request is rethrown with the Chat AI Error prefix. *)
Theorem chatWithAI_reply (apiKey : string) (reply : ChatReply) :
  chatWithAI apiKey reply <> Return ""
  /\ (forall e, apiKey <> "demo-key" -> Js.startsWith "sk-" apiKey = true ->
        chatWithAI apiKey (ChatRejects e)
          = Throw (Error ("Chat AI Error: " ++ message e))).
Proof.
  split.
  - unfold chatWithAI. destruct (bool_decide (apiKey = "demo-key")); [discriminate|].
    destruct (createOpenAIClient apiKey) as [[c|]|e]; cbn; try discriminate.
    destruct reply as [e|[content|]]; try discriminate.
    destruct (bool_decide_reflect (content = "")); [discriminate|congruence].
  - intros e Hd Hsk. unfold chatWithAI, createOpenAIClient.
    rewrite (bool_decide_eq_false_2 _ Hd).
    assert (apiKey <> "") as Hne by (intros ->; discriminate Hsk).
    rewrite (bool_decide_eq_false_2 _ Hne), Hsk. reflexivity.
Qed.

Lemma dayPlanner_subject (tasks : list Task) (date : string) :
  subject (analyzePrompt (dayPlannerPrompt tasks date)) = "professional daily planner".
Proof.
  unfold analyzePrompt. cbn [subject]. unfold extractMainSubject.
  assert (exists R, Js.toLowerCase (dayPlannerPrompt tasks date)
            = "create" ++ String " " ("a" ++ String " " ("professional" ++ String " "
                ("daily" ++ String " " ("planner" ++ String " " R))))) as [R ->].
  { eexists (Js.toLowerCase ("presentation for " ++ date ++ _)).
    unfold dayPlannerPrompt. reflexivity. }
  rewrite !split_word by reflexivity.
  change (Js.join " " (Js.slice0 3 (List.filter meaningful
            ("create" :: "a" :: "professional" :: "daily" :: "planner" :: Js.split " " R)))
          = "professional daily planner").
  cbn [List.filter].
  replace (meaningful "create") with false by (vm_compute; reflexivity).
  replace (meaningful "a") with false by (vm_compute; reflexivity).
  replace (meaningful "professional") with true by (vm_compute; reflexivity).
  replace (meaningful "daily") with true by (vm_compute; reflexivity).
  replace (meaningful "planner") with true by (vm_compute; reflexivity).
  reflexivity.
Qed.

Section DemoPlanner.
Variable JSON_parse : string -> option json.
Variable today : Today.

(** X10: with the demo key [generateDayPlanner] issues no request and
    returns the one-slide planner; its slide is the same for every task list
    and date, titled after the fixed words of the prompt. *)
Theorem generateDayPlanner_demo (tasks : list Task) (date : string) (remote : Completion) :
  exists deck,
    generateDayPlanner JSON_parse today "demo-key" tasks date remote
      = ([EvFallback (dayPlannerPrompt tasks date) true], Return (Synthesized deck))
    /\ slide_title <$> deck_slides deck = ["Your professional daily planner Day"]
    /\ deck_slides deck
       = deck_slides (generateFallbackSlides today (dayPlannerPrompt [] "") true).
Proof.
  eexists. split; [reflexivity|].
  unfold generateFallbackSlides, plannerDeck. cbn [deck_slides fmap list_fmap slide_title].
  rewrite !dayPlanner_subject. split; reflexivity.
Qed.

Lemma generic_frame_is_shown_as_key_error (e : JsError) :
  Js.startsWith "OpenAI API Error: " (message (rethrow e)) = true ->
  generationErrorMessage (rethrow e)
    = "Invalid API key. Please check your OpenAI API key in settings.".
Proof.
  unfold rethrow.
  repeat match goal with
  | |- context [if ?b then _ else _] =>
      lazymatch b with
      | bool_decide (message e = "") => fail
      | _ => destruct b
      end
  end; cbn [message Error]; try discriminate.
  intros _. unfold generationErrorMessage. cbn [message Error].
  rewrite includes_app_r; [reflexivity|].
  apply includes_app_r. reflexivity.
Qed.

(** X11: when the provider answers nothing, or a value other than [null]
    without a truthy title or a slides array, the generate page shows the
    invalid-API-key text: the generic frame of [generateSlides] ends in the
    words API key. *)
Theorem ill_shaped_answer_is_shown_as_key_error
    (isoDate apiKey prompt : string) (remote : Completion) :
  apiKey <> "demo-key" ->
  Js.startsWith "sk-" apiKey = true ->
  (remote = Resolves None
   \/ exists content v, remote = Resolves (Some content)
                        /\ JSON_parse content = Some v
                        /\ v <> JNull
                        /\ validStructure v = false) ->
  generateContent_generate JSON_parse today isoDate apiKey prompt presentation remote
    = inr "Invalid API key. Please check your OpenAI API key in settings.".
Proof.
  intros Hd Hsk Hr. unfold generateContent_generate.
  change (bool_decide (presentation = planner)) with false. cbv iota.
  unfold generateSlides, createOpenAIClient.
  rewrite (bool_decide_eq_false_2 _ Hd).
  assert (apiKey <> "") as Hne by (intros ->; discriminate Hsk).
  rewrite (bool_decide_eq_false_2 _ Hne), Hsk. cbn [negb snd].
  assert (exists msg, generateSlides_try JSON_parse remote = Throw (Error msg)
            /\ Js.startsWith "OpenAI API Error: " (message (rethrow (Error msg))) = true)
    as (msg & -> & Hg).
  { destruct Hr as [-> | (content & v & -> & Hp & Hn & Hv)].
    - eexists. split; reflexivity.
    - destruct content as [|a c]; [eexists; split; reflexivity|].
      unfold generateSlides_try. rewrite Hp.
      destruct v as [| b | n | s | l | m]; [congruence|..];
        try (eexists; split; reflexivity).
      cbn in Hv |- *.
      destruct (m !! "slides") as [[| | | | slides |]|];
        try (eexists; split; reflexivity).
      destruct (truthy_opt (m !! "title")); [discriminate Hv|].
      eexists; split; reflexivity. }
  cbn [try_catch]. f_equal. apply generic_frame_is_shown_as_key_error, Hg.
Qed.

End DemoPlanner.

Lemma ill_shaped_answer_is_shown_as_key_error_witness :
  "sk-test" <> "demo-key"
  /\ Js.startsWith "sk-" "sk-test" = true
  /\ parseJson "{}" = Some (JObj ∅)
  /\ JObj ∅ <> JNull
  /\ validStructure (JObj ∅) = false
  /\ generateContent_generate parseJson today0 "2026-11-02" "sk-test"
       scenarioPrompt presentation (Resolves (Some "{}"))
     = inr "Invalid API key. Please check your OpenAI API key in settings.".
Proof.
  assert (parseJson "{}" = Some (JObj ∅)) as Hp by (vm_compute; reflexivity).
  split; [discriminate|]. split; [reflexivity|]. split; [exact Hp|].
  split; [discriminate|]. split; [reflexivity|].
  apply (ill_shaped_answer_is_shown_as_key_error parseJson today0
           "2026-11-02" "sk-test" scenarioPrompt (Resolves (Some "{}")));
    [discriminate | reflexivity|].
  right. exists "{}", (JObj ∅).
  split; [reflexivity|]. split; [exact Hp|]. split; [discriminate | reflexivity].
Defined.

(** X12: a key the key form accepts is the typed one, becomes the stored
    one, and passes the format check of [createOpenAIClient]. *)
Theorem accepted_key_passes_format_check (form : KeyForm) (saveThrows : bool)
    (form' : KeyForm) (key : string) :
  handleValidateAndSave form saveThrows = (form', Some key) ->
  key = inputKey form /\ storedKey form' = key
  /\ exists client, createOpenAIClient key = Return client.
Proof.
  unfold handleValidateAndSave, createOpenAIClient.
  destruct (blank (inputKey form)) eqn:Hb; [discriminate|].
  destruct (bool_decide_reflect (inputKey form = "demo-key")) as [Hd|Hd]; cbn [orb].
  - destruct saveThrows; [discriminate|]. intros H. injection H as <- <-.
    split; [reflexivity|]. split; [reflexivity|].
    rewrite Hd. eexists. reflexivity.
  - destruct (Js.startsWith "sk-" (inputKey form)) eqn:Hsk; [|discriminate].
    destruct saveThrows; [discriminate|]. intros H. injection H as <- <-.
    split; [reflexivity|]. split; [reflexivity|]. cbn [storedKey].
    assert (inputKey form <> "") as Hne by (intros E; rewrite E in Hsk; discriminate).
    rewrite (bool_decide_eq_false_2 _ Hne), (bool_decide_eq_false_2 _ Hd), Hsk.
    eexists. reflexivity.
Qed.

Lemma accepted_key_passes_format_check_witness :
  let form := {| storedKey := ""; inputKey := "sk-test"; validationStatus := "idle";
                 formError := "" |} in
  handleValidateAndSave form false
    = ({| storedKey := "sk-test"; inputKey := "sk-test"; validationStatus := "valid";
          formError := "" |}, Some "sk-test")
  /\ exists client, createOpenAIClient "sk-test" = Return client.
Proof.
  cbv zeta. split; [reflexivity|].
  exact (proj2 (proj2 (accepted_key_passes_format_check
           {| storedKey := ""; inputKey := "sk-test"; validationStatus := "idle";
              formError := "" |} false _ "sk-test" eq_refl))).
Defined.

(** ** Normalization is idempotent *)

Lemma slideDefaults_keys (slide : json) (index : nat) (computed : gmap string json) :
  slideDefaults slide index = Return computed ->
  forall k, is_Some (computed !! k) <-> k ∈ normalizedKeys.
Proof.
  intros H k.
  assert (exists a b c d e f g, computed = list_to_map
            [("id", a); ("type", b); ("title", c); ("subtitle", d); ("content", e);
             ("speakerNotes", f); ("animation", g)]) as (a & b & c & d & e & f & g & ->).
  { destruct slide; cbn in H; try discriminate; injection H as <-; repeat eexists. }
  cbn [list_to_map foldr uncurry fst snd]. unfold normalizedKeys.
  rewrite !lookup_insert, lookup_empty. rewrite !elem_of_cons, elem_of_nil.
  repeat case_decide; subst; split; intros Hk;
    try (eexists; reflexivity); try (destruct Hk as [? Hk]; discriminate Hk);
    try tauto.
  - intuition congruence.
Qed.

Lemma normalizeSlide_fixed (index index' : nat) (slide normalized : json) :
  normalizeSlide index slide = Return normalized ->
  normalizeSlide index' normalized = Return normalized.
Proof.
  unfold normalizeSlide at 1.
  destruct (slideDefaults slide index) as [computed|e] eqn:Hc; [|discriminate].
  cbn. intros [= <-].
  unfold normalizeSlide.
  destruct (slideDefaults (JObj (spread slide ∪ computed)) index') as [computed'|e] eqn:Hc';
    [|discriminate].
  cbn. f_equal. f_equal. apply map_eq. intros k.
  destruct ((spread slide ∪ computed) !! k) as [x|] eqn:Hk.
  - apply lookup_union_Some_l. exact Hk.
  - rewrite lookup_union_r by exact Hk.
    apply lookup_union_None in Hk as [_ Hk].
    apply eq_None_not_Some. intros Hs. apply (slideDefaults_keys _ _ _ Hc') in Hs.
    apply (slideDefaults_keys _ _ _ Hc) in Hs. rewrite Hk in Hs. destruct Hs; discriminate.
Qed.

(** X13: normalizing slides that are already normalized changes nothing,
    at whatever index the numbering starts. *)
Theorem normalizeSlides_idempotent (index index' : nat) (slides normalized : list json) :
  normalizeSlides index slides = Return normalized ->
  normalizeSlides index' normalized = Return normalized.
Proof.
  revert index index' normalized. induction slides as [|s rest IH]; intros i j n H.
  - cbn in H. injection H as <-. reflexivity.
  - cbn [normalizeSlides] in H.
    destruct (normalizeSlide i s) as [s'|e] eqn:Hs; [|discriminate].
    cbn in H. destruct (normalizeSlides (S i) rest) as [r|e] eqn:Hr; [|discriminate].
    cbn in H. injection H as <-.
    cbn [normalizeSlides]. rewrite (normalizeSlide_fixed _ j _ _ Hs). cbn.
    rewrite (IH _ (S j) _ Hr). reflexivity.
Qed.

Lemma normalizeSlides_idempotent_witness :
  exists normalized,
    normalizeSlides 0 responseSlides = Return normalized
    /\ normalizeSlides 0 normalized = Return normalized.
Proof.
  destruct (normalizeSlides 0 responseSlides) as [n|e] eqn:H.
  - exists n. split; [reflexivity|]. exact (normalizeSlides_idempotent 0 0 responseSlides n H).
  - exfalso. vm_compute in H. discriminate H.
Defined.

(** ** Persistence: ownership, creation and deletion *)

Lemma withId_userId (k : string) (p : Project) :
  Project.userId (withId k p) = Project.userId p.
Proof. reflexivity. Qed.

Lemma Forall_sortDesc {A} (key : A -> Z) (P : A -> Prop) (l : list A) :
  Forall P l -> Forall P (sortDesc key l).
Proof. intros H. rewrite sortDesc_perm. exact H. Qed.

Lemma Forall_filter_bool {A} (f : A -> bool) (l : list A) :
  Forall (fun x => f x = true) (List.filter f l).
Proof.
  induction l as [|x l IH]; cbn; [constructor|].
  destruct (f x) eqn:E; [constructor; assumption | assumption].
Qed.

Lemma queryUserProjects_owner (w : World) (uid : string) :
  Forall (fun p => Project.userId p = uid) (queryUserProjects w uid).
Proof.
  unfold queryUserProjects. apply Forall_sortDesc.
  eapply Forall_impl; [apply Forall_filter_bool|].
  intros p Hp. cbn in Hp. apply bool_decide_eq_true in Hp. exact Hp.
Qed.

Lemma tempProjects_owner (w : World) (uid : string) (entries : list (string * Stored Project)) :
  Forall (fun p => Project.userId p = uid) (tempProjects w uid entries).
Proof.
  induction entries as [|[key item] rest IH]; cbn [tempProjects]; [constructor|].
  destruct (Js.startsWith "temp_project_" key); [|exact IH].
  destruct item as [| |tp]; try exact IH.
  destruct (bool_decide_reflect (Project.userId tp = uid)) as [Hu|Hu]; [|exact IH].
  constructor; [exact Hu | exact IH].
Qed.

Lemma withId_same (key : string) (p : Project) : Project.id p = key -> withId key p = p.
Proof. intros <-. destruct p. reflexivity. Qed.

(** X14: on a collection as this program writes it, a successful
    [getUserProjects] returns only documents of the user, each read under
    its own id, every one of them, in decreasing order of update time. *)
Theorem getUserProjects_owner_sorted (w : World) (uid : string) :
  wellStamped w ->
  exists l,
    getUserProjects w uid None = Return l
    /\ Forall (fun p => Project.userId p = uid) l
    /\ Sorted (descending (fun p => instant (Project.updatedAt p))) l
    /\ Forall (fun p => fs_projects w !! Project.id p = Some p) l
    /\ (forall key p, fs_projects w !! key = Some p -> Project.userId p = uid -> p ∈ l).
Proof.
  intros Hw. eexists. split; [reflexivity|]. split; [apply queryUserProjects_owner|].
  split; [apply sortDesc_sorted|]. split.
  - unfold queryUserProjects. rewrite sortDesc_perm.
    apply Forall_forall. intros q Hq.
    apply list_elem_of_In, filter_In in Hq as [Hq _].
    apply list_elem_of_In, list_elem_of_fmap in Hq as ([key p] & -> & Hq).
    apply elem_of_map_to_list in Hq. cbn [fst snd].
    destruct (Hw key p Hq) as [Hid _].
    rewrite (withId_same key p Hid), Hid. exact Hq.
  - intros key p Hk Hu. unfold queryUserProjects. rewrite sortDesc_perm.
    apply list_elem_of_In, filter_In. split.
    + apply list_elem_of_In, list_elem_of_fmap. exists (key, p). split.
      * cbn [fst snd]. destruct (Hw key p Hk) as [Hid _].
        rewrite (withId_same key p Hid). reflexivity.
      * apply elem_of_map_to_list. exact Hk.
    + apply bool_decide_eq_true. exact Hu.
Qed.

(** The collection stays as this program writes it under each of its
    writes. *)
Lemma createProject_wellStamped (w : World) (userId title prompt : string)
    (slideData : json) (type : ProjectType)
    (addDoc_ : Net string) (updateDoc_ : Net unit) :
  wellStamped w ->
  wellStamped (createProject w userId title prompt slideData type addDoc_ updateDoc_).1.
Proof.
  intros Hw. unfold createProject, createProject_try.
  assert (forall w' error, fs_projects w' = fs_projects w ->
            wellStamped
              (createProject_catch w' userId title prompt slideData type error).1)
    as Hcatch.
  { intros w' error Hfs. unfold wellStamped, createProject_catch.
    destruct (hasWindow w'); [|cbn [fst]; rewrite Hfs; exact Hw].
    destruct (derivedFields slideData) as [[d n]|e]; [|cbn [fst]; rewrite Hfs; exact Hw].
    destruct (readLocalProjects w') as [l|e]; [|cbn [fst]; rewrite Hfs; exact Hw].
    unfold writeLocalProjects.
    destruct (localWritable w'); cbn [fst fs_projects set_localProjects];
      rewrite Hfs; exact Hw. }
  destruct (derivedFields slideData) as [[d n]|e]; [|apply Hcatch; reflexivity].
  destruct addDoc_ as [docId|e|]; try (apply Hcatch; reflexivity).
  assert (wellStamped
            (set_fs_projects
               (<[docId := Project.mk docId userId title (Some d) prompt slideData
                              (Some n) type (TTimestamp (now w)) (TTimestamp (now w))
                              false false]> (fs_projects w)) w)) as H1.
  { unfold wellStamped. cbn [fs_projects set_fs_projects].
    apply map_Forall_insert_2; [|exact Hw].
    split; [reflexivity | eexists; reflexivity]. }
  destruct updateDoc_; exact H1.
Qed.

Lemma updateProject_wellStamped (w : World) (projectId : string)
    (updates : ProjectPatch) (failure : option JsError) :
  wellStamped w -> wellStamped (updateProject w projectId updates failure).1.
Proof.
  intros Hw. unfold updateProject, updateDoc.
  destruct failure as [e|]; [exact Hw|].
  destruct (fs_projects w !! projectId) as [p|] eqn:Hp; [|exact Hw].
  unfold wellStamped. cbn [fst fs_projects set_fs_projects].
  apply map_Forall_insert_2; [|exact Hw].
  destruct (Hw projectId p Hp) as [Hid _].
  split; [exact Hid | eexists; reflexivity].
Qed.

Lemma deleteProject_wellStamped (w : World) (projectId userId : string)
    (deleteFailure updateFailure : option JsError) :
  wellStamped w ->
  wellStamped (deleteProject w projectId userId deleteFailure updateFailure).1.
Proof.
  intros Hw. unfold deleteProject.
  destruct deleteFailure as [e|]; [exact Hw|].
  assert (wellStamped (set_fs_projects (delete projectId (fs_projects w)) w)) as H1.
  { unfold wellStamped. cbn [fs_projects set_fs_projects].
    apply map_Forall_delete, Hw. }
  destruct updateFailure as [e|]; [exact H1|].
  destruct (fs_users (set_fs_projects (delete projectId (fs_projects w)) w) !! userId);
    exact H1.
Qed.

Lemma getUserProjects_owner_sorted_witness :
  wellStamped worldPrimary
  /\ exists l,
       getUserProjects worldPrimary "u1" None = Return l
       /\ Sorted (descending (fun p => instant (Project.updatedAt p))) l
       /\ exists p, fs_projects worldPrimary !! "doc1" = Some p /\ p ∈ l.
Proof.
  assert (wellStamped worldPrimary) as Hw.
  { apply createProject_wellStamped. intros key p Hk. inversion Hk. }
  split; [exact Hw|].
  destruct (getUserProjects_owner_sorted worldPrimary "u1" Hw)
    as (l & Hl & _ & Hs & _ & Hall).
  exists l. split; [exact Hl|]. split; [exact Hs|].
  assert (exists p, fs_projects worldPrimary !! "doc1" = Some p) as [p Hp]
    by (eexists; vm_compute; reflexivity).
  exists p. split; [exact Hp|]. apply (Hall "doc1" p Hp).
  vm_compute in Hp. injection Hp as <-. reflexivity.
Defined.

(** X15: every project on the dashboard belongs to the signed-in user,
    whichever tiers contributed and whether or not the database answered. *)
Theorem loadProjects_only_owner (w : World) (uid : string) (failure : option JsError) :
  Forall (fun p => Project.userId p = uid) (loadProjects w uid failure).
Proof.
  unfold loadProjects. apply Forall_sortDesc.
  assert (Forall (fun p => Project.userId p = uid)
            match getUserProjects w uid failure with Return l => l | Throw _ => [] end) as Hfs.
  { unfold getUserProjects. destruct failure as [e|]; [|apply queryUserProjects_owner].
    destruct (_ || _); constructor. }
  destruct (hasWindow w); [|exact Hfs].
  apply Forall_app. split; [|apply tempProjects_owner].
  destruct (readLocalProjects w) as [l|e]; [|exact Hfs].
  apply Forall_app. split; [exact Hfs|].
  eapply Forall_impl; [apply Forall_filter_bool|].
  intros p Hp. cbn in Hp. apply bool_decide_eq_true in Hp. exact Hp.
Qed.

Lemma getProject_not_local (w : World) (projectId : string) (u : unit) :
  Js.startsWith "local_" projectId = false ->
  getProject w projectId (Online u) = Return (getDocData w projectId).
Proof. intros H. unfold getProject. rewrite H. reflexivity. Qed.

(** X16: when the database accepts the write, [createProject] returns the
    document id, leaves both browser stores alone, and [getProject] on that
    id returns the deck, the owner and the creation instant, even if the
    counter update that follows fails or hangs. *)
Theorem createProject_online_roundtrip (w : World) (userId title prompt : string)
    (deck : gmap string json) (type : ProjectType) (docId : string)
    (updateDoc_ : Net unit) :
  Js.startsWith "local_" docId = false ->
  let r := createProject w userId title prompt (JObj deck) type (Online docId) updateDoc_ in
  r.2 = Return docId
  /\ localProjects r.1 = localProjects w
  /\ sessionStorage r.1 = sessionStorage w
  /\ exists p,
       getProject r.1 docId (Online tt) = Return (Some p)
       /\ Project.id p = docId
       /\ Project.userId p = userId
       /\ Project.slideData p = JObj deck
       /\ Project.createdAt p = TTimestamp (now w).
Proof.
  intros Hl r. subst r. unfold createProject, createProject_try.
  destruct (derivedFields_object deck) as (d & n & ->).
  cbn [fst snd]. split; [reflexivity|].
  split; [destruct updateDoc_; reflexivity|].
  split; [destruct updateDoc_; reflexivity|].
  eexists. rewrite getProject_not_local by exact Hl.
  split.
  - unfold getDocData. destruct updateDoc_; cbn [fs_projects set_fs_projects set_fs_users];
      rewrite lookup_insert_eq; reflexivity.
  - repeat split.
Qed.

Lemma createProject_online_roundtrip_witness :
  Js.startsWith "local_" "doc1" = false
  /\ (createProject world0 "u1" "Primary" "p" (JObj deck0) presentation
        (Online "doc1") Hangs).2 = Return "doc1"
  /\ exists p,
       getProject (createProject world0 "u1" "Primary" "p" (JObj deck0) presentation
                     (Online "doc1") Hangs).1 "doc1" (Online tt) = Return (Some p)
       /\ Project.slideData p = JObj deck0.
Proof.
  split; [reflexivity|].
  destruct (createProject_online_roundtrip world0 "u1" "Primary" "p" deck0
              presentation "doc1" Hangs eq_refl) as (Hr & _ & _ & p & Hg & _ & _ & Hs & _).
  split; [exact Hr|]. exists p. split; [exact Hg | exact Hs].
Defined.

(** X17: a successful [deleteProject] removes the document and no other,
    decrements the owner's project counter and leaves the browser stores
    alone. *)
Theorem deleteProject_success (w : World) (projectId userId : string) (n : Z) :
  fs_users w !! userId = Some n ->
  exists w',
    deleteProject w projectId userId None None = (w', Return tt)
    /\ getDocData w' projectId = None
    /\ (forall other, other <> projectId -> fs_projects w' !! other = fs_projects w !! other)
    /\ fs_users w' !! userId = Some (n - 1)%Z
    /\ localProjects w' = localProjects w
    /\ sessionStorage w' = sessionStorage w.
Proof.
  intros Hu. unfold deleteProject. cbn [fs_users set_fs_projects]. rewrite Hu.
  eexists. split; [reflexivity|].
  cbn [fs_projects fs_users set_fs_users set_fs_projects localProjects sessionStorage].
  split; [unfold getDocData; cbn [fs_projects set_fs_users set_fs_projects];
          rewrite lookup_delete_eq; reflexivity|].
  split; [intros other Ho; apply lookup_delete_ne; congruence|].
  split; [apply lookup_insert_eq|]. split; reflexivity.
Qed.

Lemma deleteProject_success_witness :
  fs_users worldPrimary !! "u1" = Some 1%Z
  /\ exists w',
       deleteProject worldPrimary "doc1" "u1" None None = (w', Return tt)
       /\ getDocData w' "doc1" = None
       /\ fs_users w' !! "u1" = Some 0%Z.
Proof.
  split; [vm_compute; reflexivity|].
  destruct (deleteProject_success worldPrimary "doc1" "u1" 1%Z)
    as (w' & Hd & Hg & _ & Hc & _); [vm_compute; reflexivity|].
  exists w'. split; [exact Hd|]. split; [exact Hg | exact Hc].
Defined.

(** X18: when the counter update fails after the document was deleted,
    [deleteProject] throws, the document stays deleted and the counter keeps
    its value. *)
Theorem deleteProject_not_atomic (w : World) (projectId userId : string)
    (updateFailure : option JsError) :
  is_Some updateFailure \/ fs_users w !! userId = None ->
  exists w',
    deleteProject w projectId userId None updateFailure
      = (w', Throw (Error "Failed to delete project"))
    /\ fs_projects w' !! projectId = None
    /\ fs_users w' = fs_users w.
Proof.
  intros H. unfold deleteProject. cbn [fs_users set_fs_projects].
  destruct updateFailure as [e|].
  - eexists. split; [reflexivity|]. split; [apply lookup_delete_eq | reflexivity].
  - destruct H as [[e He]|Hn]; [discriminate|]. rewrite Hn.
    eexists. split; [reflexivity|]. split; [apply lookup_delete_eq | reflexivity].
Qed.

Lemma deleteProject_not_atomic_witness :
  (is_Some (Some unavailable) \/ fs_users worldPrimary !! "u1" = None)
  /\ exists w',
       deleteProject worldPrimary "doc1" "u1" None (Some unavailable)
         = (w', Throw (Error "Failed to delete project"))
       /\ fs_projects w' !! "doc1" = None
       /\ is_Some (fs_projects worldPrimary !! "doc1").
Proof.
  split; [left; eexists; reflexivity|].
  destruct (deleteProject_not_atomic worldPrimary "doc1" "u1" (Some unavailable))
    as (w' & Hd & Hg & _); [left; eexists; reflexivity|].
  exists w'. split; [exact Hd|]. split; [exact Hg|]. vm_compute. eexists. reflexivity.
Defined.

Lemma local_is_not_temp (s : string) :
  Js.startsWith "local_" s = true -> Js.startsWith "temp_" s = false.
Proof.
  destruct s as [|c r]; [discriminate|]. cbn.
  destruct (decide ("l"%char = c)) as [<-|]; [|discriminate]. intros _. reflexivity.
Qed.

Lemma find_filtered_out (fid : string) (l : list Project) :
  List.find (fun p => bool_decide (Project.id p = fid))
    (jsonProject <$> List.filter (fun p => negb (bool_decide (Project.id p = fid))) l)
  = None.
Proof.
  induction l as [|p l IH]; [reflexivity|]. cbn [List.filter].
  destruct (bool_decide_reflect (Project.id p = fid)) as [E|E]; cbn [negb]; [exact IH|].
  cbn. rewrite bool_decide_eq_false_2 by exact E. exact IH.
Qed.

(** X19: deleting a local_ project on the dashboard removes exactly the
    records with that id from the durable-local tier, touches neither the
    database nor the tab-scoped store, and shows no alert. *)
Theorem handleDeleteProject_local (w : World) (uid projectId : string)
    (deleteFailure updateFailure : option JsError) :
  Js.startsWith "local_" projectId = true ->
  localTierUsable w = true ->
  let r := handleDeleteProject w uid projectId true deleteFailure updateFailure in
  r.2 = None
  /\ fs_projects r.1 = fs_projects w
  /\ fs_users r.1 = fs_users w
  /\ sessionStorage r.1 = sessionStorage w
  /\ storedLocalProjects r.1
     = jsonProject <$> List.filter (fun p => negb (bool_decide (Project.id p = projectId)))
                         (storedLocalProjects w)
  /\ getProject r.1 projectId (Online tt) = Return (getDocData w projectId).
Proof.
  intros Hl Hu r. subst r. unfold handleDeleteProject. cbn [negb].
  rewrite (local_is_not_temp _ Hl), Hl.
  unfold localTierUsable in Hu.
  apply andb_prop in Hu as [Hu Hr]. apply andb_prop in Hu as [Hw Hwr]. rewrite Hw.
  assert (readLocalProjects w = Return (storedLocalProjects w)) as ->.
  { unfold readLocalProjects, storedLocalProjects.
    destruct (localProjects w); [reflexivity | discriminate Hr | reflexivity]. }
  unfold writeLocalProjects. rewrite Hwr. cbn [fst snd].
  repeat (split; [reflexivity|]).
  unfold getProject. rewrite Hl.
  cbn [hasWindow set_localProjects andb readLocalProjects localProjects].
  rewrite Hw, find_filtered_out. reflexivity.
Qed.

Lemma handleDeleteProject_local_witness :
  Js.startsWith "local_" "local_2000" = true
  /\ localTierUsable worldLocal = true
  /\ (exists p, getProject worldLocal "local_2000" (Online tt) = Return (Some p))
  /\ getProject (handleDeleteProject worldLocal "u1" "local_2000" true None None).1
       "local_2000" (Online tt) = Return None.
Proof.
  split; [reflexivity|]. split; [vm_compute; reflexivity|].
  split; [eexists; vm_compute; reflexivity|].
  destruct (handleDeleteProject_local worldLocal "u1" "local_2000" None None
              eq_refl) as (_ & _ & _ & _ & _ & Hg); [vm_compute; reflexivity|].
  rewrite Hg. vm_compute. reflexivity.
Defined.

(** ** Persistence: queries by type, statistics, search, update *)

Section SortFilter.
Context {A : Type} (key : A -> Z) (f : A -> bool).

Lemma insertDesc_below (x : A) (l : list A) :
  Forall (fun z => (key z < key x)%Z) l -> insertDesc key x l = x :: l.
Proof.
  intros H. destruct l as [|y r]; [reflexivity|].
  inversion H as [|? ? Hy _]; subst. cbn.
  apply Z.ltb_lt in Hy. rewrite Hy. reflexivity.
Qed.

Lemma insertDesc_strongly_sorted (x : A) (l : list A) :
  StronglySorted (descending key) l -> StronglySorted (descending key) (insertDesc key x l).
Proof.
  induction l as [|y r IH]; intros Hs; cbn.
  - repeat constructor.
  - destruct (Z.ltb_spec (key y) (key x)) as [Hlt|Hge].
    + constructor; [exact Hs|]. inversion Hs as [|? ? Hr Hall]; subst.
      constructor; [unfold descending; lia|].
      eapply Forall_impl; [exact Hall|]. unfold descending. intros z Hz. lia.
    + inversion Hs as [|? ? Hr Hall]; subst. constructor; [apply IH, Hr|].
      rewrite insertDesc_perm. constructor; [unfold descending; lia | exact Hall].
Qed.

Lemma filter_insertDesc (x : A) (l : list A) :
  StronglySorted (descending key) l ->
  List.filter f (insertDesc key x l)
  = if f x then insertDesc key x (List.filter f l) else List.filter f l.
Proof.
  induction l as [|y r IH]; intros Hs.
  - cbn. destruct (f x); reflexivity.
  - inversion Hs as [|? ? Hr Hall]; subst. cbn [insertDesc].
    destruct (Z.ltb_spec (key y) (key x)) as [Hlt|Hge].
    + cbn [List.filter]. destruct (f x) eqn:Ex; [|reflexivity].
      symmetry. change (insertDesc key x (List.filter f (y :: r)) = x :: List.filter f (y :: r)).
      apply insertDesc_below.
      assert (Forall (fun z => (key z < key x)%Z) (y :: r)) as Hb.
      { constructor; [exact Hlt|]. eapply Forall_impl; [exact Hall|].
        unfold descending. intros z Hz. lia. }
      apply Forall_forall. intros z Hz.
      apply list_elem_of_In, filter_In in Hz as [Hz _].
      rewrite Forall_forall in Hb. apply Hb, list_elem_of_In, Hz.
    + cbn [List.filter]. rewrite (IH Hr).
      destruct (f y) eqn:Ey, (f x) eqn:Ex; try reflexivity.
      cbn [insertDesc]. apply Z.ltb_ge in Hge. rewrite Hge. reflexivity.
Qed.

Lemma filter_fold_insertDesc (l acc : list A) :
  StronglySorted (descending key) acc ->
  List.filter f (fold_left (fun acc x => insertDesc key x acc) l acc)
  = fold_left (fun acc x => insertDesc key x acc) (List.filter f l) (List.filter f acc).
Proof.
  revert acc. induction l as [|x l IH]; intros acc Hs; [reflexivity|].
  cbn [fold_left List.filter].
  rewrite (IH _ (insertDesc_strongly_sorted x acc Hs)), (filter_insertDesc x acc Hs).
  destruct (f x); reflexivity.
Qed.

Lemma filter_sortDesc (l : list A) :
  List.filter f (sortDesc key l) = sortDesc key (List.filter f l).
Proof. unfold sortDesc. apply filter_fold_insertDesc. constructor. Qed.

End SortFilter.

Lemma filter_filter_and {A} (f g : A -> bool) (l : list A) :
  List.filter g (List.filter f l) = List.filter (fun x => f x && g x) l.
Proof.
  induction l as [|x l IH]; [reflexivity|]. cbn.
  destruct (f x); cbn; [destruct (g x); rewrite IH; reflexivity | exact IH].
Qed.

(** X20: [getProjectsByType] returns the list of [getUserProjects]
    restricted to the type, in the same order; unlike [getUserProjects] it
    throws when the database is unavailable. *)
Theorem getProjectsByType_refines_getUserProjects (w : World) (uid : string)
    (type : ProjectType) :
  (exists l,
     getUserProjects w uid None = Return l
     /\ getProjectsByType w uid type None
        = Return (List.filter (fun p => bool_decide (Project.type p = type)) l))
  /\ (forall e, code e = Some "unavailable" ->
        getUserProjects w uid (Some e) = Return []
        /\ getProjectsByType w uid type (Some e)
           = Throw (Error "Failed to get projects by type")).
Proof.
  split.
  2:{ intros e He. split; [|reflexivity].
      unfold getUserProjects. rewrite He. reflexivity. }
  eexists. split; [reflexivity|].
  unfold getProjectsByType, queryUserProjects.
  rewrite filter_sortDesc, filter_filter_and. reflexivity.
Qed.

Lemma type_counts (l : list Project) :
  length (List.filter (fun p => bool_decide (Project.type p = presentation)) l)
  + length (List.filter (fun p => bool_decide (Project.type p = planner)) l)
  + length (List.filter
              (fun p => negb (bool_decide (Project.type p = presentation))
                        && negb (bool_decide (Project.type p = planner))) l)
  = length l.
Proof.
  induction l as [|p l IH]; [reflexivity|]. cbn [List.filter].
  destruct (bool_decide_reflect (Project.type p = presentation)) as [E1|E1],
           (bool_decide_reflect (Project.type p = planner)) as [E2|E2];
    cbn [negb andb length]; try lia.
  rewrite E1 in E2. discriminate E2.
Qed.

Lemma addCount_numbers (counts : list Z) (l : list Project) (acc : Z) :
  Project.slideCount <$> l = (fun n => Some (JNum n)) <$> counts ->
  fold_left (fun sum project => addCount sum (Project.slideCount project)) l (Some acc)
  = Some (fold_left Z.add counts acc).
Proof.
  revert counts acc. induction l as [|p l IH]; intros [|n counts] acc H;
    try discriminate H; [reflexivity|].
  cbn [fmap list_fmap] in H. injection H as Hp Hl.
  cbn [fold_left]. rewrite Hp. cbn [addCount]. apply IH, Hl.
Qed.

Lemma addCount_missing (l : list Project) :
  fold_left (fun sum project => addCount sum (Project.slideCount project)) l None = None.
Proof. induction l as [|p l IH]; [reflexivity|]. exact IH. Qed.

(** X21: in the statistics the total is the number of the user's projects;
    the presentations, the planners and the projects of any other type add
    up to it; the recent projects are the first five at most and belong to
    the user; the slide total is the sum of the slide counts when each is a
    number and not a number as soon as one is missing; an unavailable
    database gives all zeros. *)
Theorem getUserStats_counts (w : World) (uid : string) (failure : option JsError)
    (stats : UserStats) :
  getUserStats w uid failure = Return stats ->
  exists projects,
    getUserProjects w uid failure = Return projects
    /\ totalProjects stats = length projects
    /\ presentationCount stats + plannerCount stats
       + length (List.filter
                   (fun p => negb (bool_decide (Project.type p = presentation))
                             && negb (bool_decide (Project.type p = planner)))
                   projects)
       = totalProjects stats
    /\ length (recentProjects stats) = Nat.min 5 (totalProjects stats)
    /\ Forall (fun p => Project.userId p = uid) (recentProjects stats)
    /\ (forall counts,
          Project.slideCount <$> projects = (fun n => Some (JNum n)) <$> counts ->
          totalSlides stats = Some (fold_left Z.add counts 0%Z))
    /\ ((exists p, p ∈ projects /\ Project.slideCount p = None) ->
        totalSlides stats = None)
    /\ (is_Some failure ->
        totalProjects stats = 0 /\ totalSlides stats = Some 0%Z
        /\ recentProjects stats = []).
Proof.
  unfold getUserStats. intros H.
  destruct (getUserProjects w uid failure) as [l|e] eqn:E; [|discriminate].
  injection H as <-.
  cbn [presentationCount plannerCount totalProjects recentProjects totalSlides].
  exists l. split; [reflexivity|]. split; [reflexivity|].
  split; [apply type_counts|]. split; [apply length_take|].
  split; [|split; [|split]].
  - apply Forall_take. unfold getUserProjects in E. destruct failure as [e|].
    + destruct (_ || _); inversion E. constructor.
    + inversion E. apply queryUserProjects_owner.
  - intros counts Hc. apply addCount_numbers, Hc.
  - intros (p & Hin & Hp). clear E.
    generalize (Some 0%Z) as acc. induction l as [|q l IH]; intros acc; [inversion Hin|].
    cbn [fold_left]. apply elem_of_cons in Hin as [<- | Hin].
    + rewrite Hp. destruct acc; cbn [addCount]; apply addCount_missing.
    + apply IH, Hin.
  - intros [e ->]. unfold getUserProjects in E.
    destruct (_ || _); inversion E. auto.
Qed.

Lemma getUserStats_counts_witness :
  exists stats,
    getUserStats worldPrimary "u1" None = Return stats
    /\ totalProjects stats = 1
    /\ totalSlides stats = Some 2%Z
    /\ presentationCount stats = 1
    /\ plannerCount stats = 0.
Proof.
  destruct (getUserStats worldPrimary "u1" None) as [stats|e] eqn:E.
  - exists stats. split; [reflexivity|].
    destruct (getUserStats_counts worldPrimary "u1" None stats E)
      as (projects & Hp & Ht & _ & _ & _ & Hsum & _).
    vm_compute in Hp. injection Hp as <-.
    split; [exact Ht|]. split; [exact (Hsum [2%Z] eq_refl)|].
    vm_compute in E. injection E as <-. split; reflexivity.
  - exfalso. vm_compute in E. discriminate E.
Defined.

Lemma includes_empty (s : string) : Js.includes "" s = true.
Proof. destruct s; reflexivity. Qed.

Lemma matchesSearch_empty (p : Project) : matchesSearch "" p = Return true.
Proof.
  unfold matchesSearch. change (Js.toLowerCase "") with "". cbv zeta.
  rewrite includes_empty. reflexivity.
Qed.

Lemma filterThrowing_all (projects : list Project) :
  filterThrowing (matchesSearch "") projects = Return projects.
Proof.
  induction projects as [|p l IH]; [reflexivity|].
  cbn [filterThrowing]. rewrite matchesSearch_empty, IH. reflexivity.
Qed.

Lemma filterThrowing_sublist (pred : Project -> Outcome bool) (l r : list Project) :
  filterThrowing pred l = Return r -> sublist r l.
Proof.
  revert r. induction l as [|p l IH]; intros r H.
  - inversion H. constructor.
  - cbn [filterThrowing] in H. destruct (pred p) as [keep|e]; [|discriminate].
    cbn in H. destruct (filterThrowing pred l) as [kept|e]; [|discriminate].
    cbn in H. injection H as <-.
    destruct keep; [apply sublist_skip | apply sublist_cons]; apply IH; reflexivity.
Qed.

(** X22: [searchUserProjects] with the empty term returns every project
    of the user; any result is a sublist of the user's projects in their
    order; any failure is thrown with one message. *)
Theorem searchUserProjects_results (w : World) (uid : string) :
  (exists l, getUserProjects w uid None = Return l
             /\ searchUserProjects w uid "" None = Return l)
  /\ (forall term failure r,
        searchUserProjects w uid term failure = Return r ->
        exists l, getUserProjects w uid failure = Return l /\ sublist r l)
  /\ (forall term failure e,
        searchUserProjects w uid term failure = Throw e ->
        e = Error "Failed to search projects").
Proof.
  split; [|split].
  - eexists. split; [reflexivity|].
    unfold searchUserProjects. cbn. rewrite filterThrowing_all. reflexivity.
  - intros term failure r H. unfold searchUserProjects in H.
    destruct (getUserProjects w uid failure) as [l|e]; [|discriminate].
    exists l. split; [reflexivity|]. cbn in H.
    destruct (filterThrowing (matchesSearch term) l) as [r'|e] eqn:E; [|discriminate].
    cbn in H. injection H as <-. eapply filterThrowing_sublist, E.
  - intros term failure e H. unfold searchUserProjects, try_catch in H.
    destruct (_ ≫= _); congruence.
Qed.

(** X23: after a successful [updateProject] of an existing document,
    [getProject] returns the patched deck with the update time of the
    server, whatever the patch says of [updatedAt]; the creation time and
    the owner are those of the patch when it names them and are kept
    otherwise, and no other document changes. *)
Theorem updateProject_roundtrip (w : World) (projectId : string)
    (updates : ProjectPatch) (p : Project) :
  fs_projects w !! projectId = Some p ->
  Js.startsWith "local_" projectId = false ->
  let r := updateProject w projectId updates None in
  r.2 = Return tt
  /\ (forall other, other <> projectId -> fs_projects r.1 !! other = fs_projects w !! other)
  /\ exists p',
       getProject r.1 projectId (Online tt) = Return (Some p')
       /\ Project.slideData p' = default (Project.slideData p) (patch_slideData updates)
       /\ Project.updatedAt p' = TTimestamp (now w)
       /\ Project.createdAt p' = default (Project.createdAt p) (patch_createdAt updates)
       /\ Project.userId p' = default (Project.userId p) (patch_userId updates).
Proof.
  intros Hp Hl r. subst r. unfold updateProject, updateDoc. rewrite Hp. cbn [fst snd].
  split; [reflexivity|].
  split; [intros other Ho; cbn; apply lookup_insert_ne; congruence|].
  eexists. rewrite getProject_not_local by exact Hl.
  unfold getDocData. cbn [fs_projects set_fs_projects]. rewrite lookup_insert_eq.
  split; [reflexivity|]. repeat split.
Qed.

Lemma updateProject_roundtrip_witness :
  (exists p, fs_projects worldPrimary !! "doc1" = Some p)
  /\ Js.startsWith "local_" "doc1" = false
  /\ exists p',
       getProject (updateProject worldPrimary "doc1" editPatch None).1 "doc1" (Online tt)
         = Return (Some p')
       /\ Project.slideData p' = JObj deck1
       /\ Project.userId p' = "u1".
Proof.
  assert (exists p, fs_projects worldPrimary !! "doc1" = Some p) as [p Hp]
    by (eexists; vm_compute; reflexivity).
  split; [exists p; exact Hp|]. split; [reflexivity|].
  destruct (updateProject_roundtrip worldPrimary "doc1" editPatch p Hp eq_refl)
    as (_ & _ & p' & Hg & Hs & _ & _ & Hu).
  exists p'. split; [exact Hg|]. split; [exact Hs|].
  rewrite Hu. vm_compute in Hp. injection Hp as <-. reflexivity.
Defined.

(** X24: the presentation page shows a project only if it belongs to the
    signed-in user, or if it is the pending entry of the tab-scoped store
    for a temp_ id, which is shown without an ownership check. *)
Theorem loadPresentation_owner (w : World) (id uid : string) (getDoc_ : Net unit)
    (p : Project) :
  loadPresentation w id uid getDoc_ = Shown p ->
  Project.userId p = uid
  \/ (Js.startsWith "temp_" id = true
      /\ ("temp_project_" ++ id, Item p) ∈ sessionStorage w).
Proof.
  unfold loadPresentation.
  assert (match getProject w id getDoc_ with
          | Return (Some projectData) =>
              if bool_decide (Project.userId projectData = uid)
              then Shown projectData
              else Failed "You do not have permission to view this project."
          | Return None => Failed "Project not found."
          | Throw e => Failed (if bool_decide (message e = "")
                               then "Failed to load project." else message e)
          end = Shown p -> Project.userId p = uid) as Hvia.
  { destruct (getProject w id getDoc_) as [[q|]|e]; try discriminate.
    destruct (bool_decide_reflect (Project.userId q = uid)); [|discriminate].
    intros H. injection H as <-. assumption. }
  destruct (Js.startsWith "temp_" id && hasWindow w) eqn:Ht; [|auto].
  apply andb_prop in Ht as [Ht _].
  destruct (List.find _ (sessionStorage w)) as [[k item]|] eqn:Ef; cbn [fmap option_fmap option_map snd];
    [|auto].
  destruct item as [| |tp]; [auto | discriminate |].
  intros H. injection H as <-. right. split; [exact Ht|].
  apply find_some in Ef as [Hin Hk]. cbn in Hk. apply bool_decide_eq_true in Hk.
  subst k. apply list_elem_of_In. exact Hin.
Qed.

Lemma loadPresentation_owner_witness :
  exists p,
    loadPresentation worldPrimary "doc1" "u1" (Online tt) = Shown p
    /\ (Project.userId p = "u1"
        \/ (Js.startsWith "temp_" "doc1" = true
            /\ ("temp_project_" ++ "doc1", Item p) ∈ sessionStorage worldPrimary)).
Proof.
  destruct (loadPresentation worldPrimary "doc1" "u1" (Online tt)) as [p|msg] eqn:E.
  - exists p. split; [reflexivity|].
    exact (loadPresentation_owner worldPrimary "doc1" "u1" (Online tt) p E).
  - exfalso. vm_compute in E. discriminate E.
Defined.

Lemma search_includes_dashboard_filter (term : string) (l r : list Project) :
  filterThrowing (matchesSearch term) l = Return r ->
  sublist
    (List.filter
       (fun p => Js.includes (Js.toLowerCase term) (Js.toLowerCase (Project.title p))
                 || Js.includes (Js.toLowerCase term) (Js.toLowerCase (Project.prompt p)))
       l) r.
Proof.
  revert r. induction l as [|p l IH]; intros r H.
  - injection H as <-. constructor.
  - cbn [filterThrowing] in H. cbn [List.filter].
    destruct (matchesSearch term p) as [keep|e] eqn:Ep; [|discriminate].
    cbn in H. destruct (filterThrowing (matchesSearch term) l) as [kept|e]; [|discriminate].
    cbn in H. injection H as <-. specialize (IH kept eq_refl).
    unfold matchesSearch in Ep. cbv zeta in Ep.
    destruct (Js.includes (Js.toLowerCase term) (Js.toLowerCase (Project.title p))).
    + injection Ep as <-. cbn [orb]. apply sublist_skip, IH.
    + destruct (Js.includes (Js.toLowerCase term) (Js.toLowerCase (Project.prompt p))).
      * injection Ep as <-. cbn [orb]. apply sublist_skip, IH.
      * cbn [orb]. destruct keep; [apply sublist_cons, IH | exact IH].
Qed.

Lemma search_without_description (term : string) (l : list Project) :
  Forall (fun p => Project.description p = None) l ->
  filterThrowing (matchesSearch term) l
  = Return (List.filter
       (fun p => Js.includes (Js.toLowerCase term) (Js.toLowerCase (Project.title p))
                 || Js.includes (Js.toLowerCase term) (Js.toLowerCase (Project.prompt p)))
       l).
Proof.
  induction 1 as [|p l Hp Hl IH]; [reflexivity|].
  cbn [filterThrowing List.filter]. rewrite IH.
  unfold matchesSearch. cbv zeta. rewrite Hp.
  destruct (Js.includes (Js.toLowerCase term) (Js.toLowerCase (Project.title p)));
    [reflexivity|].
  destruct (Js.includes (Js.toLowerCase term) (Js.toLowerCase (Project.prompt p)));
    reflexivity.
Qed.

(** X25: with no type filter, what the dashboard's [filterProjects] keeps
    of the user's projects is part of what [searchUserProjects] returns for
    the same term, and the two agree when no project has a description. *)
Theorem dashboard_filter_within_search (w : World) (uid term : string)
    (failure : option JsError) (l : list Project) :
  getUserProjects w uid failure = Return l ->
  (forall r, searchUserProjects w uid term failure = Return r ->
             sublist (filterProjects l term None) r)
  /\ (Forall (fun p => Project.description p = None) l ->
      searchUserProjects w uid term failure = Return (filterProjects l term None)).
Proof.
  intros Hl. unfold searchUserProjects, filterProjects. rewrite Hl. cbn [mbind Outcome_bind].
  destruct (bool_decide_reflect (term = "")) as [->|Hne].
  - rewrite filterThrowing_all. split.
    + intros r [= <-]. reflexivity.
    + intros _. reflexivity.
  - split.
    + intros r Hr.
      destruct (filterThrowing (matchesSearch term) l) as [r'|e] eqn:E; [|discriminate].
      injection Hr as <-. apply search_includes_dashboard_filter, E.
    + intros Hd. rewrite (search_without_description term l Hd). reflexivity.
Qed.

Lemma dashboard_filter_within_search_witness :
  getUserProjects worldPrimary "u1" None = Return (queryUserProjects worldPrimary "u1")
  /\ forall r, searchUserProjects worldPrimary "u1" "quarter" None = Return r ->
               sublist (filterProjects (queryUserProjects worldPrimary "u1") "quarter" None) r.
Proof.
  split; [reflexivity|].
  exact (proj1 (dashboard_filter_within_search worldPrimary "u1" "quarter" None _ eq_refl)).
Defined.

(** ** Viewer: stats cards, navigation, backgrounds *)

Lemma split_no_sep (sep : ascii) (s : string) :
  has_char sep s = false -> Js.split sep s = [s].
Proof.
  induction s as [|c r IH]; intros H; [reflexivity|].
  cbn in H. apply orb_false_iff in H as [Hc Hr]. apply bool_decide_eq_false in Hc.
  unfold Js.split; fold (Js.split sep).
  destruct (decide (c = sep)); [congruence|]. rewrite (IH Hr). reflexivity.
Qed.

Lemma split_with_sep (sep : ascii) (s : string) :
  has_char sep s = true -> exists w w' ws, Js.split sep s = w :: w' :: ws.
Proof.
  induction s as [|c r IH]; intros H; [discriminate|].
  unfold Js.split; fold (Js.split sep).
  destruct (decide (c = sep)) as [->|Hne].
  - pose proof (split_nonempty sep r) as Hn.
    destruct (Js.split sep r) as [|w ws]; [congruence|]. eauto.
  - cbn in H. rewrite bool_decide_eq_false_2 in H by exact Hne. cbn in H.
    destruct (IH H) as (w & w' & ws & ->). eauto.
Qed.

(** X26: a stats item is cut at its first space: the value has no space,
    value and label joined by a space give the item back, and an item
    without a space has an empty label. *)
Theorem statCard_recombines (item : string) :
  has_char " " (statCard item).1 = false
  /\ item = (if has_char " " item
             then (statCard item).1 ++ " " ++ (statCard item).2
             else (statCard item).1)
  /\ (has_char " " item = false -> (statCard item).2 = "").
Proof.
  unfold statCard. cbn [fst snd].
  pose proof (split_pieces_free " " item) as Hf.
  pose proof (join_split " " item) as Hj.
  destruct (has_char " " item) eqn:E.
  - destruct (split_with_sep " " item E) as (w & w' & ws & Hs).
    rewrite Hs in Hf, Hj |- *. cbn [head tail default from_option].
    apply Forall_cons in Hf as [Hw _]. split; [exact Hw|]. split; [|discriminate].
    rewrite <- Hj at 1. reflexivity.
  - rewrite (split_no_sep " " item E). cbn. auto.
Qed.

Lemma nextSlide_bound (count : nat) (v : Viewer) :
  currentSlide v = 0%nat \/ (currentSlide v < count)%nat ->
  currentSlide (nextSlide count v) = 0%nat \/ (currentSlide (nextSlide count v) < count)%nat.
Proof.
  intros H. unfold nextSlide.
  destruct (Z.ltb_spec (Z.of_nat (currentSlide v)) (Z.of_nat count - 1)); cbn; [lia|exact H].
Qed.

Lemma prevSlide_bound (count : nat) (v : Viewer) :
  currentSlide v = 0%nat \/ (currentSlide v < count)%nat ->
  currentSlide (prevSlide v) = 0%nat \/ (currentSlide (prevSlide v) < count)%nat.
Proof.
  intros H. unfold prevSlide.
  destruct (Nat.ltb_spec 0 (currentSlide v)); cbn; [lia|exact H].
Qed.

Lemma viewerStep_bound (count : nat) (v : Viewer) (ev : ViewerEvent) :
  currentSlide v = 0%nat \/ (currentSlide v < count)%nat ->
  currentSlide (viewerStep count v ev) = 0%nat
  \/ (currentSlide (viewerStep count v ev) < count)%nat.
Proof.
  intros H. destruct ev as [| |index| | |key]; cbn [viewerStep].
  - apply nextSlide_bound, H.
  - apply prevSlide_bound, H.
  - destruct (Nat.ltb_spec index count); cbn; [lia|exact H].
  - exact H.
  - exact H.
  - destruct (isPresenting v); [|exact H]. unfold handleKeyPress.
    destruct (_ || _); [apply nextSlide_bound, H|].
    destruct (bool_decide (key = "ArrowLeft")); [apply prevSlide_bound, H|].
    destruct (bool_decide (key = "Escape")); exact H.
Qed.

Lemma fold_viewerStep_bound (count : nat) (events : list ViewerEvent) (v : Viewer) :
  currentSlide v = 0%nat \/ (currentSlide v < count)%nat ->
  currentSlide (fold_left (viewerStep count) events v) = 0%nat
  \/ (currentSlide (fold_left (viewerStep count) events v) < count)%nat.
Proof.
  revert v. induction events as [|ev events IH]; intros v H; [exact H|].
  cbn [fold_left]. apply IH, viewerStep_bound, H.
Qed.

(** X27: whatever sequence of clicks and keys the viewer receives on a
    deck that is not empty, its current index stays on an existing slide. *)
Theorem viewer_shows_an_existing_slide (slides : list Slide) (events : list ViewerEvent) :
  slides <> [] ->
  is_Some (slides !! currentSlide (viewerRun (length slides) events)).
Proof.
  intros Hne. apply lookup_lt_is_Some.
  assert (0 < length slides)%nat by (destruct slides; [congruence|cbn; lia]).
  destruct (fold_viewerStep_bound (length slides) events initialViewer) as [H0|Hlt].
  - left. reflexivity.
  - unfold viewerRun. lia.
  - exact Hlt.
Qed.

Lemma viewer_shows_an_existing_slide_witness :
  let deck := [quoteSlide None None; quoteSlide None (Some "A. Author")] in
  deck <> []
  /\ is_Some (deck !! currentSlide
       (viewerRun (length deck)
          [ClickPresent; KeyDown "ArrowRight"; KeyDown " "; ClickThumbnail 99;
           KeyDown "ArrowLeft"; KeyDown "Escape"; ClickNext; ClickNext])).
Proof.
  cbv zeta. split; [discriminate|].
  apply (viewer_shows_an_existing_slide
           [quoteSlide None None; quoteSlide None (Some "A. Author")]).
  discriminate.
Defined.

(** X28: a slide of background style image never gets a background
    colour or gradient and gets a background image only for a non-empty URL,
    while its overlay depends on the overlay setting alone. *)
Theorem image_background_without_url (theme : Theme) (slide : Slide) :
  slide_backgroundStyle slide = Some "image" ->
  cssGet "backgroundColor" (getBackgroundStyle theme slide) = None
  /\ cssGet "background" (getBackgroundStyle theme slide) = None
  /\ cssGet "backgroundImage" (getBackgroundStyle theme slide)
     = match slide_imageUrl slide with
       | Some url => if bool_decide (url = "") then None else Some ("url(" ++ url ++ ")")
       | None => None
       end
  /\ (getOverlayStyle slide <> []
      <-> exists o, overlay (default emptyStyling (slide_styling slide)) = Some o /\ o <> "").
Proof.
  intros Hbs. unfold getBackgroundStyle, getOverlayStyle. rewrite Hbs. cbv zeta.
  change (bool_decide (Some "image" = Some "gradient")) with false.
  change (bool_decide (Some "image" = Some "image")) with true.
  cbn [andb].
  repeat split.
  - destruct (slide_imageUrl slide) as [url|]; [|reflexivity].
    destruct (bool_decide (url = "")); reflexivity.
  - destruct (slide_imageUrl slide) as [url|]; [|reflexivity].
    destruct (bool_decide (url = "")); reflexivity.
  - destruct (slide_imageUrl slide) as [url|]; [|reflexivity].
    destruct (bool_decide (url = "")); reflexivity.
  - intros H. destruct (overlay (default emptyStyling (slide_styling slide))) as [o|] eqn:E.
    + exists o. split; [reflexivity|]. intros ->. apply H. reflexivity.
    + exfalso. apply H. reflexivity.
  - intros (o & -> & Ho). cbn [str_or].
    rewrite (bool_decide_eq_false_2 (o = "")) by exact Ho.
    rewrite (bool_decide_eq_false_2 (o = "")) by exact Ho. cbn [negb]. discriminate.
Qed.

Lemma image_background_without_url_witness :
  let slide :=
    {| slide_id := 1; slide_type := "content"; slide_title := "Cover";
       slide_subtitle := None; slide_content := None; slide_author := None;
       slide_speakerNotes := None; slide_animation := None; slide_layout := None;
       slide_backgroundStyle := Some "image"; slide_imageUrl := None;
       slide_imageDescription := None;
       slide_styling :=
         Some {| titleSize := None; titleWeight := None; titleColor := None;
                 subtitleSize := None; contentSize := None; textAlign := None;
                 overlay := Some "dark" |} |} in
  slide_backgroundStyle slide = Some "image"
  /\ cssGet "backgroundImage" (getBackgroundStyle theme_general slide) = None
  /\ cssGet "backgroundColor" (getBackgroundStyle theme_general slide) = None
  /\ getOverlayStyle slide <> [].
Proof.
  cbv zeta. split; [reflexivity|].
  match goal with
  | |- cssGet _ (getBackgroundStyle ?t ?s) = _ /\ _ =>
      destruct (image_background_without_url t s eq_refl) as (Hc & _ & Hi & Ho)
  end.
  split; [exact Hi|]. split; [exact Hc|].
  apply Ho. exists "dark". split; [reflexivity | discriminate].
Defined.
